(** * vpcctl: a shallow embedding of [VPCManager] (src/vpcctl.py)

    The development follows the source method by method.

    - Python strings are modelled as [string]; a character is a code point
      below 256.  Code points above 255 (further Unicode spaces and decimal
      digits that [int] also reads) are outside the model.
    - [int(s)] follows CPython 3.11: surrounding whitespace, an optional sign,
      decimal digits optionally separated by single underscores, and the
      interpreter's cap on the number of digits ([sys.int_max_str_digits],
      [0] meaning no cap), which is a parameter here.
    - In the first part the directory of JSON files is a finite map from VPC
      name to the decoded record, and the shell is an oracle giving the
      outcome of each command from the events that happened before it: the
      program on names that are file names of the directory, with commands
      that exit and leave the records alone.
    - The second part, the module [Host], has the methods once more on a disk:
      a name is turned into a path that the kernel walks, so that two names
      can lead to one file and a name can lead nowhere or be too long;
      [subprocess.run] can raise; a command can change the disk.
    - Log lines are not modelled. *)

From Stdlib Require Import ZArith Ascii String List Bool Lia.
From stdpp Require Import base option list strings pretty gmap.

Local Open Scope string_scope.
Local Open Scope Z_scope.
Local Open Scope list_scope.

#[local] Arguments String.append : simpl nomatch.

(** ** Exceptions *)

Inductive exn : Type :=
| ValueError
| TypeError
| AttributeError
| OSError.

Inductive result (A : Type) : Type :=
| Ret (a : A)
| Raise (e : exn).

Arguments Ret {A} a.
Arguments Raise {A} e.

Definition rbind {A B} (r : result A) (k : A -> result B) : result B :=
  match r with
  | Ret a => k a
  | Raise e => Raise e
  end.

(** [try: body / except: handler] with a bare [except]. *)
Definition try_except {A} (body : result A) (handler : exn -> result A) : result A :=
  match body with
  | Ret a => Ret a
  | Raise e => handler e
  end.

Declare Scope result_scope.
Delimit Scope result_scope with result.
Notation "x <- r ;; k" := (rbind r (fun x => k))
  (at level 100, r at next level, right associativity) : result_scope.

(** ** The Python string operations the source uses *)

(** [s.split(sep)] for a one-character separator. *)
Fixpoint split_on (sep : ascii) (s : string) : list string :=
  match s with
  | EmptyString => [EmptyString]
  | String c s' =>
      if Ascii.eqb c sep then EmptyString :: split_on sep s'
      else match split_on sep s' with
           | [] => [String c EmptyString]
           | p :: ps => String c p :: ps
           end
  end.

(** [sep.join(parts)]. *)
Fixpoint join (sep : string) (parts : list string) : string :=
  match parts with
  | [] => EmptyString
  | [p] => p
  | p :: ps => p +:+ sep +:+ join sep ps
  end.

(** [s[:-1]]: the string without its last character; the empty string stays. *)
Fixpoint drop_last (s : string) : string :=
  match s with
  | EmptyString => EmptyString
  | String c EmptyString => EmptyString
  | String c s' => String c (drop_last s')
  end.

(** [l[0]] on the result of a split, which is never empty. *)
Definition first_part (l : list string) : string :=
  match l with
  | [] => EmptyString
  | p :: _ => p
  end.

(** ** [int(s)] *)

Definition code (c : ascii) : Z := Z.of_nat (nat_of_ascii c).

(** The characters [int] skips around a numeral: TAB, LF, VT, FF, CR, space,
    NEL (133) and the no-break space (160). *)
Definition is_space (c : ascii) : bool :=
  ((9 <=? code c) && (code c <=? 13)) || (code c =? 32)
  || (code c =? 133) || (code c =? 160).

Definition digit_val (c : ascii) : option Z :=
  if (48 <=? code c) && (code c <=? 57) then Some (code c - 48) else None.

Definition is_digit (c : ascii) : bool :=
  (48 <=? code c) && (code c <=? 57).

Definition is_underscore (c : ascii) : bool := Ascii.eqb c "_"%char.

Fixpoint lstrip (s : string) : string :=
  match s with
  | EmptyString => EmptyString
  | String c s' => if is_space c then lstrip s' else s
  end.

Fixpoint all_space (s : string) : bool :=
  match s with
  | EmptyString => true
  | String c s' => is_space c && all_space s'
  end.

(** The scan over digits and underscores: [prev_us] tells that the previous
    character was an underscore, [acc] is the value read so far and [cnt] the
    number of digits.  Two underscores in a row and a trailing underscore are
    errors; the scan stops at the first other character. *)
Fixpoint scan_digits (prev_us : bool) (acc : Z) (cnt : nat) (s : string)
  : option (Z * nat * string) :=
  match s with
  | EmptyString => if prev_us then None else Some (acc, cnt, EmptyString)
  | String c s' =>
      match digit_val c with
      | Some d => scan_digits false (acc * 10 + d) (S cnt) s'
      | None =>
          if is_underscore c then
            if prev_us then None else scan_digits true acc cnt s'
          else if prev_us then None else Some (acc, cnt, s)
      end
  end.

(** The sign in front of the numeral: whether it is a minus, and what follows. *)
Definition split_sign (s : string) : bool * string :=
  match s with
  | String c s' =>
      if Ascii.eqb c "+" then (false, s')
      else if Ascii.eqb c "-" then (true, s')
      else (false, s)
  | EmptyString => (false, s)
  end.

Definition starts_with_underscore (s : string) : bool :=
  match s with
  | String c _ => is_underscore c
  | EmptyString => false
  end.

Definition within_digit_cap (max_str_digits cnt : nat) : bool :=
  (max_str_digits =? 0)%nat || (cnt <=? max_str_digits)%nat.

(** [int(s)] in base 10; [None] stands for [ValueError]. *)
Definition py_int (max_str_digits : nat) (s : string) : option Z :=
  let '(neg, body) := split_sign (lstrip s) in
  if starts_with_underscore body then None
  else match scan_digits false 0 0%nat body with
       | None => None
       | Some (v, cnt, rest) =>
           if (cnt =? 0)%nat then None
           else if negb (within_digit_cap max_str_digits cnt) then None
           else if all_space rest then Some (if neg then - v else v)
           else None
       end.

Definition int_of (max_str_digits : nat) (s : string) : result Z :=
  match py_int max_str_digits s with
  | Some z => Ret z
  | None => Raise ValueError
  end.

(** [a, b = l]: unpacking into exactly two names. *)
Definition unpack2 (l : list string) : result (string * string) :=
  match l with
  | [a; b] => Ret (a, b)
  | _ => Raise ValueError
  end.

(** ** [validate_cidr] *)

Section Validator.

Variable max_str_digits : nat.

(** [all(0 <= int(p) <= 255 for p in parts)]: stops at the first part out
    of range, raises at the first part [int] rejects. *)
Fixpoint all_octets (parts : list string) : result bool :=
  match parts with
  | [] => Ret true
  | p :: ps =>
      (z <- int_of max_str_digits p ;;
       if (0 <=? z) && (z <=? 255) then all_octets ps else Ret false)%result
  end.

(** The body of the [try] block. *)
Definition validate_cidr_body (cidr : string) : result bool :=
  (ip_mask <- unpack2 (split_on "/" cidr) ;;
   let '(ip, mask) := ip_mask in
   mask <- int_of max_str_digits mask ;;
   let parts := split_on "." ip in
   if negb (length parts =? 4)%nat then Ret false
   else
     ok <- all_octets parts ;;
     if negb ok then Ret false
     else if negb ((0 <=? mask) && (mask <=? 32)) then Ret false
     else Ret true)%result.

Definition validate_cidr (cidr : string) : result bool :=
  try_except (validate_cidr_body cidr) (fun _ => Ret false).

End Validator.


(** ** Python dictionaries with string keys

    A [dict] keeps its entries in insertion order; it is an association list
    whose keys are pairwise distinct ([dict_wf]). *)

Section Dict.

Context {V : Type}.

Definition dict_keys (d : list (string * V)) : list string := map fst d.

Definition dict_wf (d : list (string * V)) : Prop := NoDup (dict_keys d).

(** [d.get(k)] *)
Fixpoint dict_get (k : string) (d : list (string * V)) : option V :=
  match d with
  | [] => None
  | (k', v) :: d' => if String.eqb k k' then Some v else dict_get k d'
  end.

(** [k in d] *)
Definition dict_mem (k : string) (d : list (string * V)) : bool :=
  match dict_get k d with
  | Some _ => true
  | None => false
  end.

(** [d[k] = v]: an existing key keeps its place, a new key goes last. *)
Fixpoint dict_set (k : string) (v : V) (d : list (string * V)) : list (string * V) :=
  match d with
  | [] => [(k, v)]
  | (k', v') :: d' =>
      if String.eqb k k' then (k', v) :: d' else (k', v') :: dict_set k v d'
  end.

(** [del d[k]] *)
Fixpoint dict_del (k : string) (d : list (string * V)) : list (string * V) :=
  match d with
  | [] => []
  | (k', v') :: d' =>
      if String.eqb k k' then d' else (k', v') :: dict_del k d'
  end.

End Dict.

(** ** Decoded JSON documents *)

#[local] Unset Elimination Schemes.
Inductive json : Type :=
| JNull
| JBool (b : bool)
| JInt (z : Z)
| JFloat (text : string)   (* a float, carried by what [str] prints for it *)
| JStr (s : string)
| JArr (items : list json)
| JObj (entries : list (string * json)).
#[local] Set Elimination Schemes.

(** [j.get(key, default)]; only a [dict] has the method. *)
Definition json_get (j : json) (key : string) (default : json) : result json :=
  match j with
  | JObj entries =>
      Ret (match dict_get key entries with Some v => v | None => default end)
  | _ => Raise AttributeError
  end.

(** [for x in j]: a list yields its items, a string its characters, a
    [dict] its keys; nothing else is iterable. *)
Definition json_iter (j : json) : result (list json) :=
  match j with
  | JArr items => Ret items
  | JStr s => Ret (map (fun c => JStr (String c EmptyString)) (list_ascii_of_string s))
  | JObj entries => Ret (map (fun kv => JStr (fst kv)) entries)
  | _ => Raise TypeError
  end.

(** [j == text] for a string literal [text]. *)
Definition json_eq_str (j : json) (text : string) : bool :=
  match j with
  | JStr s => String.eqb s text
  | _ => false
  end.

(** ** The persisted records and the world *)

Record CompletedProcess : Type := mkCompletedProcess {
  returncode : Z;
  stdout : string;
  stderr : string
}.

Record subnet_info : Type := mkSubnet {
  sn_cidr : string;
  sn_type : string;
  sn_namespace : string;
  sn_veth_host : string;
  sn_veth_ns : string
}.

Record vpc_config : Type := mkConfig {
  cfg_name : string;
  cfg_cidr : string;
  cfg_bridge : string;
  cfg_subnets : list (string * subnet_info)
}.

(** What the manager does to the outside, in the order it happens. *)
Inductive event : Type :=
| Cmd (cmd : string)                         (* a command handed to the shell *)
| Write (vpc : string) (config : vpc_config) (* [json.dump] to [<vpc>.json] *)
| Unlink (vpc : string).                     (* [<vpc>.json] removed *)

Record state : Type := mkState {
  files : gmap string vpc_config;
  trace : list event
}.

(** What lies at a rules-file path. *)
Inductive rules_file_content : Type :=
| NoSuchFile
| LoadRaises (e : exn)       (* [open] or [json.load] raises *)
| Loaded (document : json).

(** ** The monad of the methods: state and exceptions *)

Definition M (A : Type) : Type := state -> result A * state.

Definition ret {A} (a : A) : M A := fun st => (Ret a, st).

Definition bind {A B} (m : M A) (k : A -> M B) : M B :=
  fun st =>
    match m st with
    | (Ret a, st') => k a st'
    | (Raise e, st') => (Raise e, st')
    end.

Definition lift {A} (r : result A) : M A := fun st => (r, st).

Declare Scope M_scope.
Delimit Scope M_scope with M.
Notation "x <- m ;; k" := (bind m (fun x => k))
  (at level 100, m at next level, right associativity) : M_scope.
Notation "m ;; k" := (bind m (fun _ => k))
  (at level 100, right associativity) : M_scope.

(** [for x in l: body(x)] *)
Fixpoint for_each {A B} (l : list A) (body : A -> M B) : M unit :=
  match l with
  | [] => ret tt
  | x :: l' => (body x ;; for_each l' body)%M
  end.

(** [result.map] over a list, left to right. *)
Fixpoint rmap {A B} (f : A -> result B) (l : list A) : result (list B) :=
  match l with
  | [] => Ret []
  | x :: l' => (y <- f x ;; ys <- rmap f l' ;; Ret (y :: ys))%result
  end.

(** Truth value of what [run_cmd] returns: [None] is false, a
    [CompletedProcess] object is true whatever its [returncode]. *)
Definition truthy (r : option CompletedProcess) : bool :=
  match r with
  | Some _ => true
  | None => false
  end.

(** Truth value of an optional string argument: [None] and the empty string are false. *)
Definition truthy_str (s : option string) : option string :=
  match s with
  | Some EmptyString => None
  | other => other
  end.

(** ** The methods of [VPCManager]

    In this part the VPC name is the key of its record and every command
    exits and leaves the records alone: the program on names that are file
    names of the one directory.  The module [Host] further down turns the
    name into a path, lets [subprocess.run] raise and lets a command change
    the disk; [host_does_what_store_does] shows that the two agree on the
    names that are file names. *)

Section VPCManager.

(** [sys.int_max_str_digits]; [0] is no cap. *)
Variable max_str_digits : nat.

(** The shell: what a command returns, given everything done before. *)
Variable shell : list event -> string -> CompletedProcess.

(** The rules files on disk, by path. *)
Variable rules_files : string -> rules_file_content.

(** [str] of a decoded list or [dict] (Python's [repr] of containers). *)
Variable container_str : json -> string.

(** [f"{j}"] *)
Definition py_str (j : json) : string :=
  match j with
  | JNull => "None"
  | JBool true => "True"
  | JBool false => "False"
  | JInt z => pretty z
  | JFloat text => text
  | JStr s => s
  | other => container_str other
  end.

(** [subprocess.run(cmd, shell=True, ..., check=check)] inside
    [try/except CalledProcessError]: with [check] a non-zero exit status
    raises and [None] is returned; without it the [CompletedProcess] is
    returned whatever the exit status.  Here every command exits; a
    [subprocess.run] that raises anything else is in [Host.run_cmd]. *)
Definition run_cmd (cmd : string) (check : bool) : M (option CompletedProcess) :=
  fun st =>
    let result := shell (trace st) cmd in
    let st' := mkState (files st) (trace st ++ [Cmd cmd])%list in
    if check && negb (returncode result =? 0) then (Ret None, st')
    else (Ret (Some result), st').

(** [config_file.exists()] and, if so, [json.load], for a name that is the
    key of its record. *)
Definition load_config (vpc : string) : M (option vpc_config) :=
  fun st => (Ret (files st !! vpc), st).

(** [with open(config_file, 'w') as f: json.dump(config, f, indent=2)], for
    a name that is the key of its record: the file can be opened. *)
Definition dump_config (vpc : string) (config : vpc_config) : M unit :=
  fun st =>
    (Ret tt, mkState (<[vpc := config]> (files st)) (trace st ++ [Write vpc config])%list).

(** [config_file.unlink()] *)
Definition unlink (vpc : string) : M unit :=
  fun st =>
    match files st !! vpc with
    | Some _ => (Ret tt, mkState (delete vpc (files st)) (trace st ++ [Unlink vpc])%list)
    | None => (Raise OSError, st)
    end.

Definition create_vpc (name cidr : string) : M bool :=
  (valid <- lift (validate_cidr max_str_digits cidr) ;;
   if negb valid then ret false
   else
     let bridge_name := "br-" +:+ name in
     shown <- run_cmd ("ip link show " +:+ bridge_name) false ;;
     (if negb (truthy shown) then
        run_cmd ("ip link add " +:+ bridge_name +:+ " type bridge") true ;;
        run_cmd ("ip link set " +:+ bridge_name +:+ " up") true ;;
        ret tt
      else ret tt) ;;
     let vpc_config := mkConfig name cidr bridge_name [] in
     dump_config name vpc_config ;;
     ret true)%M.

Definition delete_subnet (vpc_name subnet_name : string) : M bool :=
  (loaded <- load_config vpc_name ;;
   match loaded with
   | None => ret false
   | Some config =>
       match dict_get subnet_name (cfg_subnets config) with
       | None => ret false
       | Some subnet_info =>
           run_cmd ("ip netns delete " +:+ sn_namespace subnet_info) false ;;
           let config' :=
             mkConfig (cfg_name config) (cfg_cidr config) (cfg_bridge config)
                      (dict_del subnet_name (cfg_subnets config)) in
           dump_config vpc_name config' ;;
           ret true
       end
   end)%M.

Definition delete_vpc (name : string) : M bool :=
  (loaded <- load_config name ;;
   match loaded with
   | None => ret false
   | Some config =>
       for_each (dict_keys (cfg_subnets config))
                (fun subnet_name => delete_subnet name subnet_name) ;;
       let bridge_name := cfg_bridge config in
       run_cmd ("ip link set " +:+ bridge_name +:+ " down") false ;;
       run_cmd ("ip link delete " +:+ bridge_name +:+ " type bridge") false ;;
       unlink name ;;
       ret true
   end)%M.

(** [cidr.split('/')[0][:-1] + "1"] *)
Definition gateway_ip (cidr : string) : string :=
  drop_last (first_part (split_on "/" cidr)) +:+ "1".

Definition create_subnet (vpc_name subnet_name cidr subnet_type : string) : M bool :=
  (loaded <- load_config vpc_name ;;
   match loaded with
   | None => ret false
   | Some config =>
       let ns_name := "ns-" +:+ vpc_name +:+ "-" +:+ subnet_name in
       listed <- run_cmd ("ip netns list | grep -q " +:+ ns_name) false ;;
       (if negb (truthy listed) then
          run_cmd ("ip netns add " +:+ ns_name) true ;; ret tt
        else ret tt) ;;
       let veth_host := "veth-" +:+ subnet_name +:+ "-host" in
       let veth_ns := "veth-" +:+ subnet_name +:+ "-ns" in
       run_cmd ("ip link add " +:+ veth_host +:+ " type veth peer name " +:+ veth_ns) true ;;
       run_cmd ("ip link set " +:+ veth_ns +:+ " netns " +:+ ns_name) true ;;
       run_cmd ("ip link set " +:+ veth_host +:+ " master " +:+ cfg_bridge config) true ;;
       run_cmd ("ip link set " +:+ veth_host +:+ " up") true ;;
       run_cmd ("ip netns exec " +:+ ns_name +:+ " ip link set lo up") true ;;
       run_cmd ("ip netns exec " +:+ ns_name +:+ " ip link set " +:+ veth_ns +:+ " up") true ;;
       run_cmd ("ip netns exec " +:+ ns_name +:+ " ip addr add " +:+ cidr +:+ " dev " +:+ veth_ns) true ;;
       let gateway := gateway_ip cidr in
       run_cmd ("ip netns exec " +:+ ns_name +:+ " ip route add default via " +:+ gateway) true ;;
       let config' :=
         mkConfig (cfg_name config) (cfg_cidr config) (cfg_bridge config)
                  (dict_set subnet_name
                            (mkSubnet cidr subnet_type ns_name veth_host veth_ns)
                            (cfg_subnets config)) in
       dump_config vpc_name config' ;;
       ret true
   end)%M.

Definition setup_nat (vpc_name public_subnet host_interface : string) : M bool :=
  (loaded <- load_config vpc_name ;;
   match loaded with
   | None => ret false
   | Some config =>
       if negb (dict_mem public_subnet (cfg_subnets config)) then ret false
       else
         run_cmd "sysctl -w net.ipv4.ip_forward=1" true ;;
         let vpc_cidr := cfg_cidr config in
         run_cmd ("iptables -t nat -A POSTROUTING -s " +:+ vpc_cidr +:+ " -o "
                  +:+ host_interface +:+ " -j MASQUERADE") true ;;
         run_cmd ("iptables -A FORWARD -i " +:+ cfg_bridge config +:+ " -o "
                  +:+ host_interface +:+ " -j ACCEPT") true ;;
         run_cmd ("iptables -A FORWARD -i " +:+ host_interface +:+ " -o "
                  +:+ cfg_bridge config
                  +:+ " -m state --state RELATED,ESTABLISHED -j ACCEPT") true ;;
         ret true
   end)%M.

Definition exec_command (vpc_name subnet_name command : string) : M bool :=
  (loaded <- load_config vpc_name ;;
   match loaded with
   | None => ret false
   | Some config =>
       match dict_get subnet_name (cfg_subnets config) with
       | None => ret false
       | Some subnet_info =>
           let ns_name := sn_namespace subnet_info in
           let full_cmd := "ip netns exec " +:+ ns_name +:+ " " +:+ command in
           result <- run_cmd full_cmd false ;;
           ret (match result with
                | Some r => returncode r =? 0
                | None => false
                end)
       end
   end)%M.

(** The six commands every [apply_firewall] starts its list with. *)
Definition base_rules (ns_name : string) : list string :=
  [ "ip netns exec " +:+ ns_name +:+ " iptables -F";
    "ip netns exec " +:+ ns_name +:+ " iptables -P INPUT DROP";
    "ip netns exec " +:+ ns_name +:+ " iptables -P FORWARD DROP";
    "ip netns exec " +:+ ns_name +:+ " iptables -P OUTPUT ACCEPT";
    "ip netns exec " +:+ ns_name
      +:+ " iptables -A INPUT -m state --state ESTABLISHED,RELATED -j ACCEPT";
    "ip netns exec " +:+ ns_name +:+ " iptables -A INPUT -i lo -j ACCEPT" ].

(** The two commands appended last. *)
Definition demo_rules (ns_name : string) : list string :=
  [ "ip netns exec " +:+ ns_name +:+ " iptables -A INPUT -p tcp --dport 22 -j ACCEPT";
    "ip netns exec " +:+ ns_name +:+ " iptables -A INPUT -p tcp --dport 80 -j ACCEPT" ].

(** One turn of the loop over [rules.get("ingress", [])]. *)
Definition ingress_rule (ns_name : string) (rule : json) : result string :=
  (port <- json_get rule "port" JNull ;;
   protocol <- json_get rule "protocol" (JStr "tcp") ;;
   action <- json_get rule "action" (JStr "allow") ;;
   if json_eq_str action "allow" then
     Ret ("ip netns exec " +:+ ns_name +:+ " iptables -A INPUT -p " +:+ py_str protocol
          +:+ " --dport " +:+ py_str port +:+ " -j ACCEPT")
   else
     Ret ("ip netns exec " +:+ ns_name +:+ " iptables -A INPUT -p " +:+ py_str protocol
          +:+ " --dport " +:+ py_str port +:+ " -j DROP"))%result.

(** The [try] block: the commands it appends, or the exception. *)
Definition custom_rules (ns_name : string) (rules_file : string) : result (list string) :=
  (rules <- match rules_files rules_file with
            | Loaded document => Ret document
            | LoadRaises e => Raise e
            | NoSuchFile => Raise OSError
            end ;;
   ingress <- json_get rules "ingress" (JArr []) ;;
   items <- json_iter ingress ;;
   rmap (ingress_rule ns_name) items)%result.

(** [os.path.exists(rules_file)] *)
Definition path_exists (rules_file : string) : bool :=
  match rules_files rules_file with
  | NoSuchFile => false
  | _ => true
  end.

Definition apply_firewall (vpc_name subnet_name : string) (rules_file : option string)
  : M bool :=
  (loaded <- load_config vpc_name ;;
   match loaded with
   | None => ret false
   | Some config =>
       match dict_get subnet_name (cfg_subnets config) with
       | None => ret false
       | Some subnet_info =>
           let ns_name := sn_namespace subnet_info in
           let cmds := base_rules ns_name in
           let extended :=
             match truthy_str rules_file with
             | Some path =>
                 if path_exists path then
                   match custom_rules ns_name path with
                   | Ret custom => Some (cmds ++ custom)%list
                   | Raise _ => None
                   end
                 else Some cmds
             | None => Some cmds
             end in
           match extended with
           | None => ret false
           | Some cmds =>
               for_each (cmds ++ demo_rules ns_name)%list (fun cmd => run_cmd cmd true) ;;
               ret true
           end
       end
   end)%M.

End VPCManager.

(** The subcommands of [main] that name a VPC and a subnet, with their
    remaining arguments. *)
Inductive subnet_op : Type :=
| OpCreateSubnet (cidr subnet_type : string)
| OpDeleteSubnet
| OpSetupNat (host_interface : string)
| OpApplyFirewall (rules_file : option string)
| OpExec (command : string).

(** The dispatch of [main] on those subcommands. *)
Definition run_subnet_op
    (shell : list event -> string -> CompletedProcess)
    (rules_files : string -> rules_file_content) (container_str : json -> string)
    (op : subnet_op) (vpc subnet : string) : M bool :=
  match op with
  | OpCreateSubnet cidr subnet_type => create_subnet shell vpc subnet cidr subnet_type
  | OpDeleteSubnet => delete_subnet shell vpc subnet
  | OpSetupNat host_interface => setup_nat shell vpc subnet host_interface
  | OpApplyFirewall rules_file =>
      apply_firewall shell rules_files container_str vpc subnet rules_file
  | OpExec command => exec_command shell vpc subnet command
  end.

(** Which subcommands look the subnet up in the record. *)
Definition looks_up_subnet (op : subnet_op) : bool :=
  match op with
  | OpCreateSubnet _ _ => false
  | _ => true
  end.

(** ** Definitions that follow the wording of the specification *)

(** "a.b.c.d/m": five numbers written in decimal. *)
Definition dotted_quad (a b c d m : nat) : string :=
  pretty a +:+ "." +:+ pretty b +:+ "." +:+ pretty c +:+ "." +:+ pretty d
  +:+ "/" +:+ pretty m.

(** "octets in [0,255] and m in [0,32]". *)
Definition is_dotted_quad_cidr (s : string) : Prop :=
  exists a b c d m : nat,
    (a <= 255)%nat /\ (b <= 255)%nat /\ (c <= 255)%nat /\ (d <= 255)%nat
    /\ (m <= 32)%nat /\ s = dotted_quad a b c d m.

Fixpoint replace_last (x : string) (l : list string) : list string :=
  match l with
  | [] => []
  | [_] => [x]
  | p :: ps => p :: replace_last x ps
  end.

(** "replacing the last octet of the network address with 1": the address is
    what stands before the slash, its octets are what the dots separate. *)
Definition gateway_by_octets (cidr : string) : string :=
  join "." (replace_last "1" (split_on "." (first_part (split_on "/" cidr)))).

(** ** What [int] reads, said without the scanner *)

(** [c] does not occur in [s]. *)
Fixpoint no_char (c : ascii) (s : string) : bool :=
  match s with
  | EmptyString => true
  | String c' s' => negb (Ascii.eqb c' c) && no_char c s'
  end.

(** The first character of [s] is there and satisfies [P]. *)
Definition head_is (P : ascii -> bool) (s : string) : bool :=
  match s with
  | EmptyString => false
  | String c _ => P c
  end.

Definition digit_or_underscore (c : ascii) : bool := is_digit c || is_underscore c.

(** What may follow the first digit: digits, each optionally preceded by one
    underscore. *)
Inductive digits_tail : string -> Prop :=
| dt_end : digits_tail EmptyString
| dt_digit c s : is_digit c = true -> digits_tail s -> digits_tail (String c s)
| dt_underscore c s :
    is_digit c = true -> digits_tail s -> digits_tail (String "_" (String c s)).

Definition numeral_body (s : string) : Prop :=
  match s with
  | EmptyString => False
  | String c s' => is_digit c = true /\ digits_tail s'
  end.

(** The value of the digits of [s], read left to right after [acc]. *)
Fixpoint numeral_value (acc : Z) (s : string) : Z :=
  match s with
  | EmptyString => acc
  | String c s' =>
      match digit_val c with
      | Some d => numeral_value (acc * 10 + d) s'
      | None => numeral_value acc s'
      end
  end.

Fixpoint digit_count (s : string) : nat :=
  match s with
  | EmptyString => 0%nat
  | String c s' => if is_digit c then S (digit_count s') else digit_count s'
  end.

(** [t] is whitespace, an optional sign, a numeral and whitespace, the
    numeral within the digit cap, and [z] is its signed value. *)
Definition int_literal (max_str_digits : nat) (t : string) (z : Z) : Prop :=
  exists lead sign body trail,
    t = lead +:+ sign +:+ body +:+ trail
    /\ all_space lead = true /\ all_space trail = true
    /\ numeral_body body
    /\ (max_str_digits = 0%nat \/ (digit_count body <= max_str_digits)%nat)
    /\ (((sign = EmptyString \/ sign = "+") /\ z = numeral_value 0 body)
        \/ (sign = "-" /\ z = - numeral_value 0 body)).

(** The strings [validate_cidr] takes: four tokens between dots, a slash and
    a fifth token, every token read by [int], the first four to a value in
    [0,255] and the fifth to a value in [0,32]. *)
Definition python_cidr (max_str_digits : nat) (s : string) : Prop :=
  exists t1 t2 t3 t4 tm z1 z2 z3 z4 zm,
    s = t1 +:+ "." +:+ t2 +:+ "." +:+ t3 +:+ "." +:+ t4 +:+ "/" +:+ tm
    /\ int_literal max_str_digits t1 z1 /\ 0 <= z1 <= 255
    /\ int_literal max_str_digits t2 z2 /\ 0 <= z2 <= 255
    /\ int_literal max_str_digits t3 z3 /\ 0 <= z3 <= 255
    /\ int_literal max_str_digits t4 z4 /\ 0 <= z4 <= 255
    /\ int_literal max_str_digits tm zm /\ 0 <= zm <= 32.

(** The interpreter refuses a cap below 640 digits. *)
Definition digit_cap_allowed (max_str_digits : nat) : Prop :=
  max_str_digits = 0%nat \/ (640 <= max_str_digits)%nat.

(** The state once [cmd] has been handed to the shell. *)
Definition after_cmd (cmd : string) (st : state) : state :=
  mkState (files st) (trace st ++ [Cmd cmd]).

(** The record [create_vpc] writes. *)
Definition fresh_config (name cidr : string) : vpc_config :=
  mkConfig name cidr ("br-" +:+ name) [].

(** The commands of [create_subnet] once the namespace has been looked for. *)
Definition subnet_wiring (bridge vpc_name subnet_name cidr : string) : list string :=
  let ns_name := "ns-" +:+ vpc_name +:+ "-" +:+ subnet_name in
  let veth_host := "veth-" +:+ subnet_name +:+ "-host" in
  let veth_ns := "veth-" +:+ subnet_name +:+ "-ns" in
  [ "ip link add " +:+ veth_host +:+ " type veth peer name " +:+ veth_ns;
    "ip link set " +:+ veth_ns +:+ " netns " +:+ ns_name;
    "ip link set " +:+ veth_host +:+ " master " +:+ bridge;
    "ip link set " +:+ veth_host +:+ " up";
    "ip netns exec " +:+ ns_name +:+ " ip link set lo up";
    "ip netns exec " +:+ ns_name +:+ " ip link set " +:+ veth_ns +:+ " up";
    "ip netns exec " +:+ ns_name +:+ " ip addr add " +:+ cidr +:+ " dev " +:+ veth_ns;
    "ip netns exec " +:+ ns_name +:+ " ip route add default via " +:+ gateway_ip cidr ].

(** The record [create_subnet] writes. *)
Definition with_subnet (config : vpc_config) (vpc_name subnet_name cidr subnet_type : string)
  : vpc_config :=
  mkConfig (cfg_name config) (cfg_cidr config) (cfg_bridge config)
           (dict_set subnet_name
              (mkSubnet cidr subnet_type ("ns-" +:+ vpc_name +:+ "-" +:+ subnet_name)
                        ("veth-" +:+ subnet_name +:+ "-host")
                        ("veth-" +:+ subnet_name +:+ "-ns"))
              (cfg_subnets config)).

(** The record [delete_subnet] writes. *)
Definition without_subnet (config : vpc_config) (subnet_name : string) : vpc_config :=
  mkConfig (cfg_name config) (cfg_cidr config) (cfg_bridge config)
           (dict_del subnet_name (cfg_subnets config)).

(** What [delete_vpc] does for the subnets [subnets] of a record whose other
    fields are [name], [cidr] and [bridge], first to last: the namespace of
    each is deleted and the record is written back without it. *)
Fixpoint subnet_teardown (vpc name cidr bridge : string)
    (subnets : list (string * subnet_info)) : list event :=
  match subnets with
  | [] => []
  | (_, info) :: rest =>
      Cmd ("ip netns delete " +:+ sn_namespace info)
      :: Write vpc (mkConfig name cidr bridge rest)
      :: subnet_teardown vpc name cidr bridge rest
  end.

(** What [delete_vpc] does for the bridge. *)
Definition bridge_teardown (bridge : string) : list event :=
  [ Cmd ("ip link set " +:+ bridge +:+ " down");
    Cmd ("ip link delete " +:+ bridge +:+ " type bridge") ].

Definition is_unlink (e : event) : bool :=
  match e with
  | Unlink _ => true
  | _ => false
  end.

(** What is checked of the decimal numeral of a small number. *)
Definition small_numeral_ok (a : nat) : bool :=
  match py_int 0 (pretty a) with
  | Some z => z =? Z.of_nat a
  | None => false
  end
  && (String.length (pretty a) <=? 3)%nat
  && head_is is_digit (pretty a).

(** ** Listing *)

(** The line feed that [print(f"\nVPC: ...")] starts with. *)
Definition line_feed : string := String (ascii_of_nat 10) EmptyString.

(** [print(f"  - {subnet_name}: {subnet_info['cidr']} ({subnet_info['type']})")] *)
Definition subnet_line (entry : string * subnet_info) : string :=
  "  - " +:+ fst entry +:+ ": " +:+ sn_cidr (snd entry) +:+ " (" +:+ sn_type (snd entry) +:+ ")".

(** What the body of the loop of [list_vpcs] prints for one record, one
    string for each call of [print]. *)
Definition vpc_lines (config : vpc_config) : list string :=
  [ line_feed +:+ "VPC: " +:+ cfg_name config +:+ " (" +:+ cfg_cidr config +:+ ")";
    "Bridge: " +:+ cfg_bridge config;
    "Subnets:" ]
  ++ map subnet_line (cfg_subnets config).

(** [open(vpc_file)] and [json.load], then the prints. *)
Definition print_vpc (st : state) (vpc : string) : result (list string) :=
  match files st !! vpc with
  | Some config => Ret (vpc_lines config)
  | None => Raise OSError
  end.

(** [list_vpcs]: what it prints after its log line, one string for each call
    of [print].  [glob] is [self.vpc_dir.glob("*.json")]: the names on record,
    in the order the directory gives them. *)
Definition list_vpcs (glob : gmap string vpc_config -> list string) (st : state)
  : result (list string) :=
  let vpc_files := glob (files st) in
  match vpc_files with
  | [] => Ret ["No VPCs found"]
  | _ => (blocks <- rmap (print_vpc st) vpc_files ;; Ret (concat blocks))%result
  end.

(** The directory holds one file for each record and nothing else. *)
Definition lists_the_store (glob : gmap string vpc_config -> list string) : Prop :=
  forall store, glob store ≡ₚ map fst (map_to_list store).

(** ** All the methods *)

(** The subcommands of [main] but [list-vpcs], with their arguments. *)
Inductive operation : Type :=
| OpCreateVpc (name cidr : string)
| OpDeleteVpc (name : string)
| OpOnSubnet (op : subnet_op) (vpc subnet : string).

(** The dispatch of [main]. *)
Definition run_operation (max_str_digits : nat)
    (shell : list event -> string -> CompletedProcess)
    (rules_files : string -> rules_file_content) (container_str : json -> string)
    (o : operation) : M bool :=
  match o with
  | OpCreateVpc name cidr => create_vpc max_str_digits shell name cidr
  | OpDeleteVpc name => delete_vpc shell name
  | OpOnSubnet op vpc subnet => run_subnet_op shell rules_files container_str op vpc subnet
  end.

(** The VPC an operation names. *)
Definition operation_vpc (o : operation) : string :=
  match o with
  | OpCreateVpc name _ => name
  | OpDeleteVpc name => name
  | OpOnSubnet _ vpc _ => vpc
  end.


(** The operations that only read the store. *)
Definition reads_only (o : operation) : bool :=
  match o with
  | OpOnSubnet (OpSetupNat _) _ _ => true
  | OpOnSubnet (OpApplyFirewall _) _ _ => true
  | OpOnSubnet (OpExec _) _ _ => true
  | _ => false
  end.

(** How often [c] occurs in [s]. *)
Fixpoint count_char (c : ascii) (s : string) : nat :=
  match s with
  | EmptyString => 0%nat
  | String c' s' => if Ascii.eqb c' c then S (count_char c s') else count_char c s'
  end.

(** The directory read in the order of the keys of the map. *)
Definition glob_by_key : gmap string vpc_config -> list string :=
  fun store => map fst (map_to_list store).

(** ** Worlds for the examples *)

(** A host on which every command exits with status 1: no bridge and no
    namespace is there to be shown. *)
Definition shell_all_fail : list event -> string -> CompletedProcess :=
  fun _ _ => mkCompletedProcess 1 EmptyString EmptyString.

Definition no_rules_files : string -> rules_file_content :=
  fun _ => NoSuchFile.

(** Three rules files: [rules.json] is there and is not JSON; in
    [ingress.json] the ingress field is a number; [good.json] allows port 443
    and denies port 23. *)
Definition demo_rules_files : string -> rules_file_content :=
  fun path =>
    if String.eqb path "rules.json" then LoadRaises ValueError
    else if String.eqb path "ingress.json" then Loaded (JObj [("ingress", JInt 5)])
    else if String.eqb path "good.json" then
      Loaded (JObj [("ingress",
                     JArr [JObj [("port", JInt 443)];
                           JObj [("port", JInt 23); ("action", JStr "deny")]])])
    else NoSuchFile.

Definition no_container_str : json -> string := fun _ => EmptyString.

Definition subnet_web : subnet_info :=
  mkSubnet "10.1.1.0/24" "public" "ns-test-web" "veth-web-host" "veth-web-ns".

Definition subnet_db : subnet_info :=
  mkSubnet "10.1.2.0/24" "private" "ns-test-db" "veth-db-host" "veth-db-ns".

Definition config_test : vpc_config :=
  mkConfig "test" "10.1.0.0/16" "br-test" [("web", subnet_web); ("db", subnet_db)].

Definition config_test_empty : vpc_config :=
  mkConfig "test" "10.1.0.0/16" "br-test" [].

Definition empty_store : state := mkState ∅ [].

Definition store_test : state := mkState {[ "test" := config_test ]} [].

Definition store_test_empty : state := mkState {[ "test" := config_test_empty ]} [].

(** A host on which every command exits with status 0. *)
Definition shell_all_succeed : list event -> string -> CompletedProcess :=
  fun _ _ => mkCompletedProcess 0 EmptyString EmptyString.

(** ** The host: where a name leads, and a shell that can fail

    The methods once more, on a host that is told apart from the store of the
    first part in three ways, after CPython 3.11 on Linux:
    - a VPC name is turned into the path [vpc_dir / f"{name}.json"] and the
      kernel walks that path: two names can lead to one file, a name can lead
      into a directory that is not there, and a name can be too long or hold
      a NUL byte;
    - [subprocess.run] can raise something other than [CalledProcessError]
      (a NUL byte in the command, output that is not UTF-8), which [run_cmd]
      does not catch;
    - the command that runs can change the files and the directories.
    Symbolic links and permissions are not modelled (the program runs as
    root), and every file a name leads to holds a record. *)

Module Host.

(** An absolute path, by its components. *)
Definition path : Type := list string.

(** [Path("/tmp/vpc_configs")] *)
Definition vpc_dir : path := ["tmp"; "vpc_configs"].

(** What the kernel finds at the end of a path. *)
Inductive location : Type :=
| File (p : path)      (* a place for a file, in a directory that is there *)
| Directory            (* a directory *)
| NoSuchDirectory      (* ENOENT or ENOTDIR on the way *)
| NameTooLong          (* ENAMETOOLONG *)
| NullByte.            (* an embedded NUL: [ValueError] before any system call *)

Definition has_nul (s : string) : bool := negb (no_char "000"%char s).

(** The number of bytes of [s] in UTF-8. *)
Fixpoint utf8_length (s : string) : nat :=
  match s with
  | EmptyString => 0%nat
  | String c s' => ((if (code c <? 128)%Z then 1 else 2) + utf8_length s')%nat
  end.

(** pathlib drops empty components and components that are a single dot. *)
Definition is_component (c : string) : bool :=
  negb (String.eqb c EmptyString) && negb (String.eqb c ".").

Definition components (file : string) : list string :=
  List.filter is_component (split_on "/" file).

Definition is_slash (c : ascii) : bool := Ascii.eqb c "/".

(** pathlib keeps a root of exactly two slashes. *)
Definition double_root (file : string) : bool :=
  match file with
  | String _ (String c2 rest) => is_slash c2 && negb (head_is is_slash rest)
  | _ => false
  end.

(** The bytes of the path before its first component: [/tmp/vpc_configs] for
    a relative name, the root less one for an absolute one. *)
Definition prefix_bytes (file : string) : nat :=
  if head_is is_slash file then (if double_root file then 1%nat else 0%nat)
  else 16%nat.

(** The bytes of [str(path)]: each component with the slash before it. *)
Definition path_bytes (file : string) : nat :=
  (prefix_bytes file
   + list_sum (map (fun c => S (utf8_length c)) (components file)))%nat.

Definition parent (p : path) : path := removelast p.

Definition is_dotdot (c : string) : bool := String.eqb c "..".

(** The walk of the kernel from the directory [cur] along [comps]: a name of
    more than 255 bytes is refused where it is looked up, a component that is
    no directory ends the walk. *)
Fixpoint walk (is_dir : path -> bool) (cur : path) (comps : list string) : location :=
  match comps with
  | [] => Directory
  | [f] =>
      if (255 <? utf8_length f)%nat then NameTooLong
      else if is_dir (cur ++ [f]) then Directory
      else File (cur ++ [f])
  | c :: rest =>
      if is_dotdot c then walk is_dir (parent cur) rest
      else if (255 <? utf8_length c)%nat then NameTooLong
      else if is_dir (cur ++ [c]) then walk is_dir (cur ++ [c]) rest
      else NoSuchDirectory
  end.

(** Where [self.vpc_dir / f"{name}.json"] leads. *)
Definition locate (is_dir : path -> bool) (name : string) : location :=
  let file := name +:+ ".json" in
  if has_nul file then NullByte
  else if (4096 <=? path_bytes file)%nat then NameTooLong
  else walk is_dir [] (if head_is is_slash file then components file
                       else vpc_dir ++ components file).

(** What [subprocess.run] comes to, when it is not [CalledProcessError]. *)
Inductive outcome : Type :=
| Exited (result : CompletedProcess)
| Fails (e : exn).

(** The directories and the records on the disk. *)
Record disk : Type := mkDisk {
  dirs : gset path;
  files : gmap path vpc_config
}.

(** The root is a directory whatever the others are. *)
Definition is_directory (directories : gset path) (p : path) : bool :=
  match p with
  | [] => true
  | _ => bool_decide (p ∈ directories)
  end.

Definition write_file (p : path) (config : vpc_config) (d : disk) : disk :=
  mkDisk (dirs d) (<[p := config]> (files d)).

Definition remove_file (p : path) (d : disk) : disk :=
  mkDisk (dirs d) (delete p (files d)).

Record host : Type := mkHost {
  on_disk : disk;
  trace : list event
}.

(** Where a VPC name leads on a host. *)
Definition locate_on (st : host) (name : string) : location :=
  locate (is_directory (dirs (on_disk st))) name.

(** The record a path holds on a host. *)
Definition record_at (st : host) (p : path) : option vpc_config :=
  files (on_disk st) !! p.

Definition M (A : Type) : Type := host -> result A * host.

Definition ret {A} (a : A) : M A := fun st => (Ret a, st).

Definition bind {A B} (m : M A) (k : A -> M B) : M B :=
  fun st =>
    match m st with
    | (Ret a, st') => k a st'
    | (Raise e, st') => (Raise e, st')
    end.

Definition lift {A} (r : result A) : M A := fun st => (r, st).

Definition raise {A} (e : exn) : M A := fun st => (Raise e, st).

Declare Scope host_scope.
Delimit Scope host_scope with host.
Notation "x <- m ;; k" := (bind m (fun x => k))
  (at level 100, m at next level, right associativity) : host_scope.
Notation "m ;; k" := (bind m (fun _ => k))
  (at level 100, right associativity) : host_scope.

Fixpoint for_each {A B} (l : list A) (body : A -> M B) : M unit :=
  match l with
  | [] => ret tt
  | x :: l' => (body x ;; for_each l' body)%host
  end.

Section Methods.

Variable max_str_digits : nat.

(** The shell: what running a command comes to and the disk it leaves,
    given the disk and everything done before. *)
Variable shell : disk -> list event -> string -> outcome * disk.

Variable rules_files : string -> rules_file_content.
Variable container_str : json -> string.

(** [run_cmd]: a NUL byte in the command makes [subprocess.run] raise
    [ValueError] before anything runs; any other exception than
    [CalledProcessError] passes through as well. *)
Definition run_cmd (cmd : string) (check : bool) : M (option CompletedProcess) :=
  fun st =>
    if has_nul cmd then (Raise ValueError, st)
    else
      let ran := shell (on_disk st) (trace st) cmd in
      let st' := mkHost (snd ran) (trace st ++ [Cmd cmd]) in
      match fst ran with
      | Fails e => (Raise e, st')
      | Exited result =>
          if check && negb (returncode result =? 0) then (Ret None, st')
          else (Ret (Some result), st')
      end.

(** [config_file.exists()]: false where nothing can be, and an [OSError] for
    a name that is too long. *)
Definition config_exists (vpc : string) : M bool :=
  fun st =>
    match locate_on st vpc with
    | File p => (Ret (bool_decide (is_Some (record_at st p))), st)
    | Directory => (Ret true, st)
    | NoSuchDirectory => (Ret false, st)
    | NullByte => (Ret false, st)
    | NameTooLong => (Raise OSError, st)
    end.

(** [with open(config_file) as f: config = json.load(f)] *)
Definition load_config (vpc : string) : M vpc_config :=
  fun st =>
    match locate_on st vpc with
    | File p =>
        match record_at st p with
        | Some config => (Ret config, st)
        | None => (Raise OSError, st)
        end
    | NullByte => (Raise ValueError, st)
    | _ => (Raise OSError, st)
    end.

(** [with open(config_file, 'w') as f: json.dump(config, f, indent=2)] *)
Definition dump_config (vpc : string) (config : vpc_config) : M unit :=
  fun st =>
    match locate_on st vpc with
    | File p =>
        (Ret tt, mkHost (write_file p config (on_disk st)) (trace st ++ [Write vpc config]))
    | NullByte => (Raise ValueError, st)
    | _ => (Raise OSError, st)
    end.

(** [config_file.unlink()] *)
Definition unlink (vpc : string) : M unit :=
  fun st =>
    match locate_on st vpc with
    | File p =>
        match record_at st p with
        | Some _ => (Ret tt, mkHost (remove_file p (on_disk st)) (trace st ++ [Unlink vpc]))
        | None => (Raise OSError, st)
        end
    | NullByte => (Raise ValueError, st)
    | _ => (Raise OSError, st)
    end.

Definition create_vpc (name cidr : string) : M bool :=
  (valid <- lift (validate_cidr max_str_digits cidr) ;;
   if negb valid then ret false
   else
     let bridge_name := "br-" +:+ name in
     shown <- run_cmd ("ip link show " +:+ bridge_name) false ;;
     (if negb (truthy shown) then
        run_cmd ("ip link add " +:+ bridge_name +:+ " type bridge") true ;;
        run_cmd ("ip link set " +:+ bridge_name +:+ " up") true ;;
        ret tt
      else ret tt) ;;
     let vpc_config := mkConfig name cidr bridge_name [] in
     dump_config name vpc_config ;;
     ret true)%host.

Definition delete_subnet (vpc_name subnet_name : string) : M bool :=
  (found <- config_exists vpc_name ;;
   if negb found then ret false
   else
     config <- load_config vpc_name ;;
     match dict_get subnet_name (cfg_subnets config) with
     | None => ret false
     | Some subnet_info =>
         run_cmd ("ip netns delete " +:+ sn_namespace subnet_info) false ;;
         let config' :=
           mkConfig (cfg_name config) (cfg_cidr config) (cfg_bridge config)
                    (dict_del subnet_name (cfg_subnets config)) in
         dump_config vpc_name config' ;;
         ret true
     end)%host.

Definition delete_vpc (name : string) : M bool :=
  (found <- config_exists name ;;
   if negb found then ret false
   else
     config <- load_config name ;;
     for_each (dict_keys (cfg_subnets config))
              (fun subnet_name => delete_subnet name subnet_name) ;;
     let bridge_name := cfg_bridge config in
     run_cmd ("ip link set " +:+ bridge_name +:+ " down") false ;;
     run_cmd ("ip link delete " +:+ bridge_name +:+ " type bridge") false ;;
     unlink name ;;
     ret true)%host.

Definition create_subnet (vpc_name subnet_name cidr subnet_type : string) : M bool :=
  (found <- config_exists vpc_name ;;
   if negb found then ret false
   else
     config <- load_config vpc_name ;;
     let ns_name := "ns-" +:+ vpc_name +:+ "-" +:+ subnet_name in
     listed <- run_cmd ("ip netns list | grep -q " +:+ ns_name) false ;;
     (if negb (truthy listed) then
        run_cmd ("ip netns add " +:+ ns_name) true ;; ret tt
      else ret tt) ;;
     let veth_host := "veth-" +:+ subnet_name +:+ "-host" in
     let veth_ns := "veth-" +:+ subnet_name +:+ "-ns" in
     run_cmd ("ip link add " +:+ veth_host +:+ " type veth peer name " +:+ veth_ns) true ;;
     run_cmd ("ip link set " +:+ veth_ns +:+ " netns " +:+ ns_name) true ;;
     run_cmd ("ip link set " +:+ veth_host +:+ " master " +:+ cfg_bridge config) true ;;
     run_cmd ("ip link set " +:+ veth_host +:+ " up") true ;;
     run_cmd ("ip netns exec " +:+ ns_name +:+ " ip link set lo up") true ;;
     run_cmd ("ip netns exec " +:+ ns_name +:+ " ip link set " +:+ veth_ns +:+ " up") true ;;
     run_cmd ("ip netns exec " +:+ ns_name +:+ " ip addr add " +:+ cidr +:+ " dev " +:+ veth_ns) true ;;
     let gateway := gateway_ip cidr in
     run_cmd ("ip netns exec " +:+ ns_name +:+ " ip route add default via " +:+ gateway) true ;;
     let config' :=
       mkConfig (cfg_name config) (cfg_cidr config) (cfg_bridge config)
                (dict_set subnet_name
                          (mkSubnet cidr subnet_type ns_name veth_host veth_ns)
                          (cfg_subnets config)) in
     dump_config vpc_name config' ;;
     ret true)%host.

Definition setup_nat (vpc_name public_subnet host_interface : string) : M bool :=
  (found <- config_exists vpc_name ;;
   if negb found then ret false
   else
     config <- load_config vpc_name ;;
     if negb (dict_mem public_subnet (cfg_subnets config)) then ret false
     else
       run_cmd "sysctl -w net.ipv4.ip_forward=1" true ;;
       let vpc_cidr := cfg_cidr config in
       run_cmd ("iptables -t nat -A POSTROUTING -s " +:+ vpc_cidr +:+ " -o "
                +:+ host_interface +:+ " -j MASQUERADE") true ;;
       run_cmd ("iptables -A FORWARD -i " +:+ cfg_bridge config +:+ " -o "
                +:+ host_interface +:+ " -j ACCEPT") true ;;
       run_cmd ("iptables -A FORWARD -i " +:+ host_interface +:+ " -o "
                +:+ cfg_bridge config
                +:+ " -m state --state RELATED,ESTABLISHED -j ACCEPT") true ;;
       ret true)%host.

Definition exec_command (vpc_name subnet_name command : string) : M bool :=
  (found <- config_exists vpc_name ;;
   if negb found then ret false
   else
     config <- load_config vpc_name ;;
     match dict_get subnet_name (cfg_subnets config) with
     | None => ret false
     | Some subnet_info =>
         let ns_name := sn_namespace subnet_info in
         let full_cmd := "ip netns exec " +:+ ns_name +:+ " " +:+ command in
         result <- run_cmd full_cmd false ;;
         ret (match result with
              | Some r => returncode r =? 0
              | None => false
              end)
     end)%host.

Definition apply_firewall (vpc_name subnet_name : string) (rules_file : option string)
  : M bool :=
  (found <- config_exists vpc_name ;;
   if negb found then ret false
   else
     config <- load_config vpc_name ;;
     match dict_get subnet_name (cfg_subnets config) with
     | None => ret false
     | Some subnet_info =>
         let ns_name := sn_namespace subnet_info in
         let cmds := base_rules ns_name in
         let extended :=
           match truthy_str rules_file with
           | Some path =>
               if path_exists rules_files path then
                 match custom_rules rules_files container_str ns_name path with
                 | Ret custom => Some (cmds ++ custom)
                 | Raise _ => None
                 end
               else Some cmds
           | None => Some cmds
           end in
         match extended with
         | None => ret false
         | Some cmds =>
             for_each (cmds ++ demo_rules ns_name) (fun cmd => run_cmd cmd true) ;;
             ret true
         end
     end)%host.

(** The dispatch of [main] on the subcommands that name a VPC and a subnet. *)
Definition run_subnet_op (op : subnet_op) (vpc subnet : string) : M bool :=
  match op with
  | OpCreateSubnet cidr subnet_type => create_subnet vpc subnet cidr subnet_type
  | OpDeleteSubnet => delete_subnet vpc subnet
  | OpSetupNat host_interface => setup_nat vpc subnet host_interface
  | OpApplyFirewall rules_file => apply_firewall vpc subnet rules_file
  | OpExec command => exec_command vpc subnet command
  end.

(** The dispatch of [main]. *)
Definition run_operation (o : operation) : M bool :=
  match o with
  | OpCreateVpc name cidr => create_vpc name cidr
  | OpDeleteVpc name => delete_vpc name
  | OpOnSubnet op vpc subnet => run_subnet_op op vpc subnet
  end.

End Methods.

(** [subprocess.run] returns for [cmd], whatever the disk and the history. *)
Definition runs (shell : disk -> list event -> string -> outcome * disk)
    (cmd : string) : Prop :=
  has_nul cmd = false
  /\ forall d history, exists result, fst (shell d history cmd) = Exited result.

(** No command changes the disk. *)
Definition keeps_disk (shell : disk -> list event -> string -> outcome * disk) : Prop :=
  forall d history cmd, snd (shell d history cmd) = d.

(** A name that is a file name: no slash, no NUL, and with [.json] at most
    255 bytes. *)
Definition plain_name (name : string) : Prop :=
  no_char "/" name = true /\ has_nul name = false /\ (utf8_length name <= 250)%nat.

(** The host once [cmds] have been handed to the shell, one after the other. *)
Fixpoint ran (shell : disk -> list event -> string -> outcome * disk)
    (cmds : list string) (st : host) : host :=
  match cmds with
  | [] => st
  | cmd :: cmds' =>
      ran shell cmds' (mkHost (snd (shell (on_disk st) (trace st) cmd)) (trace st ++ [Cmd cmd]))
  end.

(** There is no record for [vpc]: [config_file.exists()] is false. *)
Definition no_record (st : host) (vpc : string) : Prop :=
  match locate_on st vpc with
  | File p => record_at st p = None
  | NoSuchDirectory | NullByte => True
  | Directory | NameTooLong => False
  end.

(** All [m] does to the host is hand commands to the shell, whether it
    returns or raises. *)
Definition only_runs (shell : disk -> list event -> string -> outcome * disk)
    {A} (m : M A) : Prop :=
  forall st, exists cmds, snd (m st) = ran shell cmds st.

(** Where [vpc] does not lead to [q], [m] leaves the directories and what is
    at [q] as they are, whether it returns or raises. *)
Definition leaves {A} (vpc : string) (q : path) (m : M A) : Prop :=
  forall st,
    locate_on st vpc <> File q ->
    dirs (on_disk (snd (m st))) = dirs (on_disk st)
    /\ record_at (snd (m st)) q = record_at st q.

(** A host for the examples. *)

(** [/tmp] and [/tmp/vpc_configs] are the directories. *)
Definition demo_dirs : gset path := {[ ["tmp"]; ["tmp"; "vpc_configs"] ]}.

Definition demo_is_dir : path -> bool := is_directory demo_dirs.

(** Every command exits with status 1 and leaves the disk alone. *)
Definition demo_shell : disk -> list event -> string -> outcome * disk :=
  fun d _ _ => (Exited (mkCompletedProcess 1 EmptyString EmptyString), d).

Fixpoint repeat_char (c : ascii) (n : nat) : string :=
  match n with
  | O => EmptyString
  | S n' => String c (repeat_char c n')
  end.

(** A name of 300 characters. *)
Definition long_name : string := repeat_char "a" 300.

Definition empty_host : host := mkHost (mkDisk demo_dirs ∅) [].

Definition test_json : path := ["tmp"; "vpc_configs"; "test.json"].

Definition host_test : host := mkHost (mkDisk demo_dirs {[ test_json := config_test ]}) [].

Definition prod_json : path := ["tmp"; "vpc_configs"; "prod.json"].

(** A host with the records of two VPCs. *)
Definition host_two : host :=
  mkHost (mkDisk demo_dirs {[ test_json := config_test;
                              prod_json := fresh_config "prod" "10.2.0.0/16" ]}) [].

(** A rules file that is JSON and whose second rule has a NUL byte in its
    port: [{"ingress": [{"port": 443}, {"port": "80\u0000"}]}]. *)
Definition nul_rules_files : string -> rules_file_content :=
  fun path =>
    if String.eqb path "nul.json" then
      Loaded (JObj [("ingress",
                     JArr [JObj [("port", JInt 443)];
                           JObj [("port", JStr (String "000" "80"))]])])
    else NoSuchFile.

End Host.

(** ** The first part on the host *)

(** The file of the VPC [name], for a name that is a file name. *)
Definition record_file (name : string) : Host.path := Host.vpc_dir ++ [name +:+ ".json"].

(** A shell of the first part as a shell of the host: every command exits
    and leaves the disk alone. *)
Definition exiting (shell : list event -> string -> CompletedProcess)
  : Host.disk -> list event -> string -> Host.outcome * Host.disk :=
  fun d history cmd => (Host.Exited (shell history cmd), d).

(** No command among the events holds a NUL byte. *)
Definition nul_free (events : list event) : Prop :=
  forall cmd, Cmd cmd ∈ events -> Host.has_nul cmd = false.

(** The host [h] stands for the state [st] of the first part: the directory
    of the records is there, no directory has the name of a record file, the
    file of every plain name holds what the store holds under the name, and
    the same events have happened. *)
Definition on_host (st : state) (h : Host.host) : Prop :=
  ["tmp"] ∈ Host.dirs (Host.on_disk h)
  /\ Host.vpc_dir ∈ Host.dirs (Host.on_disk h)
  /\ (forall name, record_file name ∉ Host.dirs (Host.on_disk h))
  /\ (forall name, Host.plain_name name ->
                   Host.record_at h (record_file name) = files st !! name)
  /\ Host.trace h = trace st.

(** The method [mh] of the host does what the method [m] of the first part
    does, as long as no command holds a NUL byte; [m] only adds to the
    trace. *)
Definition simulates {A} (m : M A) (mh : Host.M A) : Prop :=
  (forall st, exists events, trace (snd (m st)) = trace st ++ events)
  /\ forall st h,
       on_host st h -> nul_free (trace (snd (m st))) ->
       exists h', mh h = (fst (m st), h') /\ on_host (snd (m st)) h'.

(** * Properties *)

(** ** Running commands *)

Section RunCmd.

Variable shell : list event -> string -> CompletedProcess.

Lemma run_cmd_unchecked cmd st :
  run_cmd shell cmd false st = (Ret (Some (shell (trace st) cmd)), after_cmd cmd st).
Proof. reflexivity. Qed.

(** A command always leaves its mark on the trace and nothing else. *)
Lemma run_cmd_state cmd check st :
  exists r, run_cmd shell cmd check st = (Ret r, after_cmd cmd st).
Proof.
  unfold run_cmd, after_cmd.
  destruct (check && negb (returncode (shell (trace st) cmd) =? 0)); eauto.
Qed.

(** When the outcome of the command is not looked at. *)
Lemma run_cmd_then {B} cmd check (k : M B) st :
  bind (run_cmd shell cmd check) (fun _ => k) st = k (after_cmd cmd st).
Proof.
  unfold bind. destruct (run_cmd_state cmd check st) as [r ->]. reflexivity.
Qed.

(** What [run_cmd] returns without [check] is true for Python, whatever the
    exit status. *)
Lemma run_cmd_unchecked_truthy cmd st :
  truthy (Some (shell (trace st) cmd)) = true.
Proof. reflexivity. Qed.

Lemma run_all_trace cmds st :
  for_each cmds (fun cmd => run_cmd shell cmd true) st
  = (Ret tt, mkState (files st) (trace st ++ map Cmd cmds)).
Proof.
  revert st. induction cmds as [|cmd cmds IH]; intros st; simpl.
  - unfold ret. rewrite app_nil_r. destruct st; reflexivity.
  - rewrite run_cmd_then, IH. unfold after_cmd; simpl.
    rewrite <- app_assoc. reflexivity.
Qed.

End RunCmd.

(** ** Creating a VPC *)

Section CreateVPC.

Variable max_str_digits : nat.
Variable shell : list event -> string -> CompletedProcess.

(** With a valid CIDR [create_vpc] asks for the bridge and writes the
    record, and that is all it does, whatever the shell answers. *)
Lemma create_vpc_valid name cidr st :
  validate_cidr max_str_digits cidr = Ret true ->
  create_vpc max_str_digits shell name cidr st
  = (Ret true,
     mkState (<[name := fresh_config name cidr]> (files st))
             (trace st ++ [Cmd ("ip link show br-" +:+ name);
                           Write name (fresh_config name cidr)])).
Proof.
  intros Hvalid. unfold create_vpc, bind, lift. rewrite Hvalid. simpl.
  unfold dump_config, ret, fresh_config. simpl.
  rewrite <- app_assoc. reflexivity.
Qed.

Lemma create_vpc_invalid name cidr st :
  validate_cidr max_str_digits cidr = Ret false ->
  create_vpc max_str_digits shell name cidr st = (Ret false, st).
Proof.
  intros Hinvalid. unfold create_vpc, bind, lift. rewrite Hinvalid. reflexivity.
Qed.

(** C1 (the code departs from the claim): the outcome of
    [ip link show br-<name>] is tested through the truth value of the
    object [run_cmd] returns, which is true whatever the exit status; so
    even when the bridge is absent (non-zero exit status) [create_vpc]
    issues neither [ip link add br-<name> type bridge] nor
    [ip link set br-<name> up]: it only asks and writes the record. *)
Theorem create_vpc_absent_bridge_not_created name cidr st :
  validate_cidr max_str_digits cidr = Ret true ->
  returncode (shell (trace st) ("ip link show br-" +:+ name)) <> 0 ->
  exists issued,
    create_vpc max_str_digits shell name cidr st
    = (Ret true,
       mkState (<[name := fresh_config name cidr]> (files st)) (trace st ++ issued))
    /\ issued = [Cmd ("ip link show br-" +:+ name); Write name (fresh_config name cidr)]
    /\ (Cmd ("ip link add br-" +:+ name +:+ " type bridge") ∉ issued)
    /\ (Cmd ("ip link set br-" +:+ name +:+ " up") ∉ issued).
Proof.
  intros Hvalid _. eexists. split; [apply create_vpc_valid; exact Hvalid|].
  split; [reflexivity|].
  split; intros Hin; repeat (apply elem_of_cons in Hin as [Hin|Hin]);
    try discriminate Hin; apply elem_of_nil in Hin; exact Hin.
Qed.

End CreateVPC.

(** ** Dictionaries *)

Section DictFacts.

Context {V : Type}.
Implicit Types (d : list (string * V)) (k : string).

Lemma dict_get_head k v d : dict_get k ((k, v) :: d) = Some v.
Proof. simpl. rewrite String.eqb_refl. reflexivity. Qed.

Lemma dict_del_head k v d : dict_del k ((k, v) :: d) = d.
Proof. simpl. rewrite String.eqb_refl. reflexivity. Qed.

Lemma dict_get_None_keys k d : dict_get k d = None <-> k ∉ dict_keys d.
Proof.
  induction d as [|[k' v'] d IH]; simpl.
  - split; [intros _; apply not_elem_of_nil | reflexivity].
  - rewrite not_elem_of_cons, <- IH.
    destruct (String.eqb_spec k k') as [->|Hne]; [|tauto].
    split; [discriminate | intros [Hne _]; congruence].
Qed.

Lemma dict_get_del_ne k k' d :
  k' <> k -> dict_get k' (dict_del k d) = dict_get k' d.
Proof.
  intros Hne. induction d as [|[k0 v0] d IH]; simpl; [reflexivity|].
  destruct (String.eqb_spec k k0) as [->|Hk].
  - destruct (String.eqb_spec k' k0); [contradiction | reflexivity].
  - simpl. rewrite IH. reflexivity.
Qed.

(** [del d[k]] takes out one entry and leaves the rest in place. *)
Lemma dict_del_split k v d :
  dict_get k d = Some v ->
  exists l1 l2,
    d = l1 ++ (k, v) :: l2 /\ (k ∉ dict_keys l1) /\ dict_del k d = l1 ++ l2.
Proof.
  induction d as [|[k0 v0] d IH]; simpl; [discriminate|].
  destruct (String.eqb_spec k k0) as [->|Hk]; intros Hget.
  - injection Hget as ->. exists [], d. repeat split. apply not_elem_of_nil.
  - destruct (IH Hget) as (l1 & l2 & -> & Hfresh & ->).
    exists ((k0, v0) :: l1), l2. repeat split.
    simpl. apply not_elem_of_cons. split; assumption.
Qed.

Lemma dict_get_del_eq k d : dict_wf d -> dict_get k (dict_del k d) = None.
Proof.
  unfold dict_wf. induction d as [|[k0 v0] d IH]; simpl; intros Hwf; [reflexivity|].
  apply NoDup_cons in Hwf as [Hfresh Hwf].
  destruct (String.eqb_spec k k0) as [->|Hk].
  - apply dict_get_None_keys. exact Hfresh.
  - simpl. destruct (String.eqb_spec k k0); [contradiction|]. apply IH, Hwf.
Qed.

End DictFacts.

(** ** Subnets *)

Section Subnets.

Variable shell : list event -> string -> CompletedProcess.

(** With the VPC on record [create_subnet] looks for the namespace, wires
    the veth pair and writes the record, whatever the shell answers. *)
Lemma create_subnet_found vpc_name subnet_name cidr subnet_type config st :
  files st !! vpc_name = Some config ->
  create_subnet shell vpc_name subnet_name cidr subnet_type st
  = (Ret true,
     mkState
       (<[vpc_name := with_subnet config vpc_name subnet_name cidr subnet_type]> (files st))
       (trace st
        ++ Cmd ("ip netns list | grep -q ns-" +:+ vpc_name +:+ "-" +:+ subnet_name)
           :: map Cmd (subnet_wiring (cfg_bridge config) vpc_name subnet_name cidr)
        ++ [Write vpc_name (with_subnet config vpc_name subnet_name cidr subnet_type)])).
Proof.
  intros Hfound. unfold create_subnet.
  unfold bind at 1. unfold load_config at 1. rewrite Hfound.
  unfold bind at 1. rewrite run_cmd_unchecked. cbv beta iota.
  rewrite run_cmd_unchecked_truthy. cbv beta iota delta [negb].
  unfold bind at 1. unfold ret at 1.
  repeat rewrite run_cmd_then.
  unfold bind, dump_config, ret, after_cmd, with_subnet, subnet_wiring. simpl.
  repeat rewrite <- app_assoc. reflexivity.
Qed.

(** C2 (the code departs from the claim): the outcome of
    [ip netns list | grep -q ns-<vpc>-<subnet>] is tested through the truth
    value of the object [run_cmd] returns, which is true whatever the exit
    status; so even when the namespace is absent (non-zero exit status)
    [create_subnet] never issues [ip netns add ns-<vpc>-<subnet>] and goes
    on to the veth pair. *)
Theorem create_subnet_absent_namespace_not_created
    vpc_name subnet_name cidr subnet_type config st :
  files st !! vpc_name = Some config ->
  returncode (shell (trace st)
                ("ip netns list | grep -q ns-" +:+ vpc_name +:+ "-" +:+ subnet_name)) <> 0 ->
  exists issued st',
    create_subnet shell vpc_name subnet_name cidr subnet_type st = (Ret true, st')
    /\ trace st' = trace st ++ issued
    /\ issued
       = Cmd ("ip netns list | grep -q ns-" +:+ vpc_name +:+ "-" +:+ subnet_name)
         :: map Cmd (subnet_wiring (cfg_bridge config) vpc_name subnet_name cidr)
         ++ [Write vpc_name (with_subnet config vpc_name subnet_name cidr subnet_type)]
    /\ (Cmd ("ip netns add ns-" +:+ vpc_name +:+ "-" +:+ subnet_name) ∉ issued).
Proof.
  intros Hfound _. do 2 eexists.
  split; [apply create_subnet_found; exact Hfound|].
  split; [reflexivity|]. split; [reflexivity|].
  intros Hin. simpl in Hin.
  repeat (apply elem_of_cons in Hin as [Hin|Hin]; [discriminate Hin|]).
  apply elem_of_nil in Hin. exact Hin.
Qed.

Lemma delete_subnet_found vpc_name subnet_name config info st :
  files st !! vpc_name = Some config ->
  dict_get subnet_name (cfg_subnets config) = Some info ->
  delete_subnet shell vpc_name subnet_name st
  = (Ret true,
     mkState (<[vpc_name := without_subnet config subnet_name]> (files st))
             (trace st ++ [Cmd ("ip netns delete " +:+ sn_namespace info);
                           Write vpc_name (without_subnet config subnet_name)])).
Proof.
  intros Hfound Hsubnet. unfold delete_subnet.
  unfold bind at 1. unfold load_config at 1. rewrite Hfound, Hsubnet.
  rewrite run_cmd_then.
  unfold bind, dump_config, ret, after_cmd, without_subnet. simpl.
  rewrite <- app_assoc. reflexivity.
Qed.

(** C10: a successful [delete_subnet] writes back the record it read with
    one entry taken out of the subnet map, the one under [subnet_name]: the
    entries before and after it stay, in their order, the name, CIDR and
    bridge of the record stay, and so does every other record. *)
Theorem delete_subnet_frame vpc_name subnet_name config info st :
  files st !! vpc_name = Some config ->
  dict_wf (cfg_subnets config) ->
  dict_get subnet_name (cfg_subnets config) = Some info ->
  exists st' config' before after,
    delete_subnet shell vpc_name subnet_name st = (Ret true, st')
    /\ files st' !! vpc_name = Some config'
    /\ cfg_name config' = cfg_name config
    /\ cfg_cidr config' = cfg_cidr config
    /\ cfg_bridge config' = cfg_bridge config
    /\ cfg_subnets config = before ++ (subnet_name, info) :: after
    /\ cfg_subnets config' = before ++ after
    /\ dict_get subnet_name (cfg_subnets config') = None
    /\ (forall other, other <> subnet_name ->
          dict_get other (cfg_subnets config') = dict_get other (cfg_subnets config))
    /\ (forall vpc, vpc <> vpc_name -> files st' !! vpc = files st !! vpc).
Proof.
  intros Hfound Hwf Hsubnet.
  destruct (dict_del_split _ _ _ Hsubnet) as (before & after & Hsplit & _ & Hdel).
  eexists _, (without_subnet config subnet_name), before, after.
  split; [eapply delete_subnet_found; eassumption|]. simpl.
  split; [apply lookup_insert_eq|].
  repeat (split; [reflexivity || assumption|]).
  split; [apply dict_get_del_eq, Hwf|].
  split; [intros other Hother; apply dict_get_del_ne, Hother|].
  intros vpc Hvpc. apply lookup_insert_ne. congruence.
Qed.

End Subnets.

(** ** Deleting a VPC *)

Section DeleteVPC.

Variable shell : list event -> string -> CompletedProcess.

Lemma state_eta st : mkState (files st) (trace st) = st.
Proof. destruct st; reflexivity. Qed.

(** The loop of [delete_vpc]: every key finds its entry at the head of what
    is left of the map, so every subnet is deleted, first to last. *)
Lemma delete_all_subnets vpc name cidr bridge subnets st :
  files st !! vpc = Some (mkConfig name cidr bridge subnets) ->
  exists files',
    for_each (dict_keys subnets) (fun subnet_name => delete_subnet shell vpc subnet_name) st
    = (Ret tt, mkState files' (trace st ++ subnet_teardown vpc name cidr bridge subnets))
    /\ files' !! vpc = Some (mkConfig name cidr bridge [])
    /\ delete vpc files' = delete vpc (files st).
Proof.
  revert st. induction subnets as [|[k info] rest IH]; intros st Hfound.
  - exists (files st). simpl. rewrite app_nil_r, state_eta. auto.
  - simpl. unfold bind at 1.
    erewrite delete_subnet_found; [|exact Hfound|apply dict_get_head].
    unfold without_subnet. simpl cfg_subnets. rewrite dict_del_head. simpl.
    edestruct IH as (files' & -> & Hlookup & Hdelete).
    { simpl. apply lookup_insert_eq. }
    exists files'. simpl. rewrite <- app_assoc. simpl.
    split; [reflexivity|]. split; [exact Hlookup|].
    rewrite Hdelete. apply delete_insert_eq.
Qed.

Lemma subnet_teardown_deletes vpc name cidr bridge subnets entry :
  entry ∈ subnets ->
  Cmd ("ip netns delete " +:+ sn_namespace (snd entry))
    ∈ subnet_teardown vpc name cidr bridge subnets.
Proof.
  induction subnets as [|[k info] rest IH]; intros Hin.
  - apply elem_of_nil in Hin. contradiction.
  - apply elem_of_cons in Hin as [->|Hin]; simpl.
    + apply list_elem_of_here.
    + do 2 apply list_elem_of_further. apply IH, Hin.
Qed.

Lemma subnet_teardown_keeps_record vpc name cidr bridge subnets :
  forallb (fun e => negb (is_unlink e)) (subnet_teardown vpc name cidr bridge subnets) = true.
Proof.
  induction subnets as [|[k info] rest IH]; simpl; [reflexivity | exact IH].
Qed.

(** C6: for a VPC on record [delete_vpc] returns [True] and does, in this
    order: the deletion of every subnet of the record (namespace deleted,
    record written back without it), then the bridge brought down and
    deleted, and last the removal of the record; nothing before that last
    step removes a record. *)
Theorem delete_vpc_order name config st :
  files st !! name = Some config ->
  exists st' subnets_part,
    delete_vpc shell name st = (Ret true, st')
    /\ files st' = delete name (files st)
    /\ subnets_part
       = subnet_teardown name (cfg_name config) (cfg_cidr config) (cfg_bridge config)
                         (cfg_subnets config)
    /\ trace st'
       = trace st ++ subnets_part ++ bridge_teardown (cfg_bridge config) ++ [Unlink name]
    /\ (forall entry, entry ∈ cfg_subnets config ->
          Cmd ("ip netns delete " +:+ sn_namespace (snd entry)) ∈ subnets_part)
    /\ forallb (fun e => negb (is_unlink e))
               (subnets_part ++ bridge_teardown (cfg_bridge config)) = true.
Proof.
  intros Hfound. destruct config as [n c b subnets]. simpl.
  destruct (delete_all_subnets name n c b subnets st Hfound)
    as (files' & Hloop & Hlookup & Hdelete).
  do 2 eexists. split.
  - unfold delete_vpc. unfold bind at 1. unfold load_config at 1. rewrite Hfound.
    unfold bind at 1. simpl cfg_subnets. rewrite Hloop.
    repeat rewrite run_cmd_then.
    unfold bind, unlink, after_cmd, ret. simpl. rewrite Hlookup. reflexivity.
  - simpl. split; [exact Hdelete|]. split; [reflexivity|].
    split; [repeat rewrite <- app_assoc; reflexivity|].
    split; [intros entry; apply subnet_teardown_deletes|].
    rewrite forallb_app, subnet_teardown_keeps_record. reflexivity.
Qed.


End DeleteVPC.

(** ** Names that are not on record *)

Section NotFound.

Variable shell : list event -> string -> CompletedProcess.
Variable rules_files : string -> rules_file_content.
Variable container_str : json -> string.

Lemma dict_mem_None {V} k (d : list (string * V)) :
  dict_get k d = None -> dict_mem k d = false.
Proof. unfold dict_mem. intros ->. reflexivity. Qed.



End NotFound.

(** ** The firewall *)

Section Firewall.

Variable shell : list event -> string -> CompletedProcess.
Variable rules_files : string -> rules_file_content.
Variable container_str : json -> string.

(** A turn of the loop raises exactly on an item that is not a [dict]. *)
Lemma ingress_rule_object ns_name entries :
  exists cmd, ingress_rule container_str ns_name (JObj entries) = Ret cmd.
Proof.
  unfold ingress_rule. simpl.
  destruct (json_eq_str _ "allow"); eauto.
Qed.

Lemma ingress_rule_raises ns_name rule e :
  ingress_rule container_str ns_name rule = Raise e ->
  e = AttributeError /\ forall entries, rule <> JObj entries.
Proof.
  destruct rule; simpl; intros Hraise;
    try (injection Hraise as <-; split; [reflexivity | discriminate]).
  destruct (ingress_rule_object ns_name entries) as [cmd Hcmd].
  rewrite Hcmd in Hraise. discriminate.
Qed.

Lemma truthy_str_path path : path <> EmptyString -> truthy_str (Some path) = Some path.
Proof. destruct path; [contradiction | reflexivity]. Qed.

(** What [apply_firewall] does once its list of commands is [cmds]. *)
Lemma apply_firewall_found vpc subnet rules_file config info st :
  files st !! vpc = Some config ->
  dict_get subnet (cfg_subnets config) = Some info ->
  apply_firewall shell rules_files container_str vpc subnet rules_file st
  = match
      match truthy_str rules_file with
      | Some path =>
          if path_exists rules_files path then
            match custom_rules rules_files container_str (sn_namespace info) path with
            | Ret custom => Some (base_rules (sn_namespace info) ++ custom)
            | Raise _ => None
            end
          else Some (base_rules (sn_namespace info))
      | None => Some (base_rules (sn_namespace info))
      end
    with
    | None => (Ret false, st)
    | Some cmds =>
        (Ret true,
         mkState (files st)
                 (trace st ++ map Cmd (cmds ++ demo_rules (sn_namespace info))))
    end.
Proof.
  intros Hfound Hsubnet. unfold apply_firewall.
  unfold bind at 1. unfold load_config at 1. rewrite Hfound, Hsubnet.
  cbv zeta.
  match goal with |- context [match ?x with Some _ => _ | None => ret false end] =>
    destruct x as [cmds|] end; [|reflexivity].
  unfold bind. rewrite run_all_trace. reflexivity.
Qed.

(** A rules file that is not there is passed over: the call succeeds with
    the base rules and the two last ones. *)
Lemma apply_firewall_no_such_file vpc subnet path config info st :
  files st !! vpc = Some config ->
  dict_get subnet (cfg_subnets config) = Some info ->
  path_exists rules_files path = false ->
  apply_firewall shell rules_files container_str vpc subnet (Some path) st
  = (Ret true,
     mkState (files st)
             (trace st ++ map Cmd (base_rules (sn_namespace info)
                                   ++ demo_rules (sn_namespace info)))).
Proof.
  intros Hfound Hsubnet Hmissing.
  rewrite (apply_firewall_found _ _ _ _ _ _ Hfound Hsubnet).
  destruct path as [|c path]; simpl; [reflexivity|].
  rewrite Hmissing. reflexivity.
Qed.

End Firewall.

(** ** The validator never raises *)

Section ValidatorTotal.

Variable max_str_digits : nat.

(** The bare [except] turns every exception of the body into [False]. *)
Lemma validate_cidr_catches cidr :
  validate_cidr max_str_digits cidr
  = Ret (match validate_cidr_body max_str_digits cidr with
         | Ret b => b
         | Raise _ => false
         end).
Proof.
  unfold validate_cidr, try_except.
  destruct (validate_cidr_body max_str_digits cidr); reflexivity.
Qed.

(** C9: on every string [validate_cidr] returns a boolean and raises
    nothing; whenever the body of its [try] block raises, whatever the
    exception, the value returned is [False]. *)
Theorem validate_cidr_total cidr :
  (exists b, validate_cidr max_str_digits cidr = Ret b)
  /\ (forall e, validate_cidr max_str_digits cidr <> Raise e)
  /\ (forall e, validate_cidr_body max_str_digits cidr = Raise e ->
                validate_cidr max_str_digits cidr = Ret false).
Proof.
  rewrite validate_cidr_catches.
  split; [eauto|]. split; [discriminate|].
  intros e ->. reflexivity.
Qed.

(** The body does raise: on a string without a slash the unpacking fails,
    on a mask that is no numeral [int] fails. *)
Lemma validate_cidr_body_raises :
  validate_cidr_body max_str_digits "10.1.0.0" = Raise ValueError
  /\ validate_cidr_body max_str_digits "10.1.0.0/x" = Raise ValueError.
Proof. split; reflexivity. Qed.

End ValidatorTotal.

(** ** Strings *)

Lemma append_assoc (a b c : string) : (a +:+ b) +:+ c = a +:+ (b +:+ c).
Proof. induction a as [|x a IH]; simpl; [reflexivity | rewrite IH; reflexivity]. Qed.

Lemma append_nil_r (s : string) : s +:+ EmptyString = s.
Proof. induction s as [|x s IH]; simpl; [reflexivity | rewrite IH; reflexivity]. Qed.

Lemma no_char_app c a b : no_char c (a +:+ b) = no_char c a && no_char c b.
Proof.
  induction a as [|x a IH]; simpl; [reflexivity|].
  rewrite IH, andb_assoc. reflexivity.
Qed.

Lemma head_is_app P a b : head_is P a = true -> head_is P (a +:+ b) = true.
Proof. destruct a; simpl; [discriminate | auto]. Qed.

(** ** [split] and [join] *)

Section Split.

Variable sep : ascii.

Lemma split_on_nonempty s : split_on sep s <> [].
Proof.
  destruct s as [|c s]; simpl; [discriminate|].
  destruct (Ascii.eqb c sep); [discriminate|].
  destruct (split_on sep s); discriminate.
Qed.

(** Joining the parts with the separator gives the string back. *)
Lemma join_split_on s : join (String sep EmptyString) (split_on sep s) = s.
Proof.
  induction s as [|c s IH]; simpl; [reflexivity|].
  destruct (Ascii.eqb_spec c sep) as [->|Hc].
  - pose proof (split_on_nonempty s) as Hne.
    destruct (split_on sep s) as [|p ps]; [contradiction|].
    simpl in *. rewrite IH. reflexivity.
  - pose proof (split_on_nonempty s) as Hne.
    destruct (split_on sep s) as [|p ps]; [contradiction|].
    destruct ps as [|q ps]; simpl in *; rewrite <- IH; reflexivity.
Qed.

(** No part holds the separator. *)
Lemma split_on_parts s : Forall (fun p => no_char sep p = true) (split_on sep s).
Proof.
  induction s as [|c s IH]; simpl.
  - repeat constructor.
  - destruct (Ascii.eqb_spec c sep) as [->|Hc].
    + constructor; [reflexivity | exact IH].
    + destruct (split_on sep s) as [|p ps]; simpl.
      * repeat constructor. simpl.
        destruct (Ascii.eqb_spec c sep); [contradiction | reflexivity].
      * apply Forall_cons in IH as [Hp Hps]. constructor; [|exact Hps].
        simpl. rewrite Hp.
        destruct (Ascii.eqb_spec c sep); [contradiction | reflexivity].
Qed.

(** A string without the separator is one part. *)
Lemma split_on_whole s : no_char sep s = true -> split_on sep s = [s].
Proof.
  induction s as [|c s IH]; simpl; [reflexivity|].
  destruct (Ascii.eqb c sep); simpl; [discriminate|].
  intros Hfree. rewrite (IH Hfree). reflexivity.
Qed.

(** The first separator ends the first part. *)
Lemma split_on_app a b :
  no_char sep a = true ->
  split_on sep (a +:+ String sep b) = a :: split_on sep b.
Proof.
  induction a as [|c a IH]; simpl.
  - rewrite Ascii.eqb_refl. reflexivity.
  - destruct (Ascii.eqb c sep); simpl; [discriminate|].
    intros Hfree. rewrite (IH Hfree). reflexivity.
Qed.

End Split.

(** ** Characters *)

Lemma digit_val_is_digit c : is_digit c = true -> digit_val c = Some (code c - 48).
Proof. unfold digit_val, is_digit. intros ->. reflexivity. Qed.

Lemma digit_val_not_digit c : is_digit c = false -> digit_val c = None.
Proof. unfold digit_val, is_digit. intros ->. reflexivity. Qed.

Lemma code_underscore c : is_underscore c = true -> code c = 95.
Proof. unfold is_underscore. intros ->%Ascii.eqb_eq. reflexivity. Qed.

Lemma digit_not_underscore c : is_digit c = true -> is_underscore c = false.
Proof.
  intros Hd. destruct (is_underscore c) eqn:Hu; [|reflexivity].
  apply code_underscore in Hu. unfold is_digit in Hd. lia.
Qed.

Lemma digit_not_space c : is_digit c = true -> is_space c = false.
Proof. unfold is_digit, is_space. lia. Qed.

Lemma space_not_digit_or_underscore c : is_space c = true -> digit_or_underscore c = false.
Proof.
  intros Hs. unfold digit_or_underscore.
  destruct (is_digit c) eqn:Hd.
  - rewrite (digit_not_space _ Hd) in Hs. discriminate.
  - destruct (is_underscore c) eqn:Hu; [|reflexivity].
    apply code_underscore in Hu. unfold is_space in Hs. lia.
Qed.

Lemma digit_not_sign c :
  is_digit c = true -> Ascii.eqb c "+" = false /\ Ascii.eqb c "-" = false.
Proof.
  intros Hd. split.
  - destruct (Ascii.eqb_spec c "+") as [->|]; [discriminate Hd | reflexivity].
  - destruct (Ascii.eqb_spec c "-") as [->|]; [discriminate Hd | reflexivity].
Qed.

(** ** The scanner of [int] reads numerals, and all of them *)

Lemma digit_count_value_digit c s acc :
  is_digit c = true ->
  numeral_value acc (String c s) = numeral_value (acc * 10 + (code c - 48)) s
  /\ digit_count (String c s) = S (digit_count s).
Proof.
  intros Hd. simpl. rewrite (digit_val_is_digit _ Hd), Hd. auto.
Qed.

Lemma scan_digits_sound s : forall prev acc cnt v cnt' rest,
  scan_digits prev acc cnt s = Some (v, cnt', rest) ->
  exists body,
    s = body +:+ rest
    /\ (if prev then numeral_body body else digits_tail body)
    /\ v = numeral_value acc body
    /\ cnt' = (cnt + digit_count body)%nat
    /\ head_is digit_or_underscore rest = false.
Proof.
  induction s as [|c s IH]; intros prev acc cnt v cnt' rest Hscan; simpl in Hscan.
  - destruct prev; [discriminate|]. injection Hscan as <- <- <-.
    exists EmptyString. repeat split; [apply dt_end | simpl; lia].
  - destruct (is_digit c) eqn:Hd.
    + rewrite (digit_val_is_digit _ Hd) in Hscan.
      destruct (IH _ _ _ _ _ _ Hscan) as (body & -> & Htail & -> & -> & Hrest).
      exists (String c body). destruct (digit_count_value_digit c body acc Hd) as [-> ->].
      repeat split; [|lia|exact Hrest].
      destruct prev; simpl; [auto | constructor; assumption].
    + rewrite (digit_val_not_digit _ Hd) in Hscan.
      destruct (is_underscore c) eqn:Hu.
      * destruct prev; [discriminate|].
        destruct (IH _ _ _ _ _ _ Hscan) as (body & -> & Hbody & -> & -> & Hrest).
        exists (String c body). simpl.
        rewrite (digit_val_not_digit _ Hd), Hd.
        repeat split; [|exact Hrest].
        unfold is_underscore in Hu. apply Ascii.eqb_eq in Hu as ->.
        destruct body as [|d body]; [contradiction|]. destruct Hbody as [Hdd Htail].
        constructor; assumption.
      * destruct prev; [discriminate|]. injection Hscan as <- <- <-.
        exists EmptyString. repeat split; [apply dt_end | simpl; lia |].
        simpl. unfold digit_or_underscore. rewrite Hd, Hu. reflexivity.
Qed.

Lemma scan_digits_tail body : digits_tail body ->
  forall acc cnt rest,
    head_is digit_or_underscore rest = false ->
    scan_digits false acc cnt (body +:+ rest)
    = Some (numeral_value acc body, (cnt + digit_count body)%nat, rest).
Proof.
  induction 1 as [|c s Hd _ IH|c s Hd _ IH]; intros acc cnt rest Hrest.
  - simpl. rewrite Nat.add_0_r. destruct rest as [|c rest]; [reflexivity|].
    simpl in *. unfold digit_or_underscore in Hrest.
    apply orb_false_iff in Hrest as [Hd Hu].
    rewrite (digit_val_not_digit _ Hd), Hu. reflexivity.
  - destruct (digit_count_value_digit c s acc Hd) as [-> ->].
    simpl. rewrite (digit_val_is_digit _ Hd), (IH _ _ _ Hrest).
    replace (S cnt + digit_count s)%nat with (cnt + S (digit_count s))%nat by lia.
    reflexivity.
  - change (numeral_value acc (String "_" (String c s)))
      with (numeral_value acc (String c s)).
    change (digit_count (String "_" (String c s))) with (digit_count (String c s)).
    destruct (digit_count_value_digit c s acc Hd) as [-> ->].
    simpl. rewrite (digit_val_is_digit _ Hd), (IH _ _ _ Hrest).
    replace (S cnt + digit_count s)%nat with (cnt + S (digit_count s))%nat by lia.
    reflexivity.
Qed.

(** ** [lstrip] and the sign *)

Lemma lstrip_split s :
  exists lead, s = lead +:+ lstrip s /\ all_space lead = true.
Proof.
  induction s as [|c s (lead & IH & Hlead)]; simpl.
  - exists EmptyString. auto.
  - destruct (is_space c) eqn:Hc.
    + exists (String c lead). simpl. rewrite Hc, Hlead, <- IH. auto.
    + exists EmptyString. auto.
Qed.

Lemma lstrip_app lead s : all_space lead = true -> lstrip (lead +:+ s) = lstrip s.
Proof.
  induction lead as [|c lead IH]; simpl; [reflexivity|].
  intros [-> Hlead]%andb_true_iff. exact (IH Hlead).
Qed.

Lemma lstrip_head s : head_is is_space s = false -> lstrip s = s.
Proof. destruct s as [|c s]; simpl; [reflexivity | intros ->; reflexivity]. Qed.

Lemma all_space_head s : all_space s = true -> head_is digit_or_underscore s = false.
Proof.
  destruct s as [|c s]; simpl; [reflexivity|].
  intros [Hc _]%andb_true_iff. apply space_not_digit_or_underscore, Hc.
Qed.

Lemma split_sign_spec s neg rest :
  split_sign s = (neg, rest) ->
  exists sign,
    s = sign +:+ rest
    /\ ((sign = EmptyString /\ neg = false) \/ (sign = "+" /\ neg = false) \/ (sign = "-" /\ neg = true)).
Proof.
  destruct s as [|c s]; simpl.
  - intros [= <- <-]. exists EmptyString. auto.
  - destruct (Ascii.eqb_spec c "+") as [->|Hplus].
    + intros [= <- <-]. exists "+". auto.
    + destruct (Ascii.eqb_spec c "-") as [->|Hminus].
      * intros [= <- <-]. exists "-". auto.
      * intros [= <- <-]. exists EmptyString. auto.
Qed.

(** ** [int] reads exactly the literals *)

Section IntLiteral.

Variable max_str_digits : nat.

Lemma within_digit_cap_spec cnt :
  within_digit_cap max_str_digits cnt = true
  <-> (max_str_digits = 0%nat \/ (cnt <= max_str_digits)%nat).
Proof.
  unfold within_digit_cap.
  rewrite orb_true_iff, Nat.eqb_eq, Nat.leb_le. reflexivity.
Qed.

Lemma py_int_sound t z : py_int max_str_digits t = Some z -> int_literal max_str_digits t z.
Proof.
  unfold py_int. intros Hint.
  destruct (lstrip_split t) as (lead & Ht & Hlead).
  destruct (split_sign (lstrip t)) as [neg signed] eqn:Hsign.
  destruct (split_sign_spec _ _ _ Hsign) as (sign & Hsigned & Hcases).
  destruct (starts_with_underscore signed) eqn:Hus; [discriminate|].
  destruct (scan_digits false 0 0 signed) as [[[v cnt] rest]|] eqn:Hscan; [|discriminate].
  destruct (scan_digits_sound _ _ _ _ _ _ _ Hscan) as (body & Hbody & Htail & -> & -> & _).
  destruct (Nat.eqb_spec (0 + digit_count body) 0) as [|Hcnt]; [discriminate|].
  destruct (within_digit_cap max_str_digits (0 + digit_count body)) eqn:Hcap;
    [|discriminate].
  destruct (all_space rest) eqn:Hrest; [|discriminate].
  injection Hint as <-.
  exists lead, sign, body, rest.
  split; [rewrite Ht at 1; rewrite Hsigned, Hbody; reflexivity|].
  split; [exact Hlead|]. split; [exact Hrest|].
  split.
  { destruct body as [|c body]; [simpl in Hcnt; lia|].
    subst signed. simpl in Hus. inversion Htail; subst; simpl; auto.
    discriminate Hus. }
  split; [apply within_digit_cap_spec in Hcap; exact Hcap|].
  destruct Hcases as [[-> ->]|[[-> ->]|[-> ->]]]; auto.
Qed.

Lemma py_int_complete t z : int_literal max_str_digits t z -> py_int max_str_digits t = Some z.
Proof.
  intros (lead & sign & body & trail & -> & Hlead & Htrail & Hbody & Hcap & Hsign).
  destruct body as [|c body]; [contradiction|]. destruct Hbody as [Hd Htail].
  assert (Hscan : scan_digits false 0 0 (String c body +:+ trail)
                  = Some (numeral_value 0 (String c body),
                          (0 + digit_count (String c body))%nat, trail)).
  { apply scan_digits_tail; [constructor; assumption | apply all_space_head, Htrail]. }
  assert (Hcount : digit_count (String c body) = S (digit_count body)).
  { simpl. rewrite Hd. reflexivity. }
  destruct (digit_not_sign _ Hd) as [Hplus Hminus].
  unfold py_int. rewrite (lstrip_app _ _ Hlead).
  assert (Hstrip : lstrip (sign +:+ String c body +:+ trail)
                   = sign +:+ String c body +:+ trail).
  { apply lstrip_head.
    destruct Hsign as [[[->| ->] _]|[-> _]]; simpl; auto using digit_not_space. }
  rewrite Hstrip.
  assert (Hcapb : within_digit_cap max_str_digits (0 + digit_count (String c body)) = true)
    by (apply within_digit_cap_spec; simpl (0 + _)%nat; exact Hcap).
  change (String c body +:+ trail) with (String c (body +:+ trail)) in Hscan.
  destruct Hsign as [[[->| ->] ->]|[-> ->]]; simpl split_sign;
    try rewrite Hplus; try rewrite Hminus; cbv beta iota;
    change (starts_with_underscore (String c (body +:+ trail))) with (is_underscore c);
    rewrite (digit_not_underscore _ Hd), Hscan, Hcapb, Hcount, Htrail; reflexivity.
Qed.

(** [int] reads [t] to [z] exactly when [t] is a literal of value [z]. *)
Lemma py_int_spec t z : py_int max_str_digits t = Some z <-> int_literal max_str_digits t z.
Proof. split; [apply py_int_sound | apply py_int_complete]. Qed.

(** A literal holds neither a dot nor a slash. *)
Lemma all_space_no_char c s : is_space c = false -> all_space s = true -> no_char c s = true.
Proof.
  intros Hc. induction s as [|x s IH]; simpl; [reflexivity|].
  intros [Hx Hs]%andb_true_iff. rewrite (IH Hs), andb_true_r.
  destruct (Ascii.eqb_spec x c) as [->|]; [congruence | reflexivity].
Qed.

Lemma no_char_cons c x s : no_char c (String x s) = negb (Ascii.eqb x c) && no_char c s.
Proof. reflexivity. Qed.

Lemma digits_tail_no_char c s :
  digit_or_underscore c = false -> digits_tail s -> no_char c s = true.
Proof.
  unfold digit_or_underscore. intros [Hd Hu]%orb_false_iff.
  induction 1 as [|x s Hx _ IH|x s Hx _ IH]; [reflexivity|..];
    rewrite !no_char_cons, IH, andb_true_r.
  - destruct (Ascii.eqb_spec x c) as [->|]; [congruence | reflexivity].
  - destruct (Ascii.eqb_spec x c) as [->|]; [congruence|].
    destruct (Ascii.eqb_spec "_"%char c) as [<-|]; [discriminate Hu | reflexivity].
Qed.

Lemma int_literal_no_char c t z :
  is_space c = false -> digit_or_underscore c = false ->
  Ascii.eqb c "+" = false -> Ascii.eqb c "-" = false ->
  int_literal max_str_digits t z -> no_char c t = true.
Proof.
  intros Hspace Hdigit Hplus Hminus
         (lead & sign & body & trail & -> & Hlead & Htrail & Hbody & _ & Hsign).
  rewrite !no_char_app, (all_space_no_char _ _ Hspace Hlead),
          (all_space_no_char _ _ Hspace Htrail), andb_true_r. simpl.
  assert (no_char c sign = true) as ->.
  { rewrite Ascii.eqb_sym in Hplus. rewrite Ascii.eqb_sym in Hminus.
    destruct Hsign as [[[->| ->] _]|[-> _]]; [reflexivity|..];
      rewrite no_char_cons; [rewrite Hplus | rewrite Hminus]; reflexivity. }
  destruct body as [|x body]; [contradiction|]. destruct Hbody as [Hx Htail].
  apply (digits_tail_no_char c (String x body) Hdigit). constructor; assumption.
Qed.

End IntLiteral.

(** ** What [validate_cidr] takes *)

Section ValidatorSpec.

Variable max_str_digits : nat.

Lemma all_octets_true parts :
  all_octets max_str_digits parts = Ret true
  <-> Forall (fun p => exists z, py_int max_str_digits p = Some z /\ 0 <= z <= 255) parts.
Proof.
  induction parts as [|p parts IH]; simpl.
  - split; [constructor | reflexivity].
  - rewrite Forall_cons, <- IH. unfold int_of.
    destruct (py_int max_str_digits p) as [z|]; simpl.
    + destruct ((0 <=? z) && (z <=? 255)) eqn:Hrange.
      * split; [|tauto]. intros Hrest. split; [|exact Hrest]. exists z. split; [reflexivity | lia].
      * split; [discriminate|]. intros [(z' & [= <-] & Hz) _]. lia.
    + split; [discriminate|]. intros [(z' & [=] & _) _].
Qed.

(** The validator, step by step. *)
Lemma validate_cidr_true cidr :
  validate_cidr max_str_digits cidr = Ret true
  <-> exists ip mask zm,
        split_on "/" cidr = [ip; mask]
        /\ py_int max_str_digits mask = Some zm /\ 0 <= zm <= 32
        /\ length (split_on "." ip) = 4%nat
        /\ all_octets max_str_digits (split_on "." ip) = Ret true.
Proof.
  unfold validate_cidr, validate_cidr_body, try_except, unpack2, int_of.
  split.
  - destruct (split_on "/" cidr) as [|ip [|mask [|]]]; simpl; try discriminate.
    destruct (py_int max_str_digits mask) as [zm|] eqn:Hmask; simpl; [|discriminate].
    destruct (Nat.eqb_spec (length (split_on "." ip)) 4) as [Hlen|]; simpl; [|discriminate].
    destruct (all_octets max_str_digits (split_on "." ip)) as [[|]|] eqn:Hoctets;
      simpl; try discriminate.
    destruct ((0 <=? zm) && (zm <=? 32)) eqn:Hrange; simpl; [|discriminate].
    apply andb_true_iff in Hrange as [Hlo%Z.leb_le Hhi%Z.leb_le].
    intros _. exists ip, mask, zm. repeat split; assumption || reflexivity.
  - intros (ip & mask & zm & Hslash & Hmask & [Hlo Hhi] & Hlen & Hoctets).
    rewrite Hslash. simpl. rewrite Hmask. simpl. rewrite Hlen, Hoctets. simpl.
    apply Z.leb_le in Hlo as ->. apply Z.leb_le in Hhi as ->. reflexivity.
Qed.

Lemma four_parts (l : list string) :
  length l = 4%nat -> exists t1 t2 t3 t4, l = [t1; t2; t3; t4].
Proof.
  destruct l as [|t1 [|t2 [|t3 [|t4 [|]]]]]; simpl; try discriminate. eauto.
Qed.

Lemma dot_not_in_literal t z : int_literal max_str_digits t z -> no_char "." t = true.
Proof. apply int_literal_no_char; reflexivity. Qed.

Lemma slash_not_in_literal t z : int_literal max_str_digits t z -> no_char "/" t = true.
Proof. apply int_literal_no_char; reflexivity. Qed.

(** [validate_cidr] takes exactly the strings of [python_cidr]. *)
Lemma validate_cidr_python cidr :
  validate_cidr max_str_digits cidr = Ret true <-> python_cidr max_str_digits cidr.
Proof.
  rewrite validate_cidr_true. split.
  - intros (ip & mask & zm & Hslash & Hmask & Hrange & Hlen & Hoctets).
    destruct (four_parts _ Hlen) as (t1 & t2 & t3 & t4 & Hdots).
    rewrite Hdots in Hoctets. apply all_octets_true in Hoctets.
    repeat (apply Forall_cons in Hoctets as [(? & ?%py_int_sound & ?) Hoctets]).
    apply py_int_sound in Hmask.
    exists t1, t2, t3, t4, mask. do 5 eexists.
    split; [|repeat split; eassumption || lia].
    rewrite <- (join_split_on "/" cidr), Hslash.
    rewrite <- (join_split_on "." ip), Hdots. simpl.
    repeat (rewrite append_assoc; simpl). reflexivity.
  - intros (t1 & t2 & t3 & t4 & tm & z1 & z2 & z3 & z4 & zm & -> &
            H1 & R1 & H2 & R2 & H3 & R3 & H4 & R4 & Hm & Rm).
    set (ip := t1 +:+ "." +:+ t2 +:+ "." +:+ t3 +:+ "." +:+ t4).
    assert (Hcidr : t1 +:+ "." +:+ t2 +:+ "." +:+ t3 +:+ "." +:+ t4 +:+ "/" +:+ tm
                    = ip +:+ String "/" tm).
    { unfold ip. simpl. repeat (rewrite append_assoc; simpl). reflexivity. }
    assert (Hfree : no_char "/" ip = true).
    { unfold ip. rewrite !no_char_app.
      rewrite (slash_not_in_literal _ _ H1), (slash_not_in_literal _ _ H2),
              (slash_not_in_literal _ _ H3), (slash_not_in_literal _ _ H4).
      reflexivity. }
    assert (Hdots : split_on "." ip = [t1; t2; t3; t4]).
    { unfold ip.
      simpl.
      rewrite !split_on_app by eauto using dot_not_in_literal.
      rewrite (split_on_whole "." t4) by eauto using dot_not_in_literal.
      reflexivity. }
    exists ip, tm, zm. rewrite Hcidr, (split_on_app "/" _ _ Hfree).
    rewrite (split_on_whole "/" tm) by eauto using slash_not_in_literal.
    rewrite Hdots. split; [reflexivity|].
    split; [apply py_int_complete, Hm|]. split; [exact Rm|]. split; [reflexivity|].
    apply all_octets_true.
    repeat (constructor; [eexists; split; [apply py_int_complete; eassumption | assumption]|]).
    constructor.
Qed.

End ValidatorSpec.

(** ** Decimal numerals of small numbers *)

Lemma small_numerals_ok : forallb small_numeral_ok (seq 0 256) = true.
Proof. vm_compute. reflexivity. Qed.

Lemma small_numeral a :
  (a <= 255)%nat ->
  py_int 0 (pretty a) = Some (Z.of_nat a)
  /\ (String.length (pretty a) <= 3)%nat
  /\ head_is is_digit (pretty a) = true.
Proof.
  intros Ha.
  assert (Hok : small_numeral_ok a = true).
  { apply (proj1 (forallb_forall _ _) small_numerals_ok). apply in_seq. lia. }
  unfold small_numeral_ok in Hok.
  apply andb_true_iff in Hok as [[Hint Hlen]%andb_true_iff Hhead].
  destruct (py_int 0 (pretty a)) as [z|]; [|discriminate].
  apply Z.eqb_eq in Hint as ->. apply Nat.leb_le in Hlen. auto.
Qed.

Lemma length_append a b : String.length (a +:+ b) = (String.length a + String.length b)%nat.
Proof. induction a as [|x a IH]; simpl; [reflexivity | rewrite IH; reflexivity]. Qed.

Lemma digit_count_length s : (digit_count s <= String.length s)%nat.
Proof. induction s as [|c s IH]; simpl; [lia | destruct (is_digit c); lia]. Qed.

(** Under a cap the interpreter allows, a short literal is read as without cap. *)
Lemma int_literal_short max_str_digits t z :
  digit_cap_allowed max_str_digits ->
  (String.length t <= 640)%nat ->
  int_literal 0 t z -> int_literal max_str_digits t z.
Proof.
  intros Hcap Hlen (lead & sign & body & trail & -> & Hlead & Htrail & Hbody & _ & Hsign).
  exists lead, sign, body, trail. repeat split; try assumption.
  destruct Hcap as [->|Hcap]; [left; reflexivity|]. right.
  rewrite !length_append in Hlen. pose proof (digit_count_length body). lia.
Qed.

Lemma small_numeral_literal max_str_digits a :
  digit_cap_allowed max_str_digits -> (a <= 255)%nat ->
  int_literal max_str_digits (pretty a) (Z.of_nat a).
Proof.
  intros Hcap Ha. destruct (small_numeral a Ha) as (Hint & Hlen & _).
  apply int_literal_short; [exact Hcap | lia | apply py_int_sound, Hint].
Qed.

Lemma dotted_quad_python max_str_digits cidr :
  digit_cap_allowed max_str_digits ->
  is_dotted_quad_cidr cidr -> python_cidr max_str_digits cidr.
Proof.
  intros Hcap (a & b & c & d & m & Ha & Hb & Hc & Hd & Hm & ->).
  exists (pretty a), (pretty b), (pretty c), (pretty d), (pretty m),
         (Z.of_nat a), (Z.of_nat b), (Z.of_nat c), (Z.of_nat d), (Z.of_nat m).
  split; [reflexivity|].
  repeat split; try (apply small_numeral_literal; [exact Hcap | lia]); lia.
Qed.

(** C4, amended: under a digit cap the interpreter allows, [validate_cidr]
    returns [True] on every string [a.b.c.d/m] written from numbers in range;
    it returns [True] exactly on the strings made of four tokens between
    dots, a slash and a fifth token, where every token is something [int]
    reads (whitespace around, a sign, underscores between digits are all
    read) to a value in [0,255], respectively [0,32] for the fifth; on every
    other string it returns [False]. *)
Theorem validate_cidr_accepts max_str_digits cidr :
  digit_cap_allowed max_str_digits ->
  (is_dotted_quad_cidr cidr -> validate_cidr max_str_digits cidr = Ret true)
  /\ (validate_cidr max_str_digits cidr = Ret true <-> python_cidr max_str_digits cidr)
  /\ (~ python_cidr max_str_digits cidr -> validate_cidr max_str_digits cidr = Ret false).
Proof.
  intros Hcap. split; [|split].
  - intros Hquad. apply validate_cidr_python, dotted_quad_python; assumption.
  - apply validate_cidr_python.
  - intros Hnot. rewrite validate_cidr_catches.
    destruct (validate_cidr_body max_str_digits cidr) as [[|]|] eqn:Hbody; try reflexivity.
    contradict Hnot. apply validate_cidr_python.
    rewrite validate_cidr_catches, Hbody. reflexivity.
Qed.

Lemma plus_sign_not_dotted_quad : ~ is_dotted_quad_cidr "+10.0.0.0/8".
Proof.
  intros (a & b & c & d & m & Ha & _ & _ & _ & _ & Heq).
  destruct (small_numeral a Ha) as (_ & _ & Hhead).
  apply (head_is_app _ _ ("." +:+ pretty b +:+ "." +:+ pretty c +:+ "." +:+ pretty d
                          +:+ "/" +:+ pretty m)) in Hhead.
  unfold dotted_quad in Heq. rewrite <- Heq in Hhead. discriminate Hhead.
Qed.

(** C4, as stated, fails: [+10.0.0.0/8], [ 10.0.0.0/8] and [1_0.0.0.0/8] are
    taken, and the first is not of the form [a.b.c.d/m]. *)
Lemma validate_cidr_takes_signed_octet :
  validate_cidr 4300 "+10.0.0.0/8" = Ret true
  /\ validate_cidr 4300 " 10.0.0.0/8" = Ret true
  /\ validate_cidr 4300 "1_0.0.0.0/8" = Ret true
  /\ ~ is_dotted_quad_cidr "+10.0.0.0/8".
Proof. repeat split; try reflexivity. apply plus_sign_not_dotted_quad. Qed.

(** ** The gateway *)

Lemma drop_last_snoc s c : drop_last (s +:+ String c EmptyString) = s.
Proof.
  induction s as [|x s IH]; [reflexivity|].
  simpl. rewrite IH. destruct s; reflexivity.
Qed.

Lemma first_part_split_slash addr mask :
  no_char "/" addr = true ->
  first_part (split_on "/" (addr +:+ "/" +:+ mask)) = addr.
Proof.
  intros Hfree. change ("/" +:+ mask) with (String "/" mask).
  rewrite split_on_app by exact Hfree. reflexivity.
Qed.

(** What the code computes: the address with its last character replaced. *)
Lemma gateway_ip_last_character prefix c mask :
  no_char "/" prefix = true -> Ascii.eqb c "/" = false ->
  gateway_ip (prefix +:+ String c EmptyString +:+ "/" +:+ mask) = prefix +:+ "1".
Proof.
  intros Hprefix Hc. unfold gateway_ip.
  rewrite <- append_assoc, first_part_split_slash, drop_last_snoc; [reflexivity|].
  rewrite no_char_app, Hprefix. simpl. rewrite Hc. reflexivity.
Qed.

Lemma split_on_app_any sep a b :
  split_on sep (a +:+ String sep b) = split_on sep a ++ split_on sep b.
Proof.
  induction a as [|c a IH]; simpl.
  - rewrite Ascii.eqb_refl. reflexivity.
  - destruct (Ascii.eqb c sep); rewrite IH; [reflexivity|].
    pose proof (split_on_nonempty sep a).
    destruct (split_on sep a); [contradiction | reflexivity].
Qed.

Lemma replace_last_snoc x l y : replace_last x (l ++ [y]) = l ++ [x].
Proof.
  induction l as [|p l IH]; [reflexivity|].
  simpl. rewrite IH. destruct l; reflexivity.
Qed.

Lemma join_snoc sep l x : l <> [] -> join sep (l ++ [x]) = join sep l +:+ sep +:+ x.
Proof.
  induction l as [|p l IH]; [contradiction|]. intros _.
  destruct l as [|q l]; [reflexivity|].
  change (join sep ((p :: q :: l) ++ [x])) with (p +:+ sep +:+ join sep ((q :: l) ++ [x])).
  rewrite IH by discriminate.
  change (join sep (p :: q :: l)) with (p +:+ sep +:+ join sep (q :: l)).
  rewrite !append_assoc. reflexivity.
Qed.

(** What the specification says: the address with its last octet replaced. *)
Lemma gateway_by_octets_last_octet prefix octet mask :
  no_char "/" prefix = true -> no_char "/" octet = true -> no_char "." octet = true ->
  gateway_by_octets (prefix +:+ "." +:+ octet +:+ "/" +:+ mask) = prefix +:+ ".1".
Proof.
  intros Hprefix Hslash Hdot. unfold gateway_by_octets.
  replace (prefix +:+ "." +:+ octet +:+ "/" +:+ mask)
    with ((prefix +:+ String "." octet) +:+ "/" +:+ mask)
    by (rewrite append_assoc; reflexivity).
  rewrite first_part_split_slash
    by (rewrite no_char_app, Hprefix; simpl; rewrite Hslash; reflexivity).
  rewrite split_on_app_any, (split_on_whole "." octet Hdot), replace_last_snoc.
  rewrite join_snoc by apply split_on_nonempty.
  rewrite join_split_on. reflexivity.
Qed.

(** The two agree when the last octet is written with one character, as in
    every address that ends in [.0]. *)
Lemma gateway_ip_one_character_octet prefix c mask :
  no_char "/" prefix = true -> Ascii.eqb c "/" = false -> Ascii.eqb c "." = false ->
  gateway_ip (prefix +:+ "." +:+ String c EmptyString +:+ "/" +:+ mask)
  = gateway_by_octets (prefix +:+ "." +:+ String c EmptyString +:+ "/" +:+ mask).
Proof.
  intros Hprefix Hslash Hdot.
  rewrite gateway_by_octets_last_octet;
    [|exact Hprefix|simpl; rewrite Hslash; reflexivity|simpl; rewrite Hdot; reflexivity].
  replace (prefix +:+ "." +:+ String c EmptyString +:+ "/" +:+ mask)
    with ((prefix +:+ ".") +:+ String c EmptyString +:+ "/" +:+ mask)
    by (rewrite append_assoc; reflexivity).
  rewrite gateway_ip_last_character;
    [rewrite append_assoc; reflexivity| |exact Hslash].
  rewrite no_char_app, Hprefix. reflexivity.
Qed.

Example gateway_ip_24 : gateway_ip "10.0.1.0/24" = "10.0.1.1".
Proof. reflexivity. Qed.

Example gateway_by_octets_24 : gateway_by_octets "10.0.1.0/24" = "10.0.1.1".
Proof. reflexivity. Qed.

(** C3 (the code departs from the claim): [gateway_ip] drops the last
    character of the address, not its last octet.  For [10.0.1.128/25] the
    address with its last octet replaced by 1 is [10.0.1.1] and the code gives
    [10.0.1.121]; for [10.0.1.10/24] it gives [10.0.1.11]. *)
Theorem gateway_ip_drops_one_character :
  gateway_ip "10.0.1.128/25" = "10.0.1.121"
  /\ gateway_by_octets "10.0.1.128/25" = "10.0.1.1"
  /\ gateway_ip "10.0.1.10/24" = "10.0.1.11"
  /\ gateway_by_octets "10.0.1.10/24" = "10.0.1.1".
Proof. repeat split; reflexivity. Qed.

(** * The theorems at work on the example worlds *)

Lemma create_vpc_absent_bridge_not_created_witness :
  validate_cidr 4300 "10.1.0.0/16" = Ret true
  /\ returncode (shell_all_fail [] "ip link show br-test") <> 0
  /\ exists issued,
       create_vpc 4300 shell_all_fail "test" "10.1.0.0/16" empty_store
       = (Ret true,
          mkState (<["test" := fresh_config "test" "10.1.0.0/16"]> ∅) ([] ++ issued))
       /\ issued = [Cmd "ip link show br-test"; Write "test" (fresh_config "test" "10.1.0.0/16")]
       /\ (Cmd "ip link add br-test type bridge" ∉ issued)
       /\ (Cmd "ip link set br-test up" ∉ issued).
Proof.
  split; [reflexivity|]. split; [simpl; lia|].
  apply (create_vpc_absent_bridge_not_created
           4300 shell_all_fail "test" "10.1.0.0/16" empty_store);
    [reflexivity | simpl; lia].
Defined.

Lemma create_subnet_absent_namespace_not_created_witness :
  files store_test_empty !! "test" = Some config_test_empty
  /\ returncode (shell_all_fail [] "ip netns list | grep -q ns-test-web") <> 0
  /\ exists issued st',
       create_subnet shell_all_fail "test" "web" "10.1.1.0/24" "public" store_test_empty
       = (Ret true, st')
       /\ trace st' = [] ++ issued
       /\ issued
          = Cmd "ip netns list | grep -q ns-test-web"
            :: map Cmd (subnet_wiring "br-test" "test" "web" "10.1.1.0/24")
            ++ [Write "test" (with_subnet config_test_empty "test" "web" "10.1.1.0/24" "public")]
       /\ (Cmd "ip netns add ns-test-web" ∉ issued).
Proof.
  split; [vm_compute; reflexivity|]. split; [simpl; lia|].
  apply (create_subnet_absent_namespace_not_created
           shell_all_fail "test" "web" "10.1.1.0/24" "public" config_test_empty
           store_test_empty);
    [vm_compute; reflexivity | simpl; lia].
Defined.

Lemma dict_wf_config_test : dict_wf (cfg_subnets config_test).
Proof.
  apply (bool_decide_unpack _). vm_compute. exact I.
Defined.

Lemma delete_subnet_frame_witness :
  files store_test !! "test" = Some config_test
  /\ dict_wf (cfg_subnets config_test)
  /\ dict_get "web" (cfg_subnets config_test) = Some subnet_web
  /\ exists st' config' before after,
       delete_subnet shell_all_fail "test" "web" store_test = (Ret true, st')
       /\ files st' !! "test" = Some config'
       /\ cfg_name config' = "test"
       /\ cfg_cidr config' = "10.1.0.0/16"
       /\ cfg_bridge config' = "br-test"
       /\ cfg_subnets config_test = before ++ ("web", subnet_web) :: after
       /\ cfg_subnets config' = before ++ after
       /\ dict_get "web" (cfg_subnets config') = None
       /\ (forall other, other <> "web" ->
             dict_get other (cfg_subnets config') = dict_get other (cfg_subnets config_test))
       /\ (forall vpc, vpc <> "test" -> files st' !! vpc = files store_test !! vpc).
Proof.
  split; [vm_compute; reflexivity|]. split; [exact dict_wf_config_test|].
  split; [reflexivity|].
  apply (delete_subnet_frame shell_all_fail "test" "web" config_test subnet_web store_test);
    [vm_compute; reflexivity | exact dict_wf_config_test | reflexivity].
Defined.

Lemma delete_vpc_order_witness :
  files store_test !! "test" = Some config_test
  /\ exists st' subnets_part,
       delete_vpc shell_all_fail "test" store_test = (Ret true, st')
       /\ files st' = delete "test" (files store_test)
       /\ subnets_part
          = [ Cmd "ip netns delete ns-test-web";
              Write "test" (mkConfig "test" "10.1.0.0/16" "br-test" [("db", subnet_db)]);
              Cmd "ip netns delete ns-test-db";
              Write "test" (mkConfig "test" "10.1.0.0/16" "br-test" []) ]
       /\ trace st'
          = [] ++ subnets_part
               ++ [Cmd "ip link set br-test down"; Cmd "ip link delete br-test type bridge"]
               ++ [Unlink "test"]
       /\ (forall entry, entry ∈ cfg_subnets config_test ->
             Cmd ("ip netns delete " +:+ sn_namespace (snd entry)) ∈ subnets_part)
       /\ forallb (fun e => negb (is_unlink e))
                  (subnets_part
                   ++ [Cmd "ip link set br-test down"; Cmd "ip link delete br-test type bridge"])
          = true.
Proof.
  split; [vm_compute; reflexivity|].
  apply (delete_vpc_order shell_all_fail "test" config_test store_test).
  vm_compute; reflexivity.
Defined.

(** C7, as stated, fails: when the rules file does not parse, the call
    returns [False] and not one of the rules has been applied, the flush
    included. *)
Lemma apply_firewall_parse_error_applies_nothing :
  files store_test !! "test" = Some config_test
  /\ dict_get "web" (cfg_subnets config_test) = Some subnet_web
  /\ path_exists demo_rules_files "rules.json" = true
  /\ custom_rules demo_rules_files no_container_str "ns-test-web" "rules.json"
     = Raise ValueError
  /\ fst (apply_firewall shell_all_fail demo_rules_files no_container_str
            "test" "web" (Some "rules.json") store_test)
     = Ret false
  /\ trace (snd (apply_firewall shell_all_fail demo_rules_files no_container_str
                   "test" "web" (Some "rules.json") store_test))
     = []
  /\ (Cmd "ip netns exec ns-test-web iptables -F"
        ∉ trace (snd (apply_firewall shell_all_fail demo_rules_files no_container_str
                        "test" "web" (Some "rules.json") store_test))).
Proof.
  repeat split; try (vm_compute; reflexivity).
  intros Hin. vm_compute in Hin. apply elem_of_nil in Hin. exact Hin.
Qed.

Example apply_firewall_good_file :
  trace (snd (apply_firewall shell_all_fail demo_rules_files no_container_str
                "test" "web" (Some "good.json") store_test))
  = map Cmd (base_rules "ns-test-web")
    ++ [ Cmd "ip netns exec ns-test-web iptables -A INPUT -p tcp --dport 443 -j ACCEPT";
         Cmd "ip netns exec ns-test-web iptables -A INPUT -p tcp --dport 23 -j DROP" ]
    ++ map Cmd (demo_rules "ns-test-web").
Proof. vm_compute. reflexivity. Qed.

Lemma validate_cidr_total_witness :
  validate_cidr_body 4300 "10.1.0.0" = Raise ValueError
  /\ validate_cidr 4300 "10.1.0.0" = Ret false.
Proof.
  split; [reflexivity|].
  apply (proj2 (proj2 (validate_cidr_total 4300 "10.1.0.0")) ValueError).
  reflexivity.
Defined.

Lemma validate_cidr_accepts_witness :
  digit_cap_allowed 4300
  /\ is_dotted_quad_cidr "10.1.0.0/16"
  /\ validate_cidr 4300 "10.1.0.0/16" = Ret true.
Proof.
  assert (Hcap : digit_cap_allowed 4300) by (right; lia).
  assert (Hquad : is_dotted_quad_cidr "10.1.0.0/16").
  { exists 10%nat, 1%nat, 0%nat, 0%nat, 16%nat.
    repeat split; lia. }
  split; [exact Hcap|]. split; [exact Hquad|].
  apply (proj1 (validate_cidr_accepts 4300 "10.1.0.0/16" Hcap) Hquad).
Defined.

(** * Further properties of the methods *)

(** ** More on dictionaries *)

Section DictMore.

Context {V : Type}.
Implicit Types (d : list (string * V)) (k : string) (v : V).



(** A key that is there keeps its place; a new key goes last. *)
Lemma dict_keys_set k v d :
  dict_keys (dict_set k v d)
  = match dict_get k d with
    | Some _ => dict_keys d
    | None => dict_keys d ++ [k]
    end.
Proof.
  induction d as [|[k0 v0] d IH]; simpl; [reflexivity|].
  destruct (String.eqb_spec k k0) as [->|Hk]; simpl; [reflexivity|].
  rewrite IH. destruct (dict_get k d); reflexivity.
Qed.

Lemma dict_wf_set k v d : dict_wf d -> dict_wf (dict_set k v d).
Proof.
  unfold dict_wf. intros Hwf. rewrite dict_keys_set.
  destruct (dict_get k d) eqn:Hget; [exact Hwf|].
  apply NoDup_app. split; [exact Hwf|]. split; [|apply NoDup_singleton].
  intros x Hx ->%list_elem_of_singleton.
  apply dict_get_None_keys in Hget. contradiction.
Qed.



Lemma dict_keys_del_subset k d x : x ∈ dict_keys (dict_del k d) -> x ∈ dict_keys d.
Proof.
  induction d as [|[k0 v0] d IH]; simpl; [auto|].
  destruct (String.eqb k k0); simpl.
  - apply list_elem_of_further.
  - rewrite !elem_of_cons. intros [->|Hx]; auto.
Qed.

Lemma dict_wf_del k d : dict_wf d -> dict_wf (dict_del k d).
Proof.
  unfold dict_wf. induction d as [|[k0 v0] d IH]; simpl; [auto|].
  intros [Hfresh Hwf]%NoDup_cons.
  destruct (String.eqb k k0); simpl; [exact Hwf|].
  apply NoDup_cons. split; [|apply IH, Hwf].
  intros Hin. apply Hfresh. eapply dict_keys_del_subset, Hin.
Qed.

Lemma dict_set_Forall (P : string * V -> Prop) k v d :
  P (k, v) -> Forall P d -> Forall P (dict_set k v d).
Proof.
  intros Hnew. induction 1 as [|[k0 v0] d Hhead Htail IH]; simpl.
  - repeat constructor. exact Hnew.
  - destruct (String.eqb_spec k k0) as [->|Hk]; constructor; assumption.
Qed.

Lemma dict_del_Forall (P : string * V -> Prop) k d : Forall P d -> Forall P (dict_del k d).
Proof.
  induction 1 as [|[k0 v0] d Hhead Htail IH]; simpl; [constructor|].
  destruct (String.eqb k k0); [exact Htail | constructor; assumption].
Qed.

Lemma dict_get_elem k v d : dict_get k d = Some v -> (k, v) ∈ d.
Proof.
  induction d as [|[k0 v0] d IH]; simpl; [discriminate|].
  destruct (String.eqb_spec k k0) as [->|Hk].
  - intros [= ->]. apply list_elem_of_here.
  - intros Hget. apply list_elem_of_further, IH, Hget.
Qed.

Lemma dict_mem_get k d : dict_mem k d = true <-> exists v, dict_get k d = Some v.
Proof.
  unfold dict_mem. destruct (dict_get k d); split; eauto; try discriminate.
  intros [v [=]].
Qed.

End DictMore.

(** ** What each method comes to *)

Section ClosedForms.

Variable shell : list event -> string -> CompletedProcess.



Lemma exec_command_found vpc_name subnet_name command config info st :
  files st !! vpc_name = Some config ->
  dict_get subnet_name (cfg_subnets config) = Some info ->
  exec_command shell vpc_name subnet_name command st
  = (Ret (returncode (shell (trace st)
                        ("ip netns exec " +:+ sn_namespace info +:+ " " +:+ command)) =? 0),
     after_cmd ("ip netns exec " +:+ sn_namespace info +:+ " " +:+ command) st).
Proof.
  intros Hfound Hsubnet. unfold exec_command.
  unfold bind at 1. unfold load_config at 1. rewrite Hfound, Hsubnet. reflexivity.
Qed.

End ClosedForms.

(** ** Creating and deleting, one after the other *)

Section RoundTrips.

Variable max_str_digits : nat.
Variable shell : list event -> string -> CompletedProcess.

(** X1: a CIDR that [validate_cidr] does not take, whatever the reason, makes
    [create_vpc] return [False] at once: no command, no write. *)
Theorem create_vpc_rejected_does_nothing name cidr st :
  validate_cidr max_str_digits cidr <> Ret true ->
  create_vpc max_str_digits shell name cidr st = (Ret false, st).
Proof.
  intros Hreject. apply create_vpc_invalid.
  rewrite validate_cidr_catches in *.
  destruct (validate_cidr_body max_str_digits cidr) as [[|]|]; congruence.
Qed.





(** X7: a second [delete_subnet] of the same subnet returns [False] and does
    nothing. *)
Theorem delete_subnet_twice vpc_name subnet_name config info st :
  files st !! vpc_name = Some config ->
  dict_wf (cfg_subnets config) ->
  dict_get subnet_name (cfg_subnets config) = Some info ->
  exists st1,
    delete_subnet shell vpc_name subnet_name st = (Ret true, st1)
    /\ delete_subnet shell vpc_name subnet_name st1 = (Ret false, st1).
Proof.
  intros Hfound Hwf Hsubnet. eexists.
  split; [eapply delete_subnet_found; eassumption|].
  unfold delete_subnet, bind, load_config. simpl.
  rewrite lookup_insert_eq. simpl.
  rewrite (dict_get_del_eq _ _ Hwf). reflexivity.
Qed.


End RoundTrips.

(** ** The firewall and the gateway to the outside *)

Section NatAndFirewall.

Variable shell : list event -> string -> CompletedProcess.
Variable rules_files : string -> rules_file_content.
Variable container_str : json -> string.



Lemma rmap_length {A B} (f : A -> result B) l ys : rmap f l = Ret ys -> length ys = length l.
Proof.
  revert ys. induction l as [|x l IH]; simpl; intros ys.
  - intros [= <-]. reflexivity.
  - destruct (f x) as [y|]; simpl; [|discriminate].
    destruct (rmap f l) as [ys'|]; simpl; [|discriminate].
    intros [= <-]. simpl. rewrite (IH ys'); reflexivity.
Qed.

Lemma rmap_ingress_rules ns_name items :
  (exists cmds, rmap (ingress_rule container_str ns_name) items = Ret cmds)
  <-> Forall (fun item => exists entries, item = JObj entries) items.
Proof.
  induction items as [|item items IH]; simpl.
  - split; [constructor | eauto].
  - rewrite Forall_cons, <- IH. split.
    + intros [cmds Hcmds].
      destruct (ingress_rule container_str ns_name item) as [cmd|e] eqn:Hitem;
        simpl in Hcmds; [|discriminate].
      destruct (rmap (ingress_rule container_str ns_name) items) as [cmds'|];
        simpl in Hcmds; [|discriminate].
      split; [|eauto].
      destruct item; try discriminate Hitem. eauto.
    + intros [[entries ->] [cmds Hcmds]].
      destruct (ingress_rule_object container_str ns_name entries) as [cmd Hcmd].
      rewrite Hcmd, Hcmds. simpl. eauto.
Qed.

(** X11: the rules file is taken exactly when it loads as a [dict] whose
    ingress field (an empty list when missing) can be iterated and yields
    only [dict]s. *)
Theorem custom_rules_accepted ns_name path :
  (exists cmds, custom_rules rules_files container_str ns_name path = Ret cmds)
  <-> exists entries items,
        rules_files path = Loaded (JObj entries)
        /\ json_iter (match dict_get "ingress" entries with
                      | Some ingress => ingress
                      | None => JArr []
                      end) = Ret items
        /\ Forall (fun item => exists rule, item = JObj rule) items.
Proof.
  unfold custom_rules. split.
  - intros [cmds Hcmds].
    destruct (rules_files path) as [|e|document]; simpl in Hcmds; try discriminate.
    destruct document; simpl in Hcmds; try discriminate.
    destruct (json_iter _) as [items|] eqn:Hiter; simpl in Hcmds; [|discriminate].
    exists entries, items. repeat split; [exact Hiter|].
    apply (rmap_ingress_rules ns_name). eauto.
  - intros (entries & items & -> & Hiter & Hitems). simpl. rewrite Hiter. simpl.
    apply rmap_ingress_rules, Hitems.
Qed.

(** One command for each item of the list. *)
Lemma custom_rules_length ns_name path entries items cmds :
  rules_files path = Loaded (JObj entries) ->
  json_iter (match dict_get "ingress" entries with
             | Some ingress => ingress
             | None => JArr []
             end) = Ret items ->
  custom_rules rules_files container_str ns_name path = Ret cmds ->
  length cmds = length items.
Proof.
  unfold custom_rules. intros -> Hiter. simpl. rewrite Hiter. simpl.
  apply rmap_length.
Qed.

End NatAndFirewall.

(** ** The gateway does not look at the mask *)

(** X12: the gateway does not depend on what follows the slash: it is the
    address without its last character, followed by 1. *)
Theorem gateway_ip_ignores_mask address mask1 mask2 :
  no_char "/" address = true ->
  gateway_ip (address +:+ "/" +:+ mask1) = gateway_ip (address +:+ "/" +:+ mask2)
  /\ gateway_ip (address +:+ "/" +:+ mask1) = drop_last address +:+ "1".
Proof.
  intros Hfree. unfold gateway_ip.
  rewrite !first_part_split_slash by exact Hfree. split; reflexivity.
Qed.

(** ** Separators in what the validator takes *)

Lemma count_char_app c a b : count_char c (a +:+ b) = (count_char c a + count_char c b)%nat.
Proof.
  induction a as [|x a IH]; simpl; [reflexivity|].
  destruct (Ascii.eqb x c); rewrite IH; reflexivity.
Qed.

Lemma count_char_none c s : no_char c s = true -> count_char c s = 0%nat.
Proof.
  induction s as [|x s IH]; simpl; [reflexivity|].
  destruct (Ascii.eqb x c); simpl; [discriminate | exact IH].
Qed.

(** X13: a string that [validate_cidr] takes holds exactly one slash and
    exactly three dots. *)
Theorem validate_cidr_separators max_str_digits cidr :
  validate_cidr max_str_digits cidr = Ret true ->
  count_char "/" cidr = 1%nat /\ count_char "." cidr = 3%nat.
Proof.
  intros (t1 & t2 & t3 & t4 & tm & z1 & z2 & z3 & z4 & zm & -> &
          H1 & _ & H2 & _ & H3 & _ & H4 & _ & Hm & _)%validate_cidr_python.
  rewrite !count_char_app.
  rewrite (count_char_none "/" t1), (count_char_none "/" t2), (count_char_none "/" t3),
          (count_char_none "/" t4), (count_char_none "/" tm)
    by eauto using slash_not_in_literal.
  rewrite (count_char_none "." t1), (count_char_none "." t2), (count_char_none "." t3),
          (count_char_none "." t4), (count_char_none "." tm)
    by eauto using dot_not_in_literal.
  split; reflexivity.
Qed.

(** ** What the shell answers *)

Section ShellIndependence.

Variable max_str_digits : nat.
Variables shell1 shell2 : list event -> string -> CompletedProcess.
Variable rules_files : string -> rules_file_content.
Variable container_str : json -> string.


End ShellIndependence.

(** ** Listing *)

Section Listing.

Variable glob : gmap string vpc_config -> list string.
Hypothesis glob_lists_the_store : lists_the_store glob.

Lemma glob_names store name : name ∈ glob store <-> is_Some (store !! name).
Proof.
  rewrite (glob_lists_the_store store), list_elem_of_fmap. split.
  - intros ([name' config] & -> & Hin). apply elem_of_map_to_list in Hin. eauto.
  - intros [config Hconfig]. exists (name, config). split; [reflexivity|].
    apply elem_of_map_to_list, Hconfig.
Qed.

Lemma glob_empty store : glob store = [] <-> store = ∅.
Proof.
  split.
  - intros Hglob. apply map_to_list_empty_iff.
    pose proof (glob_lists_the_store store) as Hperm. rewrite Hglob in Hperm.
    apply Permutation_nil_l in Hperm. symmetry in Hperm.
    destruct (map_to_list store); [reflexivity | discriminate].
  - intros ->. apply Permutation_nil_r. rewrite (glob_lists_the_store ∅).
    rewrite map_to_list_empty. reflexivity.
Qed.

(** Every file that is listed is read, and its block is printed. *)
Lemma print_all st names :
  (forall name, name ∈ names -> is_Some (files st !! name)) ->
  exists blocks,
    rmap (print_vpc st) names = Ret blocks
    /\ (forall name config,
          name ∈ names -> files st !! name = Some config -> vpc_lines config ∈ blocks).
Proof.
  induction names as [|name names IH]; intros Hnames; simpl.
  - exists []. split; [reflexivity|]. intros name config Hin. apply elem_of_nil in Hin.
    contradiction.
  - destruct IH as (blocks & Hblocks & Hin).
    { intros name' Hname'. apply Hnames, list_elem_of_further, Hname'. }
    destruct (Hnames name (list_elem_of_here _ _)) as [config Hconfig].
    unfold print_vpc at 1. rewrite Hconfig, Hblocks. simpl.
    eexists. split; [reflexivity|].
    intros name' config' [->|Hname']%elem_of_cons Hconfig'.
    + rewrite Hconfig in Hconfig'. injection Hconfig' as <-. apply list_elem_of_here.
    + apply list_elem_of_further, (Hin _ _ Hname' Hconfig').
Qed.

Lemma list_vpcs_block st vpc config :
  files st !! vpc = Some config ->
  exists lines,
    list_vpcs glob st = Ret lines
    /\ (forall line, line ∈ vpc_lines config -> line ∈ lines).
Proof.
  intros Hfound.
  assert (Hlisted : vpc ∈ glob (files st)) by (apply glob_names; eauto).
  destruct (print_all st (glob (files st))) as (blocks & Hblocks & Hin).
  { intros name. apply glob_names. }
  unfold list_vpcs. destruct (glob (files st)) as [|name names] eqn:Hglob.
  { apply elem_of_nil in Hlisted. contradiction. }
  rewrite Hblocks. simpl. eexists. split; [reflexivity|].
  intros line Hline. apply list_elem_of_In, in_concat.
  exists (vpc_lines config).
  split; apply list_elem_of_In; [apply (Hin _ _ Hlisted Hfound) | exact Hline].
Qed.

(** X17: [list_vpcs] prints the single line [No VPCs found] exactly when the
    store is empty. *)
Theorem list_vpcs_empty_store st :
  list_vpcs glob st = Ret ["No VPCs found"] <-> files st = ∅.
Proof.
  split.
  - intros Hlist. apply glob_empty.
    destruct (glob (files st)) as [|name names] eqn:Hglob; [reflexivity|].
    assert (Hname : is_Some (files st !! name)).
    { apply glob_names. rewrite Hglob. apply list_elem_of_here. }
    destruct Hname as [config Hconfig].
    destruct (print_all st names) as (blocks & Hblocks & _).
    { intros name' Hname'. apply glob_names. rewrite Hglob.
      apply list_elem_of_further, Hname'. }
    unfold list_vpcs in Hlist. rewrite Hglob in Hlist. simpl in Hlist.
    unfold print_vpc at 1 in Hlist. rewrite Hconfig, Hblocks in Hlist.
    simpl in Hlist. discriminate Hlist.
  - intros Hempty. unfold list_vpcs.
    rewrite (proj2 (glob_empty (files st)) Hempty). reflexivity.
Qed.

(** X18: for every record [list_vpcs] prints the line with its name and
    CIDR, the line with its bridge and one line for each of its subnets. *)
Theorem list_vpcs_shows_record st vpc config :
  files st !! vpc = Some config ->
  exists lines,
    list_vpcs glob st = Ret lines
    /\ (line_feed +:+ "VPC: " +:+ cfg_name config +:+ " (" +:+ cfg_cidr config +:+ ")")
         ∈ lines
    /\ ("Bridge: " +:+ cfg_bridge config) ∈ lines
    /\ (forall subnet info,
          dict_get subnet (cfg_subnets config) = Some info ->
          ("  - " +:+ subnet +:+ ": " +:+ sn_cidr info +:+ " (" +:+ sn_type info +:+ ")")
            ∈ lines).
Proof.
  intros Hfound. destruct (list_vpcs_block st vpc config Hfound) as (lines & Hlines & Hin).
  exists lines. split; [exact Hlines|].
  split; [apply Hin, list_elem_of_here|].
  split; [apply Hin, list_elem_of_further, list_elem_of_here|].
  intros subnet info Hsubnet. apply Hin. unfold vpc_lines.
  apply elem_of_app. right. apply list_elem_of_fmap.
  exists (subnet, info). split; [reflexivity | apply dict_get_elem, Hsubnet].
Qed.


End Listing.

(** * The further properties at work on the example worlds *)

Lemma lookup_store_test : files store_test !! "test" = Some config_test.
Proof. vm_compute. reflexivity. Defined.


Lemma glob_by_key_lists_the_store : lists_the_store glob_by_key.
Proof. intros store. reflexivity. Defined.

Lemma create_vpc_rejected_does_nothing_witness :
  validate_cidr 4300 "10.1.0.0/33" <> Ret true
  /\ create_vpc 4300 shell_all_succeed "test" "10.1.0.0/33" empty_store
     = (Ret false, empty_store).
Proof.
  assert (Hreject : validate_cidr 4300 "10.1.0.0/33" <> Ret true)
    by (vm_compute; discriminate).
  split; [exact Hreject|].
  apply (create_vpc_rejected_does_nothing 4300 shell_all_succeed "test" "10.1.0.0/33"
           empty_store Hreject).
Defined.





Lemma delete_subnet_twice_witness :
  files store_test !! "test" = Some config_test
  /\ dict_wf (cfg_subnets config_test)
  /\ dict_get "web" (cfg_subnets config_test) = Some subnet_web
  /\ exists st1,
       delete_subnet shell_all_succeed "test" "web" store_test = (Ret true, st1)
       /\ delete_subnet shell_all_succeed "test" "web" st1 = (Ret false, st1).
Proof.
  split; [exact lookup_store_test|]. split; [exact dict_wf_config_test|].
  split; [reflexivity|].
  apply (delete_subnet_twice shell_all_succeed "test" "web" config_test subnet_web store_test
           lookup_store_test dict_wf_config_test eq_refl).
Defined.




Lemma gateway_ip_ignores_mask_witness :
  no_char "/" "10.0.1.128" = true
  /\ gateway_ip ("10.0.1.128" +:+ "/" +:+ "25") = gateway_ip ("10.0.1.128" +:+ "/" +:+ "24")
  /\ gateway_ip ("10.0.1.128" +:+ "/" +:+ "25") = drop_last "10.0.1.128" +:+ "1".
Proof.
  split; [reflexivity|].
  apply (gateway_ip_ignores_mask "10.0.1.128" "25" "24" eq_refl).
Defined.

Lemma validate_cidr_separators_witness :
  validate_cidr 4300 "10.1.0.0/16" = Ret true
  /\ count_char "/" "10.1.0.0/16" = 1%nat /\ count_char "." "10.1.0.0/16" = 3%nat.
Proof.
  split; [reflexivity|].
  apply (validate_cidr_separators 4300 "10.1.0.0/16" eq_refl).
Defined.

Lemma list_vpcs_empty_store_witness :
  lists_the_store glob_by_key
  /\ (list_vpcs glob_by_key empty_store = Ret ["No VPCs found"] <-> files empty_store = ∅).
Proof.
  split; [exact glob_by_key_lists_the_store|].
  apply (list_vpcs_empty_store glob_by_key glob_by_key_lists_the_store empty_store).
Defined.

Lemma list_vpcs_shows_record_witness :
  lists_the_store glob_by_key
  /\ files store_test !! "test" = Some config_test
  /\ exists lines,
       list_vpcs glob_by_key store_test = Ret lines
       /\ (line_feed +:+ "VPC: test (10.1.0.0/16)") ∈ lines
       /\ "Bridge: br-test" ∈ lines
       /\ (forall subnet info,
             dict_get subnet (cfg_subnets config_test) = Some info ->
             ("  - " +:+ subnet +:+ ": " +:+ sn_cidr info +:+ " (" +:+ sn_type info +:+ ")")
               ∈ lines).
Proof.
  split; [exact glob_by_key_lists_the_store|]. split; [exact lookup_store_test|].
  apply (list_vpcs_shows_record glob_by_key glob_by_key_lists_the_store
           store_test "test" config_test lookup_store_test).
Defined.


Example list_vpcs_store_test :
  list_vpcs glob_by_key store_test
  = Ret [ line_feed +:+ "VPC: test (10.1.0.0/16)";
          "Bridge: br-test";
          "Subnets:";
          "  - web: 10.1.1.0/24 (public)";
          "  - db: 10.1.2.0/24 (private)" ].
Proof. vm_compute. reflexivity. Qed.

(** * Properties on the host *)

(** ** Where a plain name leads *)

Lemma utf8_length_app a b :
  Host.utf8_length (a +:+ b) = (Host.utf8_length a + Host.utf8_length b)%nat.
Proof. induction a as [|c a IH]; simpl; [reflexivity | rewrite IH; lia]. Qed.

Lemma has_nul_app a b : Host.has_nul (a +:+ b) = Host.has_nul a || Host.has_nul b.
Proof. unfold Host.has_nul. rewrite no_char_app, negb_andb. reflexivity. Qed.

Lemma no_char_head c s : no_char c s = true -> head_is (fun x => Ascii.eqb x c) s = false.
Proof.
  destruct s as [|x s]; simpl; [reflexivity|].
  destruct (Ascii.eqb x c); [discriminate | reflexivity].
Qed.

(** A plain name leads to the file of that name in the directory of the
    records, when that directory is there and no directory has the name of the
    file. *)
Lemma locate_plain is_dir name :
  Host.plain_name name ->
  is_dir ["tmp"] = true ->
  is_dir Host.vpc_dir = true ->
  is_dir (Host.vpc_dir ++ [name +:+ ".json"]) = false ->
  Host.locate is_dir name = Host.File (Host.vpc_dir ++ [name +:+ ".json"]).
Proof.
  intros (Hslash & Hnul & Hlen) Htmp Hvpc_dir Hdir. unfold Host.locate.
  assert (Hfile_slash : no_char "/" (name +:+ ".json") = true)
    by (rewrite no_char_app, Hslash; reflexivity).
  assert (Hhead : head_is Host.is_slash (name +:+ ".json") = false)
    by (apply (no_char_head "/"), Hfile_slash).
  assert (Hbytes : Host.utf8_length (name +:+ ".json") = (Host.utf8_length name + 5)%nat)
    by (rewrite utf8_length_app; reflexivity).
  assert (Hcomponents : Host.components (name +:+ ".json") = [name +:+ ".json"]).
  { unfold Host.components. rewrite (split_on_whole "/" _ Hfile_slash). simpl.
    assert (Hcomponent : Host.is_component (name +:+ ".json") = true);
      [|rewrite Hcomponent; reflexivity].
    unfold Host.is_component.
    destruct (String.eqb_spec (name +:+ ".json") EmptyString) as [Heq|_].
    { apply (f_equal String.length) in Heq. rewrite length_append in Heq. simpl in Heq. lia. }
    destruct (String.eqb_spec (name +:+ ".json") ".") as [Heq|_]; [|reflexivity].
    apply (f_equal String.length) in Heq. rewrite length_append in Heq. simpl in Heq. lia. }
  rewrite has_nul_app, Hnul.
  change (Host.has_nul ".json") with false. cbn [orb].
  unfold Host.path_bytes, Host.prefix_bytes. rewrite Hhead, Hcomponents.
  cbn [map]. rewrite Hbytes.
  destruct (Nat.leb_spec 4096 (16 + list_sum [S (Host.utf8_length name + 5)])) as [Hlong|_];
    [simpl in Hlong; lia|].
  change (Host.walk is_dir [] (Host.vpc_dir ++ [name +:+ ".json"]))
    with (if is_dir ["tmp"]
          then if is_dir Host.vpc_dir
               then if (255 <? Host.utf8_length (name +:+ ".json"))%nat then Host.NameTooLong
                    else if is_dir (Host.vpc_dir ++ [name +:+ ".json"]) then Host.Directory
                         else Host.File (Host.vpc_dir ++ [name +:+ ".json"])
               else Host.NoSuchDirectory
          else Host.NoSuchDirectory).
  rewrite Htmp, Hvpc_dir, Hbytes.
  destruct (Nat.ltb_spec 255 (Host.utf8_length name + 5)) as [Hlong|_]; [lia|].
  rewrite Hdir. reflexivity.
Qed.

(** Where a name leads depends on the directories only. *)
Lemma locate_on_dirs st st' name :
  Host.dirs (Host.on_disk st') = Host.dirs (Host.on_disk st) ->
  Host.locate_on st' name = Host.locate_on st name.
Proof. intros Hdirs. unfold Host.locate_on. rewrite Hdirs. reflexivity. Qed.

(** ** Running commands on the host *)

Section HostCommands.

Variable max_str_digits : nat.
Variable shell : Host.disk -> list event -> string -> Host.outcome * Host.disk.
Variable rules_files : string -> rules_file_content.
Variable container_str : json -> string.

Lemma host_run_cmd_runs cmd check st :
  Host.runs shell cmd ->
  exists r,
    Host.run_cmd shell cmd check st = (Ret r, Host.ran shell [cmd] st)
    /\ (check = false -> truthy r = true).
Proof.
  intros [Hnul Hruns]. unfold Host.run_cmd. rewrite Hnul.
  destruct (Hruns (Host.on_disk st) (Host.trace st)) as [result ->]. simpl.
  destruct check; simpl.
  - destruct (negb (returncode result =? 0)); eexists; split; try reflexivity; discriminate.
  - eexists. split; reflexivity.
Qed.

Lemma host_run_cmd_then {B} cmd check (k : Host.M B) st :
  Host.runs shell cmd ->
  Host.bind (Host.run_cmd shell cmd check) (fun _ => k) st = k (Host.ran shell [cmd] st).
Proof.
  intros Hruns. unfold Host.bind.
  destruct (host_run_cmd_runs cmd check st Hruns) as (r & -> & _). reflexivity.
Qed.

Lemma host_run_cmd_nul cmd check st :
  Host.has_nul cmd = true -> Host.run_cmd shell cmd check st = (Raise ValueError, st).
Proof. intros Hnul. unfold Host.run_cmd. rewrite Hnul. reflexivity. Qed.

Lemma ran_app cmds1 cmds2 st :
  Host.ran shell (cmds1 ++ cmds2) st = Host.ran shell cmds2 (Host.ran shell cmds1 st).
Proof. revert st. induction cmds1 as [|c cmds1 IH]; intros st; simpl; [reflexivity | apply IH]. Qed.

Lemma ran_trace cmds st :
  Host.trace (Host.ran shell cmds st) = Host.trace st ++ map Cmd cmds.
Proof.
  revert st. induction cmds as [|c cmds IH]; intros st; simpl.
  - rewrite app_nil_r. reflexivity.
  - rewrite IH. simpl. rewrite <- app_assoc. reflexivity.
Qed.

Lemma ran_disk cmds st :
  Host.keeps_disk shell -> Host.on_disk (Host.ran shell cmds st) = Host.on_disk st.
Proof.
  intros Hkeeps. revert st. induction cmds as [|c cmds IH]; intros st; simpl; [reflexivity|].
  rewrite IH. simpl. apply Hkeeps.
Qed.

(** Commands that all run are all handed to the shell. *)
Lemma host_run_all cmds st :
  Forall (Host.runs shell) cmds ->
  Host.for_each cmds (fun cmd => Host.run_cmd shell cmd true) st
  = (Ret tt, Host.ran shell cmds st).
Proof.
  intros Hall. revert st. induction Hall as [|c cmds Hc _ IH]; intros st; simpl.
  - reflexivity.
  - rewrite (host_run_cmd_then _ _ _ _ Hc). apply IH.
Qed.

(** The first command with a NUL byte stops the loop with a [ValueError]:
    the commands before it have run, the ones after it never do. *)
Lemma host_run_until_nul before cmd after st :
  Forall (Host.runs shell) before ->
  Host.has_nul cmd = true ->
  Host.for_each (before ++ cmd :: after) (fun cmd => Host.run_cmd shell cmd true) st
  = (Raise ValueError, Host.ran shell before st).
Proof.
  intros Hall Hnul. revert st. induction Hall as [|c cmds Hc _ IH]; intros st; simpl.
  - unfold Host.bind. rewrite (host_run_cmd_nul _ _ _ Hnul). reflexivity.
  - rewrite (host_run_cmd_then _ _ _ _ Hc). apply IH.
Qed.


(** ** Looking a record up on the host *)

Lemma config_exists_absent vpc st :
  Host.no_record st vpc -> Host.config_exists vpc st = (Ret false, st).
Proof.
  unfold Host.no_record, Host.config_exists.
  destruct (Host.locate_on st vpc); intros Habsent; try contradiction; try reflexivity.
  rewrite Habsent. reflexivity.
Qed.

Lemma config_exists_found vpc p config st :
  Host.locate_on st vpc = Host.File p ->
  Host.record_at st p = Some config ->
  Host.config_exists vpc st = (Ret true, st).
Proof.
  intros Hfile Hrecord. unfold Host.config_exists. rewrite Hfile, Hrecord. reflexivity.
Qed.

Lemma load_config_found vpc p config st :
  Host.locate_on st vpc = Host.File p ->
  Host.record_at st p = Some config ->
  Host.load_config vpc st = (Ret config, st).
Proof.
  intros Hfile Hrecord. unfold Host.load_config. rewrite Hfile, Hrecord. reflexivity.
Qed.

(** A subcommand on a name without a record returns [False] at once. *)
Lemma host_vpc_not_found op vpc subnet st :
  Host.no_record st vpc ->
  Host.run_subnet_op shell rules_files container_str op vpc subnet st = (Ret false, st).
Proof.
  intros Habsent. destruct op; simpl;
    unfold Host.create_subnet, Host.delete_subnet, Host.setup_nat, Host.apply_firewall,
           Host.exec_command;
    unfold Host.bind at 1; rewrite (config_exists_absent _ _ Habsent); reflexivity.
Qed.

(** The subcommands that look the subnet up return [False] at once when it
    is not in the record. *)
Lemma host_subnet_not_found op vpc subnet p config st :
  looks_up_subnet op = true ->
  Host.locate_on st vpc = Host.File p ->
  Host.record_at st p = Some config ->
  dict_get subnet (cfg_subnets config) = None ->
  Host.run_subnet_op shell rules_files container_str op vpc subnet st = (Ret false, st).
Proof.
  intros Hlooks Hfile Hrecord Habsent. destruct op; try discriminate Hlooks; simpl;
    unfold Host.delete_subnet, Host.setup_nat, Host.apply_firewall, Host.exec_command;
    unfold Host.bind at 1; rewrite (config_exists_found _ _ _ _ Hfile Hrecord); simpl;
    unfold Host.bind at 1; rewrite (load_config_found _ _ _ _ Hfile Hrecord);
    try rewrite (dict_mem_None _ _ Habsent); try rewrite Habsent; reflexivity.
Qed.

(** A name that is too long, or that leads to a directory, makes every
    subcommand raise before it does anything. *)
Lemma host_vpc_unreadable op vpc subnet st :
  Host.locate_on st vpc = Host.NameTooLong \/ Host.locate_on st vpc = Host.Directory ->
  Host.run_subnet_op shell rules_files container_str op vpc subnet st = (Raise OSError, st).
Proof.
  intros Hlocation. destruct op; simpl;
    unfold Host.create_subnet, Host.delete_subnet, Host.setup_nat, Host.apply_firewall,
           Host.exec_command;
    unfold Host.bind at 1, Host.config_exists;
    destruct Hlocation as [Hlocation|Hlocation]; rewrite Hlocation; try reflexivity;
    simpl; unfold Host.bind at 1, Host.load_config; rewrite Hlocation; reflexivity.
Qed.

(** ** Creating a VPC on the host *)

(** With a valid CIDR and a command that returns, [create_vpc] hands the
    one command to the shell and then opens the file for writing. *)
Lemma host_create_vpc_valid name cidr st :
  validate_cidr max_str_digits cidr = Ret true ->
  Host.runs shell ("ip link show br-" +:+ name) ->
  Host.create_vpc max_str_digits shell name cidr st
  = Host.bind (Host.dump_config name (fresh_config name cidr)) (fun _ => Host.ret true)
      (Host.ran shell ["ip link show br-" +:+ name] st).
Proof.
  intros Hvalid Hruns. unfold Host.create_vpc.
  unfold Host.bind at 1, Host.lift. rewrite Hvalid. cbn [negb].
  unfold Host.bind at 1.
  match goal with |- context [Host.run_cmd shell ?cmd false st] =>
    destruct (host_run_cmd_runs cmd false st Hruns) as (shown & Hrun & Htruthy)
  end.
  rewrite Hrun, (Htruthy eq_refl). cbn [negb]. reflexivity.
Qed.

Lemma host_dump_config_file vpc config p st :
  Host.locate_on st vpc = Host.File p ->
  Host.dump_config vpc config st
  = (Ret tt, Host.mkHost (Host.write_file p config (Host.on_disk st))
                         (Host.trace st ++ [Write vpc config])).
Proof. intros Hfile. unfold Host.dump_config. rewrite Hfile. reflexivity. Qed.

Lemma host_create_vpc_file name cidr p st :
  validate_cidr max_str_digits cidr = Ret true ->
  Host.runs shell ("ip link show br-" +:+ name) ->
  Host.keeps_disk shell ->
  Host.locate_on st name = Host.File p ->
  Host.create_vpc max_str_digits shell name cidr st
  = (Ret true,
     Host.mkHost (Host.write_file p (fresh_config name cidr) (Host.on_disk st))
                 (Host.trace st ++ [Cmd ("ip link show br-" +:+ name);
                                    Write name (fresh_config name cidr)])).
Proof.
  intros Hvalid Hruns Hkeeps Hfile.
  rewrite (host_create_vpc_valid _ _ _ Hvalid Hruns). unfold Host.bind.
  rewrite (host_dump_config_file _ _ p).
  - simpl. rewrite Hkeeps, <- app_assoc. reflexivity.
  - erewrite locate_on_dirs; [exact Hfile|]. rewrite (ran_disk _ _ Hkeeps). reflexivity.
Qed.

Lemma locate_on_write st p config trace' name :
  Host.locate_on (Host.mkHost (Host.write_file p config (Host.on_disk st)) trace') name
  = Host.locate_on st name.
Proof. reflexivity. Qed.

(** ** Deleting a VPC without subnets on the host *)

Lemma host_delete_vpc_no_subnets name p config st :
  Host.locate_on st name = Host.File p ->
  Host.record_at st p = Some config ->
  cfg_subnets config = [] ->
  Host.runs shell ("ip link set " +:+ cfg_bridge config +:+ " down") ->
  Host.runs shell ("ip link delete " +:+ cfg_bridge config +:+ " type bridge") ->
  Host.keeps_disk shell ->
  Host.delete_vpc shell name st
  = (Ret true,
     Host.mkHost (Host.remove_file p (Host.on_disk st))
                 (Host.trace st
                  ++ [Cmd ("ip link set " +:+ cfg_bridge config +:+ " down");
                      Cmd ("ip link delete " +:+ cfg_bridge config +:+ " type bridge");
                      Unlink name])).
Proof.
  intros Hfile Hrecord Hsubnets Hdown Hdelete Hkeeps. unfold Host.delete_vpc.
  unfold Host.bind at 1. rewrite (config_exists_found _ _ _ _ Hfile Hrecord). cbn [negb].
  unfold Host.bind at 1. rewrite (load_config_found _ _ _ _ Hfile Hrecord).
  rewrite Hsubnets. cbn [dict_keys map Host.for_each].
  unfold Host.bind at 1, Host.ret at 1.
  rewrite (host_run_cmd_then _ _ _ _ Hdown), (host_run_cmd_then _ _ _ _ Hdelete).
  rewrite <- (ran_app [_] [_]).
  set (cmds := [_] ++ [_]).
  unfold Host.bind, Host.unlink.
  erewrite locate_on_dirs by (rewrite (ran_disk _ _ Hkeeps); reflexivity).
  rewrite Hfile. unfold Host.record_at in *. rewrite (ran_disk _ _ Hkeeps), Hrecord.
  rewrite ran_trace. subst cmds. simpl. rewrite <- app_assoc. reflexivity.
Qed.

(** ** The firewall on the host *)

(** What [apply_firewall] does once the record and the subnet are found:
    the list of commands is built first, then the loop runs. *)
Lemma host_apply_firewall_found vpc subnet rules_file p config info st :
  Host.locate_on st vpc = Host.File p ->
  Host.record_at st p = Some config ->
  dict_get subnet (cfg_subnets config) = Some info ->
  Host.apply_firewall shell rules_files container_str vpc subnet rules_file st
  = match
      match truthy_str rules_file with
      | Some path =>
          if path_exists rules_files path then
            match custom_rules rules_files container_str (sn_namespace info) path with
            | Ret custom => Some (base_rules (sn_namespace info) ++ custom)
            | Raise _ => None
            end
          else Some (base_rules (sn_namespace info))
      | None => Some (base_rules (sn_namespace info))
      end
    with
    | None => (Ret false, st)
    | Some cmds =>
        Host.bind
          (Host.for_each (cmds ++ demo_rules (sn_namespace info))
             (fun cmd => Host.run_cmd shell cmd true))
          (fun _ => Host.ret true) st
    end.
Proof.
  intros Hfile Hrecord Hsubnet. unfold Host.apply_firewall.
  unfold Host.bind at 1. rewrite (config_exists_found _ _ _ _ Hfile Hrecord). cbn [negb].
  unfold Host.bind at 1. rewrite (load_config_found _ _ _ _ Hfile Hrecord), Hsubnet.
  cbv zeta.
  match goal with |- context [match ?x with Some _ => _ | None => Host.ret false end] =>
    destruct x as [cmds|] end; reflexivity.
Qed.

(** ** What a method leaves as it is *)

Lemma only_runs_ret {A} (a : A) : Host.only_runs shell (Host.ret a).
Proof. intros st. exists []. reflexivity. Qed.

Lemma only_runs_lift {A} (r : result A) : Host.only_runs shell (Host.lift r).
Proof. intros st. exists []. reflexivity. Qed.

Lemma only_runs_bind {A B} (m : Host.M A) (k : A -> Host.M B) :
  Host.only_runs shell m -> (forall a, Host.only_runs shell (k a)) ->
  Host.only_runs shell (Host.bind m k).
Proof.
  intros Hm Hk st. unfold Host.bind.
  destruct (Hm st) as [cmds Hran].
  destruct (m st) as [[a|e] st']; simpl in *.
  - destruct (Hk a st') as [cmds' Hran'].
    exists (cmds ++ cmds'). rewrite ran_app, <- Hran. exact Hran'.
  - exists cmds. exact Hran.
Qed.

Lemma only_runs_for_each {A B} (l : list A) (body : A -> Host.M B) :
  (forall a, Host.only_runs shell (body a)) -> Host.only_runs shell (Host.for_each l body).
Proof.
  intros Hbody. induction l as [|a l IH]; simpl.
  - apply only_runs_ret.
  - apply only_runs_bind; [apply Hbody | intros _; exact IH].
Qed.

Lemma only_runs_run_cmd cmd check : Host.only_runs shell (Host.run_cmd shell cmd check).
Proof.
  intros st. unfold Host.run_cmd.
  destruct (Host.has_nul cmd); [exists []; reflexivity|].
  exists [cmd]. simpl.
  destruct (fst (shell (Host.on_disk st) (Host.trace st) cmd)) as [result|e];
    [destruct (check && negb (returncode result =? 0))|]; reflexivity.
Qed.

Lemma only_runs_config_exists vpc : Host.only_runs shell (Host.config_exists vpc).
Proof.
  intros st. exists []. unfold Host.config_exists.
  destruct (Host.locate_on st vpc); reflexivity.
Qed.

Lemma only_runs_load_config vpc : Host.only_runs shell (Host.load_config vpc).
Proof.
  intros st. exists []. unfold Host.load_config.
  destruct (Host.locate_on st vpc); try destruct (Host.record_at st p); reflexivity.
Qed.

Ltac only_runs_step :=
  first [ apply only_runs_ret | apply only_runs_lift | apply only_runs_config_exists
        | apply only_runs_load_config | apply only_runs_run_cmd
        | apply only_runs_for_each; intros ?
        | apply only_runs_bind; [|intros ?]
        | match goal with
          | |- Host.only_runs _ (if ?b then _ else _) => destruct b
          | |- Host.only_runs _ (match ?x with Some _ => _ | None => _ end) => destruct x
          end ].

Lemma only_runs_setup_nat vpc subnet host_interface :
  Host.only_runs shell (Host.setup_nat shell vpc subnet host_interface).
Proof. unfold Host.setup_nat. repeat only_runs_step. Qed.

Lemma only_runs_exec_command vpc subnet command :
  Host.only_runs shell (Host.exec_command shell vpc subnet command).
Proof. unfold Host.exec_command. repeat only_runs_step. Qed.

Lemma only_runs_apply_firewall vpc subnet rules_file :
  Host.only_runs shell
    (Host.apply_firewall shell rules_files container_str vpc subnet rules_file).
Proof. unfold Host.apply_firewall. cbv zeta. repeat only_runs_step. Qed.

(** With a shell that leaves the disk alone, what only runs commands leaves
    every file as it is. *)
Lemma leaves_only_runs {A} vpc q (m : Host.M A) :
  Host.keeps_disk shell -> Host.only_runs shell m -> Host.leaves vpc q m.
Proof.
  intros Hkeeps Hm st _. destruct (Hm st) as [cmds Hran].
  unfold Host.record_at. rewrite Hran, (ran_disk _ _ Hkeeps). split; reflexivity.
Qed.

Lemma leaves_bind {A B} vpc q (m : Host.M A) (k : A -> Host.M B) :
  Host.leaves vpc q m -> (forall a, Host.leaves vpc q (k a)) ->
  Host.leaves vpc q (Host.bind m k).
Proof.
  intros Hm Hk st Hother. unfold Host.bind.
  destruct (Hm st Hother) as [Hdirs Hrecord].
  destruct (m st) as [[a|e] st']; simpl in *; [|split; assumption].
  destruct (Hk a st') as [Hdirs' Hrecord'].
  { rewrite (locate_on_dirs st st' vpc Hdirs). exact Hother. }
  split; congruence.
Qed.

Lemma leaves_for_each {A B} vpc q (l : list A) (body : A -> Host.M B) :
  (forall a, Host.leaves vpc q (body a)) -> Host.leaves vpc q (Host.for_each l body).
Proof.
  intros Hbody. induction l as [|a l IH]; simpl.
  - intros st _. split; reflexivity.
  - apply leaves_bind; [apply Hbody | intros _; exact IH].
Qed.

(** Writing the file [vpc] leads to changes no other. *)
Lemma leaves_dump_config vpc q config : Host.leaves vpc q (Host.dump_config vpc config).
Proof.
  intros st Hother. unfold Host.dump_config.
  destruct (Host.locate_on st vpc) as [p| | | |] eqn:Hlocation; try (split; reflexivity).
  split; [reflexivity|]. unfold Host.record_at. simpl.
  apply lookup_insert_ne. congruence.
Qed.

(** Removing the file [vpc] leads to changes no other. *)
Lemma leaves_unlink vpc q : Host.leaves vpc q (Host.unlink vpc).
Proof.
  intros st Hother. unfold Host.unlink.
  destruct (Host.locate_on st vpc) as [p| | | |] eqn:Hlocation; try (split; reflexivity).
  destruct (Host.record_at st p); [|split; reflexivity].
  split; [reflexivity|]. unfold Host.record_at. simpl.
  apply lookup_delete_ne. congruence.
Qed.

(** From here on the shell leaves the disk alone. *)
Hypothesis shell_keeps_disk : Host.keeps_disk shell.

Ltac leaves_step :=
  first [ apply leaves_dump_config | apply leaves_unlink
        | apply (leaves_only_runs _ _ _ shell_keeps_disk); repeat only_runs_step; fail
        | apply leaves_for_each; intros ?
        | apply leaves_bind; [|intros ?]
        | match goal with
          | |- Host.leaves _ _ (if ?b then _ else _) => destruct b
          | |- Host.leaves _ _ (match ?x with Some _ => _ | None => _ end) => destruct x
          end ].

Lemma leaves_create_vpc name cidr q :
  Host.leaves name q (Host.create_vpc max_str_digits shell name cidr).
Proof. unfold Host.create_vpc. cbv zeta. repeat leaves_step. Qed.

Lemma leaves_delete_subnet vpc subnet q :
  Host.leaves vpc q (Host.delete_subnet shell vpc subnet).
Proof. unfold Host.delete_subnet. cbv zeta. repeat leaves_step. Qed.

Lemma leaves_delete_vpc name q :
  Host.leaves name q (Host.delete_vpc shell name).
Proof.
  unfold Host.delete_vpc. cbv zeta.
  repeat first [ apply leaves_delete_subnet | leaves_step ].
Qed.

Lemma leaves_create_subnet vpc subnet cidr subnet_type q :
  Host.leaves vpc q (Host.create_subnet shell vpc subnet cidr subnet_type).
Proof. unfold Host.create_subnet. cbv zeta. repeat leaves_step. Qed.

(** No operation changes a file other than the one its name leads to. *)
Lemma leaves_run_operation o q :
  Host.leaves (operation_vpc o) q
    (Host.run_operation max_str_digits shell rules_files container_str o).
Proof.
  destruct o as [name cidr|name|op vpc subnet]; simpl.
  - apply leaves_create_vpc.
  - apply leaves_delete_vpc.
  - destruct op; simpl.
    + apply leaves_create_subnet.
    + apply leaves_delete_subnet.
    + apply (leaves_only_runs _ _ _ shell_keeps_disk), only_runs_setup_nat.
    + apply (leaves_only_runs _ _ _ shell_keeps_disk), only_runs_apply_firewall.
    + apply (leaves_only_runs _ _ _ shell_keeps_disk), only_runs_exec_command.
Qed.

End HostCommands.

(** ** The operations on the host *)

Section HostClaims.

Variable max_str_digits : nat.
Variable shell : Host.disk -> list event -> string -> Host.outcome * Host.disk.
Variable rules_files : string -> rules_file_content.
Variable container_str : json -> string.

(** C8, amended: for a name that leads to a file in a directory that is
    there, a valid CIDR and a shell that answers [ip link show] and leaves the
    disk alone, two calls in a row both return [True]; the second writes the
    record the first wrote, so the disk after the second call is the disk
    after the first: one record at the file, the fresh one, and every other
    file as it was. *)
Theorem create_vpc_twice_on_host name cidr p st :
  validate_cidr max_str_digits cidr = Ret true ->
  Host.locate_on st name = Host.File p ->
  Host.runs shell ("ip link show br-" +:+ name) ->
  Host.keeps_disk shell ->
  exists st1 st2,
    Host.create_vpc max_str_digits shell name cidr st = (Ret true, st1)
    /\ Host.create_vpc max_str_digits shell name cidr st1 = (Ret true, st2)
    /\ Host.on_disk st2 = Host.on_disk st1
    /\ Host.record_at st2 p = Some (fresh_config name cidr)
    /\ (forall q, q <> p -> Host.record_at st2 q = Host.record_at st q)
    /\ size (Host.files (Host.on_disk st2)) = size (Host.files (Host.on_disk st1)).
Proof.
  intros Hvalid Hfile Hruns Hkeeps. do 2 eexists.
  split; [apply (host_create_vpc_file _ _ _ _ p); assumption|].
  split; [apply (host_create_vpc_file _ _ _ _ p); assumption|].
  unfold Host.record_at, Host.write_file. simpl. rewrite insert_insert_eq.
  split; [reflexivity|]. split; [apply lookup_insert_eq|].
  split; [|reflexivity].
  intros q Hq. apply lookup_insert_ne. congruence.
Qed.

(** C5, amended: a subcommand naming a VPC without a record returns [False]
    and leaves the host as it was (no command, no write); so do
    [delete-subnet], [setup-nat], [apply-firewall] and [exec] naming a subnet
    that is not in the record of an existing VPC.  A name too long for a path,
    or one that leads to a directory, makes the subcommand raise [OSError]
    instead, the host again as it was. *)
Theorem not_found_on_host op vpc subnet st :
  (Host.no_record st vpc
   \/ (looks_up_subnet op = true
       /\ exists p config,
            Host.locate_on st vpc = Host.File p
            /\ Host.record_at st p = Some config
            /\ dict_get subnet (cfg_subnets config) = None) ->
   Host.run_subnet_op shell rules_files container_str op vpc subnet st = (Ret false, st))
  /\ (Host.locate_on st vpc = Host.NameTooLong \/ Host.locate_on st vpc = Host.Directory ->
      Host.run_subnet_op shell rules_files container_str op vpc subnet st
      = (Raise OSError, st)).
Proof.
  split.
  - intros [Habsent | (Hlooks & p & config & Hfile & Hrecord & Hsubnet)].
    + apply host_vpc_not_found, Habsent.
    + eapply host_subnet_not_found; eassumption.
  - apply host_vpc_unreadable.
Qed.

(** C7, amended: with the VPC and the subnet on record and a rules file
    that is there, [apply_firewall] builds its whole list of commands before
    it runs any.  If reading or parsing the file raises, it returns [False]
    and leaves the host as it was: no command has been issued, there is
    nothing to roll back.  If not, and every command of the list runs, it
    returns [True] having issued the six base rules in their order, then the
    rules of the file, then the two rules for ports 22 and 80.  If a command
    of the list holds a NUL byte, the call raises [ValueError] there: the
    commands before it have been issued and stay, the ones after it are not
    issued. *)
Theorem apply_firewall_rules_file_on_host vpc subnet path p config info st :
  Host.locate_on st vpc = Host.File p ->
  Host.record_at st p = Some config ->
  dict_get subnet (cfg_subnets config) = Some info ->
  path <> EmptyString ->
  path_exists rules_files path = true ->
  (forall e,
     custom_rules rules_files container_str (sn_namespace info) path = Raise e ->
     Host.apply_firewall shell rules_files container_str vpc subnet (Some path) st
     = (Ret false, st))
  /\ (forall custom,
        custom_rules rules_files container_str (sn_namespace info) path = Ret custom ->
        Forall (Host.runs shell)
               (base_rules (sn_namespace info) ++ custom ++ demo_rules (sn_namespace info)) ->
        exists st',
          Host.apply_firewall shell rules_files container_str vpc subnet (Some path) st
          = (Ret true, st')
          /\ Host.trace st'
             = Host.trace st
               ++ map Cmd (base_rules (sn_namespace info))
               ++ map Cmd custom
               ++ map Cmd (demo_rules (sn_namespace info)))
  /\ (forall custom before cmd after,
        custom_rules rules_files container_str (sn_namespace info) path = Ret custom ->
        base_rules (sn_namespace info) ++ custom ++ demo_rules (sn_namespace info)
        = before ++ cmd :: after ->
        Forall (Host.runs shell) before ->
        Host.has_nul cmd = true ->
        exists st',
          Host.apply_firewall shell rules_files container_str vpc subnet (Some path) st
          = (Raise ValueError, st')
          /\ Host.trace st' = Host.trace st ++ map Cmd before).
Proof.
  intros Hfile Hrecord Hsubnet Hpath Hexists.
  split; [|split].
  - intros e Hrules.
    rewrite (host_apply_firewall_found shell rules_files container_str vpc subnet (Some path)
               p config info st Hfile Hrecord Hsubnet),
            (truthy_str_path _ Hpath), Hexists, Hrules.
    reflexivity.
  - intros custom Hrules Hruns.
    rewrite (host_apply_firewall_found shell rules_files container_str vpc subnet (Some path)
               p config info st Hfile Hrecord Hsubnet),
            (truthy_str_path _ Hpath), Hexists, Hrules.
    unfold Host.bind. rewrite <- app_assoc, (host_run_all _ _ _ Hruns).
    eexists. split; [reflexivity|].
    rewrite ran_trace, !map_app. reflexivity.
  - intros custom before cmd after Hrules Hsplit Hruns Hnul.
    rewrite (host_apply_firewall_found shell rules_files container_str vpc subnet (Some path)
               p config info st Hfile Hrecord Hsubnet),
            (truthy_str_path _ Hpath), Hexists, Hrules.
    unfold Host.bind. rewrite <- app_assoc, Hsplit, (host_run_until_nul _ _ _ _ _ Hruns Hnul).
    eexists. split; [reflexivity|]. apply ran_trace.
Qed.

(** X3: for a name that leads to a file that is not there, in a directory
    that is, and a shell that answers and leaves the disk alone, [create_vpc]
    followed by [delete_vpc] both succeed and leave the disk exactly as it
    was. *)
Theorem create_vpc_delete_vpc_on_host name cidr p st :
  validate_cidr max_str_digits cidr = Ret true ->
  Host.locate_on st name = Host.File p ->
  Host.record_at st p = None ->
  Host.runs shell ("ip link show br-" +:+ name) ->
  Host.runs shell ("ip link set br-" +:+ name +:+ " down") ->
  Host.runs shell ("ip link delete br-" +:+ name +:+ " type bridge") ->
  Host.keeps_disk shell ->
  exists st1 st2,
    Host.create_vpc max_str_digits shell name cidr st = (Ret true, st1)
    /\ Host.delete_vpc shell name st1 = (Ret true, st2)
    /\ Host.on_disk st2 = Host.on_disk st.
Proof.
  intros Hvalid Hfile Habsent Hshow Hdown Hdelete Hkeeps. do 2 eexists.
  split; [apply (host_create_vpc_file _ _ _ _ p); assumption|].
  split.
  - apply (host_delete_vpc_no_subnets _ _ p (fresh_config name cidr));
      try assumption; try reflexivity.
    unfold Host.record_at, Host.write_file. simpl. apply lookup_insert_eq.
  - unfold Host.remove_file, Host.write_file, Host.record_at in *. simpl.
    rewrite delete_insert_id by exact Habsent.
    destruct (Host.on_disk st). reflexivity.
Qed.

(** X14: with a shell that leaves the disk alone, no operation changes a
    file other than the one the name of its VPC leads to, whether it returns
    or raises. *)
Theorem operation_frame_on_host o q st :
  Host.keeps_disk shell ->
  Host.locate_on st (operation_vpc o) <> Host.File q ->
  Host.record_at
    (snd (Host.run_operation max_str_digits shell rules_files container_str o st)) q
  = Host.record_at st q.
Proof.
  intros Hkeeps Hother.
  apply (leaves_run_operation max_str_digits shell rules_files container_str Hkeeps o q st Hother).
Qed.

(** X16: all that [setup-nat], [apply-firewall] and [exec] do to the host,
    whether they return or raise, is hand commands to the shell: they add
    nothing but commands to the trace, and with a shell that leaves the disk
    alone they leave the disk as it was. *)
Theorem reading_operations_keep_disk o st :
  reads_only o = true ->
  exists cmds,
    snd (Host.run_operation max_str_digits shell rules_files container_str o st)
    = Host.ran shell cmds st
    /\ Host.trace (snd (Host.run_operation max_str_digits shell rules_files
                                           container_str o st))
       = Host.trace st ++ map Cmd cmds
    /\ (Host.keeps_disk shell ->
        Host.on_disk (snd (Host.run_operation max_str_digits shell rules_files
                                              container_str o st))
        = Host.on_disk st).
Proof.
  intros Hreads.
  assert (Hruns : Host.only_runs shell
                    (Host.run_operation max_str_digits shell rules_files container_str o)).
  { destruct o as [name cidr|name|op vpc subnet]; try discriminate Hreads.
    destruct op; try discriminate Hreads; simpl.
    - apply only_runs_setup_nat.
    - apply only_runs_apply_firewall.
    - apply only_runs_exec_command. }
  destruct (Hruns st) as [cmds Hran]. exists cmds.
  split; [exact Hran|]. rewrite Hran.
  split; [apply ran_trace | apply ran_disk].
Qed.

End HostClaims.

(** ** The first part on the host *)

Lemma append_inj_r a b c : a +:+ c = b +:+ c -> a = b.
Proof.
  revert b. induction a as [|x a IH]; intros [|y b] Heq; simpl in Heq.
  - reflexivity.
  - apply (f_equal String.length) in Heq. simpl in Heq. rewrite length_append in Heq. lia.
  - apply (f_equal String.length) in Heq. simpl in Heq. rewrite length_append in Heq. lia.
  - injection Heq as -> Heq. rewrite (IH _ Heq). reflexivity.
Qed.

Lemma record_file_inj name1 name2 : record_file name1 = record_file name2 -> name1 = name2.
Proof.
  unfold record_file. intros Heq. apply app_inv_head in Heq.
  injection Heq as Heq. exact (append_inj_r _ _ _ Heq).
Qed.

Lemma nul_free_app events1 events2 :
  nul_free (events1 ++ events2) -> nul_free events1 /\ nul_free events2.
Proof.
  intros Hfree. split; intros cmd Hin; apply Hfree, elem_of_app; [left | right]; exact Hin.
Qed.

Lemma locate_on_plain st h name :
  on_host st h -> Host.plain_name name ->
  Host.locate_on h name = Host.File (record_file name).
Proof.
  intros (Htmp & Hdir & Hfiles & _) Hplain. unfold Host.locate_on, record_file.
  apply locate_plain; [exact Hplain | | |].
  - apply bool_decide_eq_true_2, Htmp.
  - apply bool_decide_eq_true_2, Hdir.
  - apply bool_decide_eq_false_2, (Hfiles name).
Qed.

Lemma on_host_record st h name :
  on_host st h -> Host.plain_name name ->
  Host.record_at h (record_file name) = files st !! name.
Proof. intros (_ & _ & _ & Hrecords & _). apply Hrecords. Qed.

Section Refinement.

Variable max_str_digits : nat.
Variable shell : list event -> string -> CompletedProcess.
Variable rules_files : string -> rules_file_content.
Variable container_str : json -> string.

Lemma simulates_ret {A} (a : A) : simulates (ret a) (Host.ret a).
Proof.
  split.
  - intros st. exists []. simpl. rewrite app_nil_r. reflexivity.
  - intros st h Hon _. exists h. split; [reflexivity | exact Hon].
Qed.

Lemma simulates_lift {A} (r : result A) : simulates (lift r) (Host.lift r).
Proof.
  split.
  - intros st. exists []. simpl. rewrite app_nil_r. reflexivity.
  - intros st h Hon _. exists h. split; [reflexivity | exact Hon].
Qed.

Lemma simulates_bind {A B} (m : M A) (mh : Host.M A) (k : A -> M B) (kh : A -> Host.M B) :
  simulates m mh -> (forall a, simulates (k a) (kh a)) ->
  simulates (bind m k) (Host.bind mh kh).
Proof.
  intros [Hgrows Hm] Hk. split.
  - intros st. unfold bind. destruct (Hgrows st) as [events Hevents].
    destruct (m st) as [[a|e] st']; simpl in *.
    + destruct (proj1 (Hk a) st') as [events' Hevents'].
      exists (events ++ events'). rewrite Hevents', Hevents, app_assoc. reflexivity.
    + exists events. exact Hevents.
  - intros st h Hon Hfree. unfold bind, Host.bind in *.
    specialize (Hm st h Hon).
    destruct (m st) as [[a|e] st'] eqn:Hrun; simpl in *.
    + destruct (proj1 (Hk a) st') as [events' Hevents'].
      destruct Hm as (h1 & -> & Hon1).
      { rewrite Hevents' in Hfree. apply (nul_free_app _ _ Hfree). }
      apply (proj2 (Hk a) st' h1 Hon1 Hfree).
    + destruct (Hm Hfree) as (h1 & -> & Hon1). exists h1. split; [reflexivity | exact Hon1].
Qed.

Lemma simulates_for_each {A B} (l : list A) (body : A -> M B) (bodyh : A -> Host.M B) :
  (forall a, simulates (body a) (bodyh a)) ->
  simulates (for_each l body) (Host.for_each l bodyh).
Proof.
  intros Hbody. induction l as [|a l IH]; simpl.
  - apply simulates_ret.
  - apply simulates_bind; [apply Hbody | intros _; exact IH].
Qed.

Lemma simulates_run_cmd cmd check :
  simulates (run_cmd shell cmd check) (Host.run_cmd (exiting shell) cmd check).
Proof.
  split.
  - intros st. exists [Cmd cmd]. unfold run_cmd.
    destruct (check && negb (returncode (shell (trace st) cmd) =? 0)); reflexivity.
  - intros st h Hon Hfree.
    assert (Hnul : Host.has_nul cmd = false).
    { apply Hfree. unfold run_cmd.
      destruct (check && negb (returncode (shell (trace st) cmd) =? 0)); simpl;
        apply elem_of_app; right; apply list_elem_of_here. }
    destruct Hon as (Htmp & Hdir & Hfiles & Hrecords & Htrace).
    unfold run_cmd, Host.run_cmd, exiting. rewrite Hnul. simpl. rewrite Htrace.
    destruct (check && negb (returncode (shell (trace st) cmd) =? 0));
      (eexists; split; [reflexivity|]; repeat split; simpl; try assumption;
       rewrite Htrace; reflexivity).
Qed.

(** Looking the record of a plain name up: [exists()] and [json.load] on the
    host, the key in the store. *)
Lemma simulates_lookup vpc (k : vpc_config -> M bool) (kh : vpc_config -> Host.M bool) :
  Host.plain_name vpc ->
  (forall config, simulates (k config) (kh config)) ->
  simulates
    (bind (load_config vpc)
          (fun loaded => match loaded with
                         | None => ret false
                         | Some config => k config
                         end))
    (Host.bind (Host.config_exists vpc)
               (fun found => if negb found then Host.ret false
                             else Host.bind (Host.load_config vpc) kh)).
Proof.
  intros Hplain Hk. split.
  - intros st. unfold bind, load_config.
    destruct (files st !! vpc) as [config|].
    + apply (proj1 (Hk config)).
    + exists []. simpl. rewrite app_nil_r. reflexivity.
  - intros st h Hon Hfree.
    pose proof (locate_on_plain _ _ _ Hon Hplain) as Hfile.
    pose proof (on_host_record _ _ _ Hon Hplain) as Hrecord.
    unfold bind, load_config in *. unfold Host.bind at 1, Host.config_exists.
    rewrite Hfile, Hrecord.
    destruct (files st !! vpc) as [config|] eqn:Hfound; simpl.
    + unfold Host.bind at 1, Host.load_config. rewrite Hfile, Hrecord.
      apply (proj2 (Hk config) st h Hon Hfree).
    + exists h. split; [reflexivity | exact Hon].
Qed.

Lemma simulates_dump_config vpc config :
  Host.plain_name vpc ->
  simulates (dump_config vpc config) (Host.dump_config vpc config).
Proof.
  intros Hplain. split.
  - intros st. exists [Write vpc config]. reflexivity.
  - intros st h Hon _.
    pose proof (locate_on_plain _ _ _ Hon Hplain) as Hfile.
    destruct Hon as (Htmp & Hdir & Hfiles & Hrecords & Htrace).
    unfold Host.dump_config. rewrite Hfile.
    eexists. split; [reflexivity|]. repeat split; simpl; try assumption.
    + intros name Hname. unfold Host.record_at. simpl.
      destruct (decide (name = vpc)) as [->|Hne].
      * rewrite !lookup_insert_eq. reflexivity.
      * rewrite !lookup_insert_ne; [apply Hrecords, Hname | congruence |].
        intros Heq. apply Hne. symmetry. exact (record_file_inj _ _ Heq).
    + rewrite Htrace. reflexivity.
Qed.

Lemma simulates_unlink vpc :
  Host.plain_name vpc -> simulates (unlink vpc) (Host.unlink vpc).
Proof.
  intros Hplain. split.
  - intros st. unfold unlink. destruct (files st !! vpc).
    + exists [Unlink vpc]. reflexivity.
    + exists []. simpl. rewrite app_nil_r. reflexivity.
  - intros st h Hon _.
    pose proof (locate_on_plain _ _ _ Hon Hplain) as Hfile.
    pose proof (on_host_record _ _ _ Hon Hplain) as Hrecord.
    destruct Hon as (Htmp & Hdir & Hfiles & Hrecords & Htrace).
    unfold unlink, Host.unlink. rewrite Hfile, Hrecord.
    destruct (files st !! vpc) as [config|].
    + eexists. split; [reflexivity|]. repeat split; simpl; try assumption.
      * intros name Hname. unfold Host.record_at. simpl.
        destruct (decide (name = vpc)) as [->|Hne].
        -- rewrite !lookup_delete_eq. reflexivity.
        -- rewrite !lookup_delete_ne; [apply Hrecords, Hname | congruence |].
           intros Heq. apply Hne. symmetry. exact (record_file_inj _ _ Heq).
      * rewrite Htrace. reflexivity.
    + exists h. split; [reflexivity|]. repeat split; assumption.
Qed.

Ltac simulates_step Hplain :=
  first [ apply simulates_ret | apply simulates_lift | apply simulates_run_cmd
        | apply simulates_dump_config; exact Hplain
        | apply simulates_unlink; exact Hplain
        | apply simulates_lookup; [exact Hplain | intros ?]
        | apply simulates_for_each; intros ?
        | apply simulates_bind; [|intros ?]
        | match goal with
          | |- simulates (if ?b then _ else _) _ => destruct b
          | |- simulates (match ?x with Some _ => _ | None => _ end) _ => destruct x
          end ].

Lemma simulates_create_vpc name cidr :
  Host.plain_name name ->
  simulates (create_vpc max_str_digits shell name cidr)
            (Host.create_vpc max_str_digits (exiting shell) name cidr).
Proof.
  intros Hplain. unfold create_vpc, Host.create_vpc. cbv zeta.
  repeat simulates_step Hplain.
Qed.

Lemma simulates_delete_subnet vpc subnet :
  Host.plain_name vpc ->
  simulates (delete_subnet shell vpc subnet) (Host.delete_subnet (exiting shell) vpc subnet).
Proof.
  intros Hplain. unfold delete_subnet, Host.delete_subnet. cbv zeta.
  repeat simulates_step Hplain.
Qed.

Lemma simulates_delete_vpc name :
  Host.plain_name name ->
  simulates (delete_vpc shell name) (Host.delete_vpc (exiting shell) name).
Proof.
  intros Hplain. unfold delete_vpc, Host.delete_vpc. cbv zeta.
  repeat first [ apply simulates_delete_subnet; exact Hplain | simulates_step Hplain ].
Qed.

Lemma simulates_create_subnet vpc subnet cidr subnet_type :
  Host.plain_name vpc ->
  simulates (create_subnet shell vpc subnet cidr subnet_type)
            (Host.create_subnet (exiting shell) vpc subnet cidr subnet_type).
Proof.
  intros Hplain. unfold create_subnet, Host.create_subnet. cbv zeta.
  repeat simulates_step Hplain.
Qed.

Lemma simulates_setup_nat vpc subnet host_interface :
  Host.plain_name vpc ->
  simulates (setup_nat shell vpc subnet host_interface)
            (Host.setup_nat (exiting shell) vpc subnet host_interface).
Proof.
  intros Hplain. unfold setup_nat, Host.setup_nat. cbv zeta.
  repeat simulates_step Hplain.
Qed.

Lemma simulates_exec_command vpc subnet command :
  Host.plain_name vpc ->
  simulates (exec_command shell vpc subnet command)
            (Host.exec_command (exiting shell) vpc subnet command).
Proof.
  intros Hplain. unfold exec_command, Host.exec_command. cbv zeta.
  repeat simulates_step Hplain.
Qed.

Lemma simulates_apply_firewall vpc subnet rules_file :
  Host.plain_name vpc ->
  simulates (apply_firewall shell rules_files container_str vpc subnet rules_file)
            (Host.apply_firewall (exiting shell) rules_files container_str
                                 vpc subnet rules_file).
Proof.
  intros Hplain. unfold apply_firewall, Host.apply_firewall. cbv zeta.
  repeat simulates_step Hplain.
Qed.

Lemma simulates_run_operation o :
  Host.plain_name (operation_vpc o) ->
  simulates (run_operation max_str_digits shell rules_files container_str o)
            (Host.run_operation max_str_digits (exiting shell) rules_files container_str o).
Proof.
  intros Hplain. destruct o as [name cidr|name|op vpc subnet]; simpl in *.
  - apply simulates_create_vpc, Hplain.
  - apply simulates_delete_vpc, Hplain.
  - destruct op; simpl.
    + apply simulates_create_subnet, Hplain.
    + apply simulates_delete_subnet, Hplain.
    + apply simulates_setup_nat, Hplain.
    + apply simulates_apply_firewall, Hplain.
    + apply simulates_exec_command, Hplain.
Qed.

(** X20: on a name that is a file name, with a shell whose commands exit and
    leave the disk alone, and as long as no command holds a NUL byte, the
    host does what the first part says: an operation returns the same, adds
    the same events, and leaves the same records. *)
Theorem host_does_what_store_does o st h :
  on_host st h ->
  Host.plain_name (operation_vpc o) ->
  nul_free (trace (snd (run_operation max_str_digits shell rules_files container_str o st))) ->
  exists h',
    Host.run_operation max_str_digits (exiting shell) rules_files container_str o h
    = (fst (run_operation max_str_digits shell rules_files container_str o st), h')
    /\ on_host (snd (run_operation max_str_digits shell rules_files container_str o st)) h'.
Proof.
  intros Hon Hplain Hfree.
  exact (proj2 (simulates_run_operation o Hplain) st h Hon Hfree).
Qed.

End Refinement.

(** * The properties on the host at work on the examples *)

Lemma demo_shell_runs cmd : Host.has_nul cmd = false -> Host.runs Host.demo_shell cmd.
Proof. intros Hnul. split; [exact Hnul | intros d history; eexists; reflexivity]. Defined.

Lemma demo_shell_keeps_disk : Host.keeps_disk Host.demo_shell.
Proof. intros d history cmd. reflexivity. Defined.

(** C8, as stated, fails: [a/b] leads into a directory that is not there;
    with a valid CIDR the first call raises when it opens the file, and so
    does the second: neither succeeds and no record is persisted. *)
Lemma create_vpc_in_missing_directory_raises :
  validate_cidr 4300 "10.0.0.0/8" = Ret true
  /\ Host.locate_on Host.empty_host "a/b" = Host.NoSuchDirectory
  /\ fst (Host.create_vpc 4300 Host.demo_shell "a/b" "10.0.0.0/8" Host.empty_host)
     = Raise OSError
  /\ Host.files (Host.on_disk
       (snd (Host.create_vpc 4300 Host.demo_shell "a/b" "10.0.0.0/8" Host.empty_host)))
     = ∅
  /\ fst (Host.create_vpc 4300 Host.demo_shell "a/b" "10.0.0.0/8"
            (snd (Host.create_vpc 4300 Host.demo_shell "a/b" "10.0.0.0/8" Host.empty_host)))
     = Raise OSError
  /\ Host.files (Host.on_disk
       (snd (Host.create_vpc 4300 Host.demo_shell "a/b" "10.0.0.0/8"
          (snd (Host.create_vpc 4300 Host.demo_shell "a/b" "10.0.0.0/8" Host.empty_host)))))
     = ∅.
Proof. repeat split; vm_compute; reflexivity. Qed.

Lemma create_vpc_twice_on_host_witness :
  validate_cidr 4300 "10.1.0.0/16" = Ret true
  /\ Host.locate_on Host.empty_host "test" = Host.File Host.test_json
  /\ Host.runs Host.demo_shell "ip link show br-test"
  /\ Host.keeps_disk Host.demo_shell
  /\ exists st1 st2,
       Host.create_vpc 4300 Host.demo_shell "test" "10.1.0.0/16" Host.empty_host
       = (Ret true, st1)
       /\ Host.create_vpc 4300 Host.demo_shell "test" "10.1.0.0/16" st1 = (Ret true, st2)
       /\ Host.on_disk st2 = Host.on_disk st1
       /\ Host.record_at st2 Host.test_json = Some (fresh_config "test" "10.1.0.0/16")
       /\ (forall q, q <> Host.test_json ->
                     Host.record_at st2 q = Host.record_at Host.empty_host q)
       /\ size (Host.files (Host.on_disk st2)) = size (Host.files (Host.on_disk st1)).
Proof.
  split; [reflexivity|]. split; [vm_compute; reflexivity|].
  split; [apply demo_shell_runs; reflexivity|].
  split; [exact demo_shell_keeps_disk|].
  apply (create_vpc_twice_on_host 4300 Host.demo_shell "test" "10.1.0.0/16"
           Host.test_json Host.empty_host).
  - reflexivity.
  - vm_compute; reflexivity.
  - apply demo_shell_runs; reflexivity.
  - exact demo_shell_keeps_disk.
Defined.

(** C5, as stated, fails: no record is held under a name of 300 characters,
    and yet [create-subnet], [setup-nat] and [apply-firewall] with that name
    do not return the failure: [config_file.exists()] raises [OSError]. *)
Lemma long_name_raises :
  Host.files (Host.on_disk Host.empty_host) = ∅
  /\ Host.locate_on Host.empty_host Host.long_name = Host.NameTooLong
  /\ Host.run_subnet_op Host.demo_shell no_rules_files no_container_str
       (OpCreateSubnet "10.1.1.0/24" "public") Host.long_name "web" Host.empty_host
     = (Raise OSError, Host.empty_host)
  /\ Host.run_subnet_op Host.demo_shell no_rules_files no_container_str
       (OpSetupNat "eth0") Host.long_name "web" Host.empty_host
     = (Raise OSError, Host.empty_host)
  /\ Host.run_subnet_op Host.demo_shell no_rules_files no_container_str
       (OpApplyFirewall None) Host.long_name "web" Host.empty_host
     = (Raise OSError, Host.empty_host).
Proof. repeat split; vm_compute; reflexivity. Qed.

Lemma not_found_on_host_witness :
  (Host.no_record Host.host_test "test"
   \/ (looks_up_subnet OpDeleteSubnet = true
       /\ exists p config,
            Host.locate_on Host.host_test "test" = Host.File p
            /\ Host.record_at Host.host_test p = Some config
            /\ dict_get "cache" (cfg_subnets config) = None))
  /\ Host.run_subnet_op Host.demo_shell no_rules_files no_container_str
       OpDeleteSubnet "test" "cache" Host.host_test
     = (Ret false, Host.host_test).
Proof.
  assert (Habsent : Host.no_record Host.host_test "test"
                    \/ (looks_up_subnet OpDeleteSubnet = true
                        /\ exists p config,
                             Host.locate_on Host.host_test "test" = Host.File p
                             /\ Host.record_at Host.host_test p = Some config
                             /\ dict_get "cache" (cfg_subnets config) = None)).
  { right. split; [reflexivity|]. exists Host.test_json, config_test.
    split; [vm_compute; reflexivity|]. split; [vm_compute; reflexivity | reflexivity]. }
  split; [exact Habsent|].
  apply (proj1 (not_found_on_host Host.demo_shell no_rules_files no_container_str
                  OpDeleteSubnet "test" "cache" Host.host_test) Habsent).
Defined.

Lemma apply_firewall_rules_file_on_host_witness :
  Host.locate_on Host.host_test "test" = Host.File Host.test_json
  /\ Host.record_at Host.host_test Host.test_json = Some config_test
  /\ dict_get "web" (cfg_subnets config_test) = Some subnet_web
  /\ "nul.json" <> EmptyString
  /\ path_exists Host.nul_rules_files "nul.json" = true
  /\ exists st',
       Host.apply_firewall Host.demo_shell Host.nul_rules_files no_container_str
         "test" "web" (Some "nul.json") Host.host_test
       = (Raise ValueError, st')
       /\ Host.trace st'
          = Host.trace Host.host_test
            ++ map Cmd (base_rules "ns-test-web"
                        ++ ["ip netns exec ns-test-web iptables -A INPUT -p tcp --dport 443 -j ACCEPT"]).
Proof.
  split; [vm_compute; reflexivity|]. split; [vm_compute; reflexivity|].
  split; [reflexivity|]. split; [discriminate|]. split; [reflexivity|].
  apply (proj2 (proj2 (apply_firewall_rules_file_on_host Host.demo_shell Host.nul_rules_files
                         no_container_str "test" "web" "nul.json" Host.test_json
                         config_test subnet_web Host.host_test
                         ltac:(vm_compute; reflexivity) ltac:(vm_compute; reflexivity)
                         eq_refl ltac:(discriminate) eq_refl))
           ["ip netns exec ns-test-web iptables -A INPUT -p tcp --dport 443 -j ACCEPT";
            String.append "ip netns exec ns-test-web iptables -A INPUT -p tcp --dport "
              (String.append (String "000" "80") " -j ACCEPT")]
           (base_rules "ns-test-web"
            ++ ["ip netns exec ns-test-web iptables -A INPUT -p tcp --dport 443 -j ACCEPT"])
           (String.append "ip netns exec ns-test-web iptables -A INPUT -p tcp --dport "
              (String.append (String "000" "80") " -j ACCEPT"))
           (demo_rules "ns-test-web")).
  - reflexivity.
  - reflexivity.
  - repeat (constructor; [apply demo_shell_runs; reflexivity|]). constructor.
  - reflexivity.
Defined.

Lemma create_vpc_delete_vpc_on_host_witness :
  validate_cidr 4300 "10.1.0.0/16" = Ret true
  /\ Host.locate_on Host.empty_host "test" = Host.File Host.test_json
  /\ Host.record_at Host.empty_host Host.test_json = None
  /\ Host.runs Host.demo_shell "ip link show br-test"
  /\ Host.runs Host.demo_shell "ip link set br-test down"
  /\ Host.runs Host.demo_shell "ip link delete br-test type bridge"
  /\ Host.keeps_disk Host.demo_shell
  /\ exists st1 st2,
       Host.create_vpc 4300 Host.demo_shell "test" "10.1.0.0/16" Host.empty_host
       = (Ret true, st1)
       /\ Host.delete_vpc Host.demo_shell "test" st1 = (Ret true, st2)
       /\ Host.on_disk st2 = Host.on_disk Host.empty_host.
Proof.
  split; [reflexivity|]. split; [vm_compute; reflexivity|]. split; [reflexivity|].
  split; [apply demo_shell_runs; reflexivity|].
  split; [apply demo_shell_runs; reflexivity|].
  split; [apply demo_shell_runs; reflexivity|].
  split; [exact demo_shell_keeps_disk|].
  apply (create_vpc_delete_vpc_on_host 4300 Host.demo_shell "test" "10.1.0.0/16"
           Host.test_json Host.empty_host).
  - reflexivity.
  - vm_compute; reflexivity.
  - reflexivity.
  - apply demo_shell_runs; reflexivity.
  - apply demo_shell_runs; reflexivity.
  - apply demo_shell_runs; reflexivity.
  - exact demo_shell_keeps_disk.
Defined.

Lemma operation_frame_on_host_witness :
  Host.keeps_disk Host.demo_shell
  /\ Host.locate_on Host.host_two (operation_vpc (OpDeleteVpc "prod"))
     <> Host.File Host.test_json
  /\ Host.record_at
       (snd (Host.run_operation 4300 Host.demo_shell no_rules_files no_container_str
               (OpDeleteVpc "prod") Host.host_two)) Host.test_json
     = Host.record_at Host.host_two Host.test_json.
Proof.
  split; [exact demo_shell_keeps_disk|].
  assert (Hother : Host.locate_on Host.host_two (operation_vpc (OpDeleteVpc "prod"))
                   <> Host.File Host.test_json)
    by (vm_compute; discriminate).
  split; [exact Hother|].
  apply (operation_frame_on_host 4300 Host.demo_shell no_rules_files no_container_str
           (OpDeleteVpc "prod") Host.test_json Host.host_two demo_shell_keeps_disk Hother).
Defined.

Lemma reading_operations_keep_disk_witness :
  reads_only (OpOnSubnet (OpExec "true") "test" "web") = true
  /\ exists cmds,
       snd (Host.run_operation 4300 Host.demo_shell no_rules_files no_container_str
              (OpOnSubnet (OpExec "true") "test" "web") Host.host_test)
       = Host.ran Host.demo_shell cmds Host.host_test
       /\ Host.trace
            (snd (Host.run_operation 4300 Host.demo_shell no_rules_files no_container_str
                    (OpOnSubnet (OpExec "true") "test" "web") Host.host_test))
          = Host.trace Host.host_test ++ map Cmd cmds
       /\ (Host.keeps_disk Host.demo_shell ->
           Host.on_disk
             (snd (Host.run_operation 4300 Host.demo_shell no_rules_files no_container_str
                     (OpOnSubnet (OpExec "true") "test" "web") Host.host_test))
           = Host.on_disk Host.host_test).
Proof.
  split; [reflexivity|].
  apply (reading_operations_keep_disk 4300 Host.demo_shell no_rules_files no_container_str
           (OpOnSubnet (OpExec "true") "test" "web") Host.host_test eq_refl).
Defined.

(** Two names, one file: [./test] leads where [test] leads, so [create_vpc]
    on [./test] replaces the record of [test]; the VPC [prod] keeps its
    record. *)
Example dot_slash_names_the_same_file :
  Host.locate_on Host.host_two "./test" = Host.locate_on Host.host_two "test"
  /\ Host.record_at
       (snd (Host.create_vpc 4300 Host.demo_shell "./test" "10.9.0.0/16" Host.host_two))
       Host.test_json
     = Some (fresh_config "./test" "10.9.0.0/16")
  /\ Host.record_at
       (snd (Host.create_vpc 4300 Host.demo_shell "./test" "10.9.0.0/16" Host.host_two))
       Host.prod_json
     = Some (fresh_config "prod" "10.2.0.0/16")
  /\ Host.record_at
       (snd (Host.run_operation 4300 Host.demo_shell no_rules_files no_container_str
               (OpDeleteVpc "prod") Host.host_two)) Host.test_json
     = Some config_test.
Proof. repeat split; vm_compute; reflexivity. Qed.

Lemma nul_free_forallb events :
  forallb (fun e => match e with
                    | Cmd cmd => negb (Host.has_nul cmd)
                    | _ => true
                    end) events = true ->
  nul_free events.
Proof.
  intros Hall cmd Hin. rewrite forallb_forall in Hall.
  apply list_elem_of_In, Hall in Hin. apply negb_true_iff in Hin. exact Hin.
Qed.

Lemma on_host_test : on_host store_test Host.host_test.
Proof.
  split; [apply elem_of_union; left; apply elem_of_singleton; reflexivity|].
  split; [apply elem_of_union; right; apply elem_of_singleton; reflexivity|].
  split.
  { intros name Hin. apply elem_of_union in Hin as [Hin|Hin];
      apply elem_of_singleton in Hin; discriminate Hin. }
  split; [|reflexivity].
  intros name _. unfold Host.record_at, Host.host_test, store_test. simpl.
  destruct (decide (name = "test")) as [->|Hne].
  - rewrite lookup_singleton_eq. symmetry. apply lookup_singleton_eq.
  - rewrite (lookup_singleton_ne "test" name) by congruence.
    apply lookup_singleton_ne. intros Heq. apply Hne. symmetry.
    exact (record_file_inj "test" name Heq).
Qed.

Lemma host_does_what_store_does_witness :
  on_host store_test Host.host_test
  /\ Host.plain_name (operation_vpc (OpOnSubnet OpDeleteSubnet "test" "web"))
  /\ nul_free (trace (snd (run_operation 4300 shell_all_fail no_rules_files no_container_str
                             (OpOnSubnet OpDeleteSubnet "test" "web") store_test)))
  /\ exists h',
       Host.run_operation 4300 (exiting shell_all_fail) no_rules_files no_container_str
         (OpOnSubnet OpDeleteSubnet "test" "web") Host.host_test
       = (fst (run_operation 4300 shell_all_fail no_rules_files no_container_str
                 (OpOnSubnet OpDeleteSubnet "test" "web") store_test), h')
       /\ on_host (snd (run_operation 4300 shell_all_fail no_rules_files no_container_str
                          (OpOnSubnet OpDeleteSubnet "test" "web") store_test)) h'.
Proof.
  assert (Hplain : Host.plain_name (operation_vpc (OpOnSubnet OpDeleteSubnet "test" "web")))
    by (repeat split; simpl; lia).
  assert (Hfree : nul_free
            (trace (snd (run_operation 4300 shell_all_fail no_rules_files no_container_str
                           (OpOnSubnet OpDeleteSubnet "test" "web") store_test))))
    by (apply nul_free_forallb; vm_compute; reflexivity).
  split; [exact on_host_test|]. split; [exact Hplain|]. split; [exact Hfree|].
  apply (host_does_what_store_does 4300 shell_all_fail no_rules_files no_container_str
           (OpOnSubnet OpDeleteSubnet "test" "web") store_test Host.host_test
           on_host_test Hplain Hfree).
Defined.

Example delete_subnet_on_host_test :
  Host.run_operation 4300 (exiting shell_all_fail) no_rules_files no_container_str
    (OpOnSubnet OpDeleteSubnet "test" "web") Host.host_test
  = (Ret true,
     Host.mkHost
       (Host.write_file Host.test_json (without_subnet config_test "web")
                        (Host.on_disk Host.host_test))
       [Cmd "ip netns delete ns-test-web"; Write "test" (without_subnet config_test "web")]).
Proof. vm_compute. reflexivity. Qed.
